(** * Queen genotype inference from drone genotypes

    A shallow embedding of the scripts of the QueenGT_inference repository:

    - [Untitled-1.py], the parallel pipeline (pedigree list, per-queen
      task, consensus rule, merge, sorted output), and
    - [infer_queen_GT2_latest.py], the older single-process script, whose
      list reader and counting rule are kept in [Module Legacy].

    Python values are modelled as follows.  A [str] is a [string] (its
    UTF-8 bytes; only ASCII white space is treated as white space and only
    ASCII digits as digits, so that the model is exact on ASCII text).  An
    [int] is a [Z], a [len] is a [nat].  A [float] is a primitive binary64
    [float], so that [/], [-] and [<] round and compare as they do in
    CPython.  A text file is the [list string] that iterating over it
    yields (each line with its terminator).  A [dict] whose iteration order
    is observed is an association list in insertion order; a [dict] that is
    only looked up is a [gmap].  A call that can raise returns a [result].

    The environment is assumed to let the scripts read their input files
    and write their output file.  [main] and [write_combined_vcf] stand
    for the run up to the last line written to the uncompressed output;
    [WithTools.write_combined_vcf] and [WithTools.main] add the calls to
    [bgzip] and [tabix] that follow, whose outcome is the environment's.

    Not modelled: [parse_args] and the [--version] switch (the options
    reach [main] as the record [args]), [open_maybe_gz] (a file is given by
    its lines), and the progress bar. *)

From Stdlib Require Import ZArith String Ascii Floats Uint63 Lia.
From Stdlib Require Import DecimalString.
From Stdlib Require Import OrderedTypeEx.
From stdpp Require Import base option list sorting strings gmap.

#[local] Set Warnings "-clear-no-such-hyp".

(** ** Exceptions *)

Inductive exn : Type :=
  | ValueError (msg : string)
  | ZeroDivisionError
  | KeyError (key : string)
  | CalledProcessError (returncode : Z) (cmd : list string)
  | OSError (strerror : string).

Inductive result (A : Type) : Type :=
  | Ok (a : A)
  | Raise (e : exn).
Arguments Ok {A} a.
Arguments Raise {A} e.

#[global] Instance result_ret : MRet result := @Ok.
#[global] Instance result_bind : MBind result := fun A B f m =>
  match m with
  | Ok a => f a
  | Raise e => Raise e
  end.
#[global] Instance result_fmap : FMap result := fun A B f m =>
  match m with
  | Ok a => Ok (f a)
  | Raise e => Raise e
  end.

(** [[f(x) for x in l]] for an [f] that can raise: the first failure wins. *)
Fixpoint traverse {A B : Type} (f : A -> result B) (l : list A) : result (list B) :=
  match l with
  | [] => Ok []
  | x :: l' => y ← f x; ys ← traverse f l'; Ok (y :: ys)
  end.

(** ** Python built-ins on strings *)

Module Py.

Definition TAB : ascii := "009"%char.
Definition NL : ascii := "010"%char.

(** [str.isspace] on one ASCII character. *)
Definition isspace (c : ascii) : bool :=
  let n := nat_of_ascii c in
  ((9 <=? n) && (n <=? 13) || (28 <=? n) && (n <=? 32))%nat.

Fixpoint lstrip (s : string) : string :=
  match s with
  | String c s' => if isspace c then lstrip s' else s
  | EmptyString => EmptyString
  end.

Definition rstrip (s : string) : string := String.rev (lstrip (String.rev s)).

(** [s.strip()] *)
Definition strip (s : string) : string := rstrip (lstrip s).

(** [s.lstrip(c)] for a one-character argument. *)
Fixpoint lstrip_chr (c : ascii) (s : string) : string :=
  match s with
  | String c' s' => if Ascii.eqb c' c then lstrip_chr c s' else s
  | EmptyString => EmptyString
  end.

(** [s.startswith(p)] *)
Definition startswith (p s : string) : bool := String.prefix p s.

(** [s.split(sep)] for a one-character separator: empty fields are kept
    and the result is never empty. *)
Fixpoint split (sep : ascii) (s : string) : list string :=
  match s with
  | EmptyString => [EmptyString]
  | String c s' =>
      if Ascii.eqb c sep then EmptyString :: split sep s'
      else match split sep s' with
           | f :: fs => String c f :: fs
           | [] => [String c EmptyString]
           end
  end.

(** [s.split()]: fields are the maximal runs of non-space characters.
    [tok] is the field being read, reversed. *)
Fixpoint split_ws_from (tok : option string) (s : string) : list string :=
  match s with
  | EmptyString =>
      match tok with Some t => [String.rev t] | None => [] end
  | String c s' =>
      if isspace c then
        match tok with
        | Some t => String.rev t :: split_ws_from None s'
        | None => split_ws_from None s'
        end
      else split_ws_from (Some (String c (default EmptyString tok))) s'
  end.

Definition split_ws (s : string) : list string := split_ws_from None s.

(** [c in s] for a one-character [c]. *)
Fixpoint contains (c : ascii) (s : string) : bool :=
  match s with
  | EmptyString => false
  | String c' s' => Ascii.eqb c' c || contains c s'
  end.

(** [sep.join(l)] *)
Definition join (sep : string) (l : list string) : string := String.concat sep l.

Definition digit_val (c : ascii) : option Z :=
  let n := nat_of_ascii c in
  if ((48 <=? n) && (n <=? 57))%nat then Some (Z.of_nat n - 48)%Z else None.

(** The digits of an [int] literal: decimal digits, with single
    underscores allowed between two digits. *)
Fixpoint int_digits (acc : Z) (after_digit : bool) (s : string) : option Z :=
  match s with
  | EmptyString => if after_digit then Some acc else None
  | String c s' =>
      match digit_val c with
      | Some d => int_digits (10 * acc + d)%Z true s'
      | None =>
          if Ascii.eqb c "_"%char && after_digit then int_digits acc false s'
          else None
      end
  end.

(** The white space that [int] skips around a literal: the six
    characters of C's [isspace].  The separators [\x1c] to [\x1f], which
    [str.isspace] and [str.strip] take for white space, are not among
    them. *)
Definition isspace_c (c : ascii) : bool :=
  let n := nat_of_ascii c in
  ((9 <=? n) && (n <=? 13) || (n =? 32))%nat.

Fixpoint lstrip_c (s : string) : string :=
  match s with
  | String c s' => if isspace_c c then lstrip_c s' else s
  | EmptyString => EmptyString
  end.

Definition strip_c (s : string) : string :=
  String.rev (lstrip_c (String.rev (lstrip_c s))).

(** The number of decimal digits of a literal, which [int] limits to
    [sys.get_int_max_str_digits()]: 4300 unless the interpreter was told
    otherwise. *)
Fixpoint count_digits (s : string) : nat :=
  match s with
  | EmptyString => 0
  | String c s' =>
      match digit_val c with Some _ => 1 | None => 0 end + count_digits s'
  end.

Definition max_str_digits : nat := 4300.

(** The value of the digits [s'] of a literal and of its sign. *)
Definition int_value (sign : Z -> Z) (s' : string) : result Z :=
  match int_digits 0 false s' with
  | Some z =>
      if (count_digits s' <=? max_str_digits)%nat then Ok (sign z)
      else Raise (ValueError "Exceeds the limit (4300 digits) for integer string conversion")
  | None => Raise (ValueError "invalid literal for int() with base 10")
  end.

(** [int(s)] on ASCII text: white space, an optional sign, the digits,
    white space.  (A [str] with characters outside ASCII is refused here,
    also where CPython reads its decimal digits or skips its white space;
    of the message of a [ValueError] only the kind is kept.) *)
Definition int (s : string) : result Z :=
  match strip_c s with
  | String "-"%char s' => int_value Z.opp s'
  | String "+"%char s' => int_value id s'
  | s' => int_value id s'
  end.

(** [a / b] on two list lengths: true division, which raises on a zero
    divisor.  Both conversions are exact below [2^53], far above the
    length of any list of samples. *)
Definition float_of_len (n : nat) : float :=
  PrimFloat.of_uint63 (Uint63.of_Z (Z.of_nat n)).

Definition truediv (a b : nat) : result float :=
  match b with
  | O => Raise ZeroDivisionError
  | S _ => Ok (PrimFloat.div (float_of_len a) (float_of_len b))
  end.

(** An insertion-ordered [dict] with [str] keys.  [upsert k f d] is
    [d[k] = f(d.get(k))]: the value is replaced in place when [k] is
    present and the key is appended otherwise. *)
Definition odict (V : Type) : Type := list (string * V).

Fixpoint upsert {V : Type} (k : string) (f : option V -> V) (d : odict V) : odict V :=
  match d with
  | [] => [(k, f None)]
  | (k', v) :: d' =>
      if decide (k' = k) then (k', f (Some v)) :: d'
      else (k', v) :: upsert k f d'
  end.

Definition setitem {V : Type} (k : string) (v : V) (d : odict V) : odict V :=
  upsert k (fun _ => v) d.

Fixpoint get {V : Type} (k : string) (d : odict V) : option V :=
  match d with
  | [] => None
  | (k', v) :: d' => if decide (k' = k) then Some v else get k d'
  end.

Definition keys {V : Type} (d : odict V) : list string := d.*1.

(** [dict(pairs)]: a later pair overrides an earlier one with the same key. *)
Definition dict_of_pairs {V : Type} (l : list (string * V)) : gmap string V :=
  foldl (fun m kv => <[kv.1 := kv.2]> m) ∅ l.

(** [d[k]] on a plain [dict]. *)
Definition getitem {V : Type} (d : gmap string V) (k : string) : result V :=
  match d !! k with
  | Some v => Ok v
  | None => Raise (KeyError k)
  end.

End Py.

(** ** Consensus genotype inference ([infer_queen_gt_from_list]) *)

(** The local [valid_gts]: the calls that are not missing in the given mode. *)
Definition valid_gts (haploid : bool) (drone_gts : list string) : list string :=
  if haploid then filter (fun gt => gt ∉ ["."; ""]) drone_gts
  else filter (fun gt => gt ∉ ["./."; ""]) drone_gts.

(** The local [alt_count]: [sum(1 for gt in valid_gts if gt != ref)]. *)
Definition alt_count (haploid : bool) (valid : list string) : nat :=
  if haploid then sum_list ((fun _ => 1) <$> filter (fun gt => gt ≠ "0") valid)
  else sum_list ((fun _ => 1) <$> filter (fun gt => gt ≠ "0/0") valid).

Definition infer_queen_gt_from_list (drone_gts : list string) (threshold : float)
    (min_drones : Z) (haploid : bool) : result string :=
  let valid := valid_gts haploid drone_gts in
  let total := length valid in
  if (Z.of_nat total <? min_drones)%Z then Ok "./."
  else
    let alt := alt_count haploid valid in
    ratio ← Py.truediv alt total;
    if (ratio <? threshold)%float then Ok "0/0"
    else if (1 - threshold <? ratio)%float then Ok "1/1"
    else Ok "0/1".

(** ** The per-queen task ([get_queen_genotypes]) *)

Definition TABs : string := String Py.TAB EmptyString.
Definition NLs : string := String Py.NL EmptyString.

(** A loop body that can raise, run over a list from left to right. *)
Fixpoint foldM {A B : Type} (f : A -> B -> result A) (a : A) (l : list B) : result A :=
  match l with
  | [] => Ok a
  | x :: l' => a' ← f a x; foldM f a' l'
  end.

(** What a task returns: [(queen_name, genotypes, info_map)]. *)
Definition task_result : Type :=
  (string * Py.odict string * gmap string (list string))%type.

(** The first loop over the file: the stripped [#CHROM] line, if there is
    one, and the lines the iterator has not consumed yet. *)
Fixpoint find_chrom_line (f : list string) : option string * list string :=
  match f with
  | [] => (None, [])
  | line :: f' =>
      if Py.startswith "#CHROM" line then (Some (Py.strip line), f')
      else find_chrom_line f'
  end.

(** The call one drone contributes at one row (lines 94-95). *)
Definition drone_call (sample_data : gmap string string) (d : string) : string :=
  let gt := default "./." (sample_data !! d) in
  if decide (gt ≠ ".") then default "" (head (Py.split ":"%char gt)) else "./.".

(** The body of the second loop, on the two accumulators. *)
Definition process_line (sample_names drones : list string) (threshold : float)
    (min_drones : Z) (haploid : bool)
    (st : Py.odict string * gmap string (list string)) (line : string)
    : result (Py.odict string * gmap string (list string)) :=
  if Py.startswith "#" line then Ok st
  else
    let parts := Py.split Py.TAB (Py.strip line) in
    let info_cols := take 9 parts in
    let sample_data := Py.dict_of_pairs (zip sample_names (drop 9 parts)) in
    let variant_key := Py.join TABs (take 5 parts) in
    let drone_gts := drone_call sample_data <$> drones in
    queen_gt ← infer_queen_gt_from_list drone_gts threshold min_drones haploid;
    Ok (Py.setitem variant_key queen_gt st.1, <[variant_key := info_cols]> st.2).

Definition get_queen_genotypes (input_vcf : list string) (queen_name : string)
    (drones : list string) (threshold : float) (min_drones : Z) (haploid : bool)
    : result task_result :=
  match find_chrom_line input_vcf with
  | (Some (String _ _ as header_line), rest) =>
      let cols := Py.split Py.TAB (Py.lstrip_chr "#"%char header_line) in
      let sample_names := drop 9 cols in
      st ← foldM (process_line sample_names drones threshold min_drones haploid) ([], ∅) rest;
      Ok (queen_name, st.1, st.2)
  | _ => Raise (ValueError "No #CHROM line found in VCF")
  end.

(** No line of the file starts with [#CHROM]. *)
Definition no_chrom_line (vcf : list string) : Prop :=
  Forall (fun line => Py.startswith "#CHROM" line = false) vcf.

(** ** Header, sorting and writing *)

Fixpoint extract_samples_from_header (vcf_file : list string) : list string :=
  match vcf_file with
  | [] => []
  | line :: f' =>
      if Py.startswith "#CHROM" line
      then drop 9 (Py.split Py.TAB (Py.strip (Py.lstrip_chr "#"%char line)))
      else extract_samples_from_header f'
  end.

Definition variant_key_sorter (key : string) : result (string * Z) :=
  match Py.split Py.TAB key with
  | chrom :: pos :: _ => pos' ← Py.int pos; Ok (chrom, pos')
  | _ => Raise (ValueError "not enough values to unpack")
  end.

(** [a < b] on two [(str, int)] tuples. *)
Definition key_lt (a b : string * Z) : bool :=
  if String.eqb a.1 b.1 then (a.2 <? b.2)%Z else String.ltb a.1 b.1.

(** [b] need not move in front of [a]: what a stable sort preserves. *)
Definition key_le (a b : string * Z) : Prop := key_lt b a = false.

(** One step of a stable insertion sort that only uses [<] on the keys:
    [x], which comes before every element of [l] in the input, goes in
    front of the first element that is not smaller than it. *)
Fixpoint insert_by_key {A : Type} (x : (string * Z) * A) (l : list ((string * Z) * A))
    : list ((string * Z) * A) :=
  match l with
  | [] => [x]
  | y :: l' => if key_lt y.1 x.1 then y :: insert_by_key x l' else x :: y :: l'
  end.

Definition sort_by_key {A : Type} (l : list ((string * Z) * A)) : list ((string * Z) * A) :=
  foldr insert_by_key [] l.

(** [sorted(l, key=f)]: the key of every element is computed first, then
    the list is sorted on the keys.  The sort is stable and compares with
    [<] only, which fixes its result; it is written here as an insertion
    sort. *)
Definition sorted (f : string -> result (string * Z)) (l : list string) : result (list string) :=
  keyed ← traverse (fun k => sk ← f k; Ok (sk, k)) l;
  Ok (sort_by_key keyed).*2.

(** The order of the output rows: chromosome names in lexicographic order
    of their characters, then positions in increasing order. *)
Definition chrom_pos_le (a b : string * Z) : Prop :=
  String_as_OT.lt a.1 b.1 \/ (a.1 = b.1 /\ (a.2 <= b.2)%Z).

(** The header part of the output: [##] lines are copied, the [#CHROM]
    line is rewritten, and reading stops there. *)
Fixpoint write_headers (f : list string) (queen_names : list string) : list string :=
  match f with
  | [] => []
  | line :: f' =>
      if Py.startswith "##" line then line :: write_headers f' queen_names
      else if Py.startswith "#CHROM" line then
        [Py.join TABs (take 9 (Py.split Py.TAB (Py.strip line)) ++ queen_names) +:+ NLs]
      else write_headers f' queen_names
  end.

(** One data row (lines 160-162). *)
Definition write_row (queen_names : list string)
    (all_genotypes : Py.odict (gmap string string))
    (info_map : gmap string (list string)) (variant_key : string) : result string :=
  info_cols ← Py.getitem info_map variant_key;
  let queen_gts :=
    (fun q => default "./." (default ∅ (Py.get variant_key all_genotypes) !! q)) <$> queen_names in
  Ok (Py.join TABs (info_cols ++ queen_gts) +:+ NLs).

(** Lines 144-162 of [write_combined_vcf]: the sort and the [with]
    block.  The result is the sequence of strings written to the
    uncompressed output file, which [output_path] only names.  The two
    calls of [subprocess.run] that follow (lines 164-165) are added in
    [WithTools.write_combined_vcf]. *)
Definition write_combined_vcf (input_vcf : list string) (queen_names : list string)
    (all_genotypes : Py.odict (gmap string string))
    (info_map : gmap string (list string)) : result (list string) :=
  variant_keys ← sorted variant_key_sorter (Py.keys all_genotypes);
  rows ← traverse (write_row queen_names all_genotypes info_map) variant_keys;
  Ok (write_headers input_vcf queen_names ++ rows).

(** A field as [split] on tabs yields it: it holds no tab. *)
Definition tab_free (s : string) : Prop := Py.contains Py.TAB s = false.

#[global] Instance tab_free_dec (s : string) : Decision (tab_free s) :=
  decide (Py.contains Py.TAB s = false).

(** Every entry of an [info_map] is kept under the key made of its first
    five columns, and its columns are fields of one line. *)
Definition info_ok (info_map : gmap string (list string)) : Prop :=
  map_Forall (fun k info => k = Py.join TABs (take 5 info) /\ Forall tab_free info) info_map.

(** ** [main] *)

Record args : Type := {
  arg_vcf : list string;       (* the content of the file named by --vcf *)
  arg_list : list string;      (* the content of the file named by --list *)
  arg_threads : Z;
  arg_min_drones : Z;
  arg_het_thres : float;
  arg_haploid : bool
}.

(** Lines 177-185: the map that [main] calls [queen_map], with the
    messages printed for the other lines. *)
Definition read_list_line (st : Py.odict (list string) * list string) (line : string)
    : Py.odict (list string) * list string :=
  match Py.split_ws (Py.strip line) with
  | queen :: drone :: _ =>
      (Py.upsert queen (fun o => default [] o ++ [drone]) st.1, st.2)
  | _ => (st.1, st.2 ++ ["Bad line in list file: " +:+ Py.strip line])
  end.

Definition read_list (list_file : list string) : Py.odict (list string) * list string :=
  foldl read_list_line ([], []) list_file.

(** Lines 189-192. *)
Definition missing_warnings (queen_map : Py.odict (list string)) (vcf_samples : list string)
    : list string :=
  omap (fun qd : string * list string =>
          match filter (fun d => d ∉ vcf_samples) qd.2 with
          | [] => None
          | missing =>
              Some ("Warning: For queen " +:+ qd.1 +:+ ", missing drones in VCF: "
                    +:+ Py.join ", " missing)
          end) queen_map.

(** The two accumulators of the merge, [all_genotypes] and [shared_info_map]. *)
Definition merged : Type :=
  (Py.odict (gmap string string) * gmap string (list string))%type.

(** Lines 206-208 for one task result. *)
Definition merge_result (acc : merged) (r : task_result) : result merged :=
  let '(queen_name, queen_gts, info_map) := r in
  foldM (fun (acc : merged) (item : string * string) =>
           let '(variant_key, gt) := item in
           let all_genotypes :=
             Py.upsert variant_key (fun o => <[queen_name := gt]> (default ∅ o)) acc.1 in
           info ← Py.getitem info_map variant_key;
           Ok (all_genotypes, <[variant_key := info]> acc.2))
        acc queen_gts.

(** Lines 204-208: [future.result()] returns the task's value or raises
    what the task raised. *)
Definition collect (acc : merged) (future : result task_result) : result merged :=
  r ← future; merge_result acc r.

(** The calls submitted at line 202, in submission order. *)
Definition jobs (a : args) (queen_map : Py.odict (list string)) : list (result task_result) :=
  (fun qd : string * list string =>
     get_queen_genotypes (arg_vcf a) qd.1 qd.2
       (arg_het_thres a) (arg_min_drones a) (arg_haploid a)) <$> queen_map.

Definition finish (a : args) (queen_map : Py.odict (list string)) (acc : result merged)
    : result (list string) :=
  m ← acc; write_combined_vcf (arg_vcf a) (Py.keys queen_map) m.1 m.2.

(** What [main] prints before the pool is created. *)
Definition main_stdout (a : args) : list string :=
  let '(queen_map, bad) := read_list (arg_list a) in
  bad ++ missing_warnings queen_map (extract_samples_from_header (arg_vcf a)).

(** [main] with every future resolved in submission order, up to the
    last line written to the uncompressed output; [WithTools.main] is the
    whole run. *)
Definition main (a : args) : result (list string) :=
  let queen_map := (read_list (arg_list a)).1 in
  if (arg_threads a <=? 0)%Z then Raise (ValueError "max_workers must be greater than 0")
  else finish a queen_map (foldM collect ([], ∅) (jobs a queen_map)).

(** ** The process pool

    [ProcessPoolExecutor(max_workers=n)] as a transition system.  Job [i]
    waits in the FIFO [queue], is taken by a free worker, and completes at
    some later step, which fills [futures !! i].  The main thread reads the
    futures in submission order: [cursor] is the index of the future it is
    blocked on and [acc] what the merge loop has built (or the exception
    that ended it).  Which worker runs, and which job completes first, is
    the scheduler's choice. *)

Record pool : Type := {
  queue : list nat;
  running : list nat;
  futures : list (option (result task_result));
  cursor : nat;
  acc : result merged
}.

Definition pool_init (js : list (result task_result)) : pool :=
  {| queue := seq 0 (length js); running := [];
     futures := replicate (length js) None;
     cursor := 0; acc := Ok ([], ∅) |}.

Inductive pool_step (n : nat) (js : list (result task_result)) : pool -> pool -> Prop :=
  | step_start i q run fs c a :
      length run < n ->
      pool_step n js
        {| queue := i :: q; running := run; futures := fs; cursor := c; acc := a |}
        {| queue := q; running := run ++ [i]; futures := fs; cursor := c; acc := a |}
  | step_complete i r q run fs c a :
      i ∈ run -> js !! i = Some r ->
      pool_step n js
        {| queue := q; running := run; futures := fs; cursor := c; acc := a |}
        {| queue := q; running := filter (fun j => j ≠ i) run;
           futures := <[i := Some r]> fs; cursor := c; acc := a |}
  | step_result r q run fs c m :
      fs !! c = Some (Some r) ->
      pool_step n js
        {| queue := q; running := run; futures := fs; cursor := c; acc := Ok m |}
        {| queue := q; running := run; futures := fs; cursor := S c; acc := collect m r |}.

(** The [with] block is left: every job has run, and the merge loop has
    read every future or has been ended by an exception. *)
Definition pool_done (js : list (result task_result)) (s : pool) : Prop :=
  queue s = [] /\ running s = [] /\
  (cursor s = length js \/ exists e, acc s = Raise e).

(** What holds in every reachable state of the pool: a filled future
    holds the value of its job, and the merge loop has merged the first
    [cursor] results, in submission order. *)
Definition pool_inv (js : list (result task_result)) (s : pool) : Prop :=
  (forall i r, futures s !! i = Some (Some r) -> js !! i = Some r)
  /\ acc s = foldM collect ([], ∅) (take (cursor s) js)
  /\ cursor s <= length js.

(** [out] is a possible outcome of [main] under some schedule. *)
Definition main_outcome (a : args) (out : result (list string)) : Prop :=
  let queen_map := (read_list (arg_list a)).1 in
  if (arg_threads a <=? 0)%Z
  then out = Raise (ValueError "max_workers must be greater than 0")
  else exists s,
      rtc (pool_step (Z.to_nat (arg_threads a)) (jobs a queen_map))
          (pool_init (jobs a queen_map)) s
      /\ pool_done (jobs a queen_map) s
      /\ out = finish a queen_map (acc s).

(** ** The older script ([infer_queen_GT2_latest.py]) *)

Module Legacy.

(** Lines 46-55: the two parallel lists [droneID] and [queenID]. *)
Definition read_list_line (st : list string * list string * list string) (line : string)
    : list string * list string * list string :=
  let '(droneID, queenID, out) := st in
  match Py.split_ws (Py.strip line) with
  | p0 :: p1 :: _ => (droneID ++ [Py.strip p0], queenID ++ [Py.strip p1], out)
  | _ => (droneID, queenID,
          out ++ ["Oops: Something is wrong with the list file. LIST should have 2 columns but have 1 for some samples"])
  end.

Definition read_list (list_file : list string) : list string * list string * list string :=
  foldl read_list_line ([], [], []) list_file.

(** Lines 73-75. *)
Definition family_map (droneID queenID : list string) : Py.odict (list string) :=
  foldl (fun fm dq => Py.upsert dq.2 (fun o => default [] o ++ [dq.1]) fm)
        [] (zip droneID queenID).

(** Lines 91-105, for the calls of one queen's drones at one row. *)
Definition infer_row (drone_gts : list string) (threshold : float) : result string :=
  let valid := filter (fun gt => gt ∉ ["./."; "."; ""]) drone_gts in
  let total := length valid in
  let alt := sum_list ((fun _ => 1)
               <$> filter (fun gt => Py.contains "1"%char gt || Py.contains "2"%char gt = true) valid) in
  if total <=? 3 then Ok "./."
  else
    ratio ← Py.truediv alt total;
    if (ratio <? threshold)%float then Ok "0/0"
    else if (1 - threshold <? ratio)%float then Ok "1/1"
    else Ok "0/1".

End Legacy.

(** ** Binary64 numbers by sign and exponent *)

(** [x] is [+inf] or a positive finite number of exponent at least [k]. *)
Definition SF_exp_ge (k : Z) (x : spec_float) : Prop :=
  match x with
  | S754_finite false _ e => (k <= e)%Z
  | S754_infinity false => True
  | _ => False
  end.

(** [x] is a positive finite number of exponent below [k]. *)
Definition SF_exp_lt (k : Z) (x : spec_float) : Prop :=
  match x with
  | S754_finite false _ e => (e < k)%Z
  | _ => False
  end.

(** ** Sample inputs *)

Definition vcf_line (fields : list string) : string := Py.join TABs fields +:+ NLs.

Definition chrom_line (samples : list string) : string :=
  vcf_line (["#CHROM"; "POS"; "ID"; "REF"; "ALT"; "QUAL"; "FILTER"; "INFO"; "FORMAT"] ++ samples).

(** A haploid file with three drones; [d3] has no call at the site. *)
Definition haploid_vcf : list string :=
  [ "##fileformat=VCFv4.2" +:+ NLs;
    chrom_line ["d1"; "d2"; "d3"];
    vcf_line ["1"; "100"; "."; "A"; "T"; "50"; "PASS"; "."; "GT"; "0"; "0"; "."] ].

(** The [sample_data] of its data row. *)
Definition haploid_sample_data : gmap string string :=
  Py.dict_of_pairs (zip ["d1"; "d2"; "d3"] ["0"; "0"; "."]).

(** A list file written as the older script reads it: drone, then queen. *)
Definition drone_queen_list : list string :=
  [ "d1 qA" +:+ NLs; "d2 qA" +:+ NLs; "d3 qB" +:+ NLs ].

(** Two task results that disagree on the annotation columns of one site. *)
Definition site_key : string := Py.join TABs ["1"; "100"; "."; "A"; "T"].

Definition result_qA : task_result :=
  ("qA", [(site_key, "0/0")],
   {[ site_key := ["1"; "100"; "."; "A"; "T"; "50"; "PASS"; "."; "GT"] ]}).

Definition result_qB : task_result :=
  ("qB", [(site_key, "1/1")],
   {[ site_key := ["1"; "100"; "."; "A"; "T"; "99"; "q10"; "DP=7"; "GT:DP"] ]}).

(** A file with a data row and no [#CHROM] line. *)
Definition headerless_vcf : list string :=
  [ vcf_line ["1"; "100"; "."; "A"; "T"; "50"; "PASS"; "."; "GT"; "0/0"; "0/1"] ].


(** Merged genotypes of two queens at three sites, in file order. *)
Definition three_sites : Py.odict (gmap string string) :=
  [ (Py.join TABs ["2"; "100"; "."; "A"; "T"], {[ "qA" := "0/1" ]});
    (Py.join TABs ["10"; "200"; "."; "A"; "T"], {[ "qA" := "0/0"; "qB" := "1/1" ]});
    (Py.join TABs ["10"; "50"; "."; "A"; "T"], {[ "qA" := "0/0" ]}) ].

Definition three_sites_info : gmap string (list string) :=
  {[ Py.join TABs ["2"; "100"; "."; "A"; "T"] := ["2"; "100"; "."; "A"; "T"; "50"; "PASS"; "."; "GT"];
     Py.join TABs ["10"; "200"; "."; "A"; "T"] := ["10"; "200"; "."; "A"; "T"; "50"; "PASS"; "."; "GT"];
     Py.join TABs ["10"; "50"; "."; "A"; "T"] := ["10"; "50"; "."; "A"; "T"; "50"; "PASS"; "."; "GT"] ]}.

(** A diploid file with four drones of two queens. *)
Definition two_queens_vcf : list string :=
  [ "##fileformat=VCFv4.2" +:+ NLs;
    chrom_line ["d1"; "d2"; "d3"; "d4"];
    vcf_line ["2"; "100"; "."; "A"; "T"; "50"; "PASS"; "."; "GT"; "0/0"; "0/1:3"; "./."; "1/1"];
    vcf_line ["10"; "200"; "."; "A"; "T"; "50"; "PASS"; "."; "GT"; "0/0"; "0/0"; "1/1"; "1/1"] ].

Definition two_queens_args (threads : Z) : args :=
  {| arg_vcf := two_queens_vcf;
     arg_list := [ "qB d3" +:+ NLs; "qA d1" +:+ NLs; "qA d2" +:+ NLs; "qB d4" +:+ NLs ];
     arg_threads := threads; arg_min_drones := 2; arg_het_thres := 0.125;
     arg_haploid := false |}.

(** ** More of the two scripts *)

(** [extract_vital_header_lines] of [Untitled-1.py] (lines 55-65); [main]
    never calls it. *)
Fixpoint extract_vital_header_lines (vcf_file : list string) : list string :=
  match vcf_file with
  | [] => []
  | line :: f' =>
      let kept :=
        if Py.startswith "##FILTER" line || Py.startswith "##ALT" line
           || Py.startswith "##FORMAT" line || Py.startswith "##INFO" line
           || Py.startswith "##CONTIG" line
        then [line] else [] in
      if Py.startswith "#CHROM" line then kept ++ [line]
      else kept ++ extract_vital_header_lines f'
  end.

(** The four strings that a queen can be called. *)
Definition queen_calls : list string := ["./."; "0/0"; "0/1"; "1/1"].

(** A string with no white space, as [split()] yields its tokens. *)
Definition space_free (s : string) : Prop :=
  forall c, Py.contains c s = true -> Py.isspace c = false.

(** Whether a computation returned. *)
Definition is_ok {A : Type} (r : result A) : bool :=
  match r with Ok _ => true | Raise _ => false end.

(** ** What the list file says, line by line *)

(** The drones that the list file gives to [queen]: the second token of
    every line whose first token is [queen], in file order. *)
Definition drones_listed_for (queen : string) (list_file : list string) : list string :=
  omap (fun line =>
          match Py.split_ws (Py.strip line) with
          | t0 :: t1 :: _ => if decide (t0 = queen) then Some t1 else None
          | _ => None
          end) list_file.

(** A line of the list file with fewer than two tokens. *)
Definition short_line (line : string) : bool :=
  match Py.split_ws (Py.strip line) with
  | _ :: _ :: _ => false
  | _ => true
  end.

(** ** Names for two expressions of the pipeline *)

(** The key under which a data line is filed (line 83). *)
Definition variant_key_of (line : string) : string :=
  Py.join TABs (take 5 (Py.split Py.TAB (Py.strip line))).

(** [all_genotypes[variant_key].get(q)] as line 161 reads it, before the
    default is applied; [None] too when the site is not in the table. *)
Definition cell (all_genotypes : Py.odict (gmap string string)) (variant_key q : string)
    : option string :=
  default ∅ (Py.get variant_key all_genotypes) !! q.

(** The call of one task. *)
Definition task (a : args) (queen : string) (drones : list string) : result task_result :=
  get_queen_genotypes (arg_vcf a) queen drones
    (arg_het_thres a) (arg_min_drones a) (arg_haploid a).

(** A data line that can be sorted: it has two fields at least, and the
    second one is an [int] literal. *)
Definition sortable_line (line : string) : Prop :=
  exists chrom pos fields z,
    Py.split Py.TAB (Py.strip line) = chrom :: pos :: fields /\ Py.int pos = Ok z.

(** Every site of the table has annotation columns. *)
Definition covered (m : merged) : Prop :=
  forall k, k ∈ Py.keys m.1 -> is_Some (m.2 !! k).

(** ** File names *)

Module PyStr.

(** [s.replace(old, new)] for a non-empty [old]: the occurrences of [old]
    are replaced from left to right and do not overlap.  [skip] counts the
    characters of a replaced occurrence that are still to be dropped. *)
Fixpoint replace_from (old new : string) (skip : nat) (s : string) : string :=
  match s with
  | EmptyString => EmptyString
  | String c s' =>
      match skip with
      | S n => replace_from old new n s'
      | O =>
          if String.prefix old s
          then new +:+ replace_from old new (String.length old - 1) s'
          else String c (replace_from old new 0 s')
      end
  end.

Definition replace (old new s : string) : string := replace_from old new 0 s.

(** [s.lstrip(chars)] and [s.rstrip(chars)]: the argument is a set of
    characters, not a suffix. *)
Fixpoint lstrip_chars (chars s : string) : string :=
  match s with
  | String c s' => if Py.contains c chars then lstrip_chars chars s' else s
  | EmptyString => EmptyString
  end.

Definition rstrip_chars (chars s : string) : string :=
  String.rev (lstrip_chars chars (String.rev s)).

End PyStr.

(** Line 145 of the pipeline: the name of the uncompressed output. *)
Definition temp_vcf (output_path : string) : string := PyStr.rstrip_chars ".gz" output_path.

(** Line 121 of the older script: the name of its output file. *)
Definition output_vcf (vcf : string) : string :=
  PyStr.replace ".vcf.gz" "GT_inferred.vcf" (PyStr.replace ".vcf" "_queens.vcf" vcf).

(** The header lines that [extract_vital_header_lines] keeps. *)
Definition vital_header (line : string) : bool :=
  Py.startswith "##FILTER" line || Py.startswith "##ALT" line
  || Py.startswith "##FORMAT" line || Py.startswith "##INFO" line
  || Py.startswith "##CONTIG" line.

(** The drones that the older script gives to [queen]: the first token of
    every line whose second token is [queen], in file order. *)
Definition legacy_drones_listed_for (queen : string) (list_file : list string)
    : list string :=
  omap (fun line =>
          match Py.split_ws (Py.strip line) with
          | t0 :: t1 :: _ => if decide (t1 = queen) then Some t0 else None
          | _ => None
          end) list_file.

(** Results can be compared, which lets a statement select the elements
    on which a function returns a given value. *)
#[global] Instance exn_eq_dec : EqDecision exn.
Proof. solve_decision. Defined.

#[global] Instance result_eq_dec {A : Type} `{EqDecision A} : EqDecision (result A).
Proof. solve_decision. Defined.

(** [x] is [+inf] or a positive finite number. *)
Definition SF_positive (x : spec_float) : Prop :=
  match x with
  | S754_finite false _ _ | S754_infinity false => True
  | _ => False
  end.

(** The reference call of a mode. *)
Definition ref_call (haploid : bool) : string := if haploid then "0" else "0/0".

(** The elements of a list in the order of their first occurrence, as the
    keys of a [dict] filled from the list are. *)
Definition first_occurrences (l : list string) : list string :=
  foldl (fun acc x => if decide (x ∈ acc) then acc else acc ++ [x]) [] l.

(** The queen that a line of the list file names, if it names one. *)
Definition listed_queen (line : string) : option string :=
  match Py.split_ws (Py.strip line) with
  | queen :: _ :: _ => Some queen
  | _ => None
  end.

(** ** The external tools

    Lines 164-165 of the pipeline hand the finished file to [bgzip] and
    then to [tabix].  What the two programs do is not the script's to
    decide: it is given by the environment. *)

(** [os.path.join(a, b)] on a POSIX system. *)
Definition path_join (a b : string) : string :=
  if Py.startswith "/" b then b
  else if decide (a = "") then b
  else if Py.startswith "/" (String.rev a) then a +:+ b
  else a +:+ "/" +:+ b.

(** What starting a program and waiting for it gives: an exit status, or
    no process at all ([FileNotFoundError], [PermissionError] and the other
    subclasses of [OSError]). *)
Inductive run_outcome : Type :=
  | Exited (returncode : Z)
  | NotStarted (strerror : string).

(** [subprocess.run(cmd, check=True)] *)
Definition subprocess_run_check (cmd : list string) (o : run_outcome) : result unit :=
  match o with
  | Exited 0 => Ok tt
  | Exited returncode => Raise (CalledProcessError returncode cmd)
  | NotStarted strerror => Raise (OSError strerror)
  end.

(** The environment of a run: what [bgzip] does with the uncompressed file
    that holds the given lines, and what [tabix] does with the compressed
    file made of them. *)
Record tools : Type := {
  bgzip : list string -> run_outcome;
  tabix : list string -> run_outcome
}.

Module WithTools.

(** The whole of [write_combined_vcf]: the lines are written, and then the
    file is compressed and indexed.  The result is what was written. *)
Definition write_combined_vcf (env : tools) (output_path : string)
    (input_vcf : list string) (queen_names : list string)
    (all_genotypes : Py.odict (gmap string string))
    (info_map : gmap string (list string)) : result (list string) :=
  let temp := temp_vcf output_path in
  lines ← write_combined_vcf input_vcf queen_names all_genotypes info_map;
  _ ← subprocess_run_check ["bgzip"; "-f"; temp] (bgzip env lines);
  _ ← subprocess_run_check ["tabix"; "-p"; "vcf"; output_path] (tabix env lines);
  Ok lines.

(** The whole of [main], for the output directory [out], with every
    future resolved in submission order. *)
Definition main (env : tools) (out : string) (a : args) : result (list string) :=
  let queen_map := (read_list (arg_list a)).1 in
  if (arg_threads a <=? 0)%Z then Raise (ValueError "max_workers must be greater than 0")
  else
    m ← foldM collect ([], ∅) (jobs a queen_map);
    let output_vcf_path := path_join out "all_queens.vcf.gz" in
    write_combined_vcf env output_vcf_path (arg_vcf a) (Py.keys queen_map) m.1 m.2.

End WithTools.

(** Two environments: one in which both programs succeed, and one in
    which [tabix] is not installed. *)
Definition tools_ok : tools :=
  {| bgzip := fun _ => Exited 0; tabix := fun _ => Exited 0 |}.

Definition tools_without_tabix : tools :=
  {| bgzip := fun _ => Exited 0;
     tabix := fun _ => NotStarted "No such file or directory: 'tabix'" |}.

(** ** Decimal numerals *)

(** The value of a string of decimal digits, as the Standard Library reads
    it; [None] for the empty string and for any other string. *)
Definition decimal_value (s : string) : option Z :=
  Z.of_uint <$> NilZero.uint_of_string s.

(** [s.isascii()] *)
Fixpoint isascii (s : string) : bool :=
  match s with
  | EmptyString => true
  | String c s' => (nat_of_ascii c <? 128)%nat && isascii s'
  end.

(** ** More sample inputs *)

(** A literal of [n] digits. *)
Fixpoint ones (n : nat) : string :=
  match n with
  | O => EmptyString
  | S n' => String "1"%char (ones n')
  end.

(** A run on a list written as the specification has it, drone first. *)
Definition spec_format_args : args :=
  {| arg_vcf := two_queens_vcf;
     arg_list := [ "d1 qA" +:+ NLs; "d2 qA" +:+ NLs; "d3 qB" +:+ NLs; "d4 qB" +:+ NLs ];
     arg_threads := 1; arg_min_drones := 2; arg_het_thres := 0.125;
     arg_haploid := false |}.

(* ================================================================= *)
(** * Properties *)

(** * Binary64 facts used by the threshold rule *)

Section Binary64.

Local Open Scope Z_scope.

Lemma SFeqb_finite_pos (x : spec_float) (m : positive) (e : Z) :
  SFeqb x (S754_finite false m e) = true -> x = S754_finite false m e.
Proof.
  unfold SFeqb, SFcompare.
  destruct x as [s|s| |s m' e']; try destruct s; try discriminate.
  destruct (Z.compare_spec e' e) as [->| |]; try discriminate.
  change (PosDef.Pos.compare_cont Eq m' m) with (Pos.compare m' m).
  destruct (Pos.compare_spec m' m) as [->| |]; try discriminate. done.
Qed.

Lemma SFltb_irrefl (x : spec_float) : SFltb x x = false.
Proof.
  unfold SFltb, SFcompare. destruct x as [s|s| |s m e]; try done.
  - by destruct s.
  - change (PosDef.Pos.compare_cont Eq m m) with (Pos.compare m m).
    destruct s; rewrite Z.compare_refl, Pos.compare_refl; done.
Qed.

Lemma SF_exp_ge_ltb (k : Z) (x y : spec_float) :
  SF_exp_ge k x -> SFltb x y = true -> SF_exp_ge k y.
Proof.
  unfold SFltb, SFcompare, SF_exp_ge.
  destruct x as [s|s| |s m e]; try done; destruct s; try done;
    destruct y as [s'|s'| |s' m' e']; try done; destruct s'; try done.
  intros Hk. destruct (Z.compare_spec e e'); try done; lia.
Qed.

Lemma SF_exp_ge_not_ltb (k : Z) (x y : spec_float) :
  SF_exp_ge k x -> SF_exp_lt k y -> SFltb x y = false /\ SFltb y x = true.
Proof.
  unfold SFltb, SFcompare, SF_exp_ge, SF_exp_lt.
  destruct x as [s|s| |s m e]; try done; destruct s; try done;
    destruct y as [s'|s'| |s' m' e']; try done; destruct s'; try done.
  intros Hk Hj.
  destruct (Z.compare_spec e e'); try lia.
  destruct (Z.compare_spec e' e); try lia; done.
Qed.

Lemma SF_exp_lt_not_ltb (k : Z) (x y : spec_float) :
  SF_exp_ge k x -> SF_exp_lt k y -> SFltb x y = false.
Proof. intros Hx Hy. by destruct (SF_exp_ge_not_ltb k x y). Qed.

Lemma digits2_pos_bounds (m : positive) :
  2 ^ (Z.pos (digits2_pos m) - 1) <= Z.pos m < 2 ^ Z.pos (digits2_pos m).
Proof.
  induction m as [m IH|m IH|]; simpl digits2_pos.
  - rewrite Pos2Z.inj_succ.
    replace (Z.succ (Z.pos (digits2_pos m)) - 1) with (Z.succ (Z.pos (digits2_pos m) - 1)) by lia.
    rewrite !Z.pow_succ_r by lia. lia.
  - rewrite Pos2Z.inj_succ.
    replace (Z.succ (Z.pos (digits2_pos m)) - 1) with (Z.succ (Z.pos (digits2_pos m) - 1)) by lia.
    rewrite !Z.pow_succ_r by lia. lia.
  - simpl. lia.
Qed.

Lemma shr_1_m (mrs : shr_record) :
  0 <= shr_m mrs -> shr_m (shr_1 mrs) = shr_m mrs / 2.
Proof.
  destruct mrs as [m r s]; simpl. intros Hm.
  destruct m as [|p|p]; [reflexivity| |lia].
  destruct p as [p|p|]; simpl.
  - rewrite Pos2Z.inj_xI. apply Z.div_unique with 1; lia.
  - rewrite Pos2Z.inj_xO. apply Z.div_unique with 0; lia.
  - reflexivity.
Qed.

Lemma shr_1_nonneg (mrs : shr_record) : 0 <= shr_m mrs -> 0 <= shr_m (shr_1 mrs).
Proof. intros H. rewrite shr_1_m by done. apply Z.div_pos; lia. Qed.

Lemma iter_shr_1_m (p : positive) (mrs : shr_record) :
  0 <= shr_m mrs ->
  0 <= shr_m (SpecFloat.iter_pos shr_1 p mrs) /\
  shr_m (SpecFloat.iter_pos shr_1 p mrs) = shr_m mrs / 2 ^ Z.pos p.
Proof.
  revert mrs. induction p as [p IH|p IH|]; intros mrs Hm; simpl SpecFloat.iter_pos.
  - pose proof (shr_1_nonneg _ Hm) as H1. pose proof (shr_1_m _ Hm) as E1.
    destruct (IH _ H1) as [H2 E2]. destruct (IH _ H2) as [H3 E3].
    split; [done|]. rewrite E3, E2, E1.
    rewrite !Z.div_div by lia. f_equal.
    replace (Z.pos p~1) with (1 + Z.pos p + Z.pos p) by lia.
    rewrite !Z.pow_add_r by lia. change (2 ^ 1) with 2. lia.
  - destruct (IH _ Hm) as [H2 E2]. destruct (IH _ H2) as [H3 E3].
    split; [done|]. rewrite E3, E2.
    rewrite !Z.div_div by lia. f_equal.
    replace (Z.pos p~0) with (Z.pos p + Z.pos p) by lia.
    rewrite Z.pow_add_r by lia. lia.
  - split; [by apply shr_1_nonneg|]. rewrite shr_1_m by done. reflexivity.
Qed.

Lemma round_nearest_even_bounds (m : Z) (l : location) :
  m <= round_nearest_even m l <= m + 1.
Proof.
  destruct l as [|[| |]]; simpl; try lia. destruct (Z.even m); lia.
Qed.

(** Rounding a positive significand whose value lies in [1/2, 1) (its
    number of digits is the opposite of its exponent) gives a positive
    finite number of exponent at least -53. *)
Lemma binary_round_aux_half_one (M : positive) (e : Z) :
  Z.pos (digits2_pos M) + e = 0 ->
  e <= -54 ->
  exists m' e', binary_round_aux prec emax false (Z.pos M) e loc_Exact = S754_finite false m' e'
    /\ -53 <= e'.
Proof.
  intros Hd He.
  pose proof (digits2_pos_bounds M) as HM.
  unfold binary_round_aux.
  unfold shr_fexp at 1. simpl Zdigits2. rewrite Hd.
  change (fexp prec emax 0) with (-53).
  destruct (-53 - e) as [|p|p] eqn:Hp; [lia| |lia].
  unfold shr at 1. cbv beta iota.
  change (shr_record_of_loc (Z.pos M) loc_Exact)
    with {| shr_m := Z.pos M; shr_r := false; shr_s := false |}.
  set (mrs := SpecFloat.iter_pos shr_1 p _).
  destruct (iter_shr_1_m p {| shr_m := Z.pos M; shr_r := false; shr_s := false |}) as [Hnn Hm0]; [simpl; lia|].
  fold mrs in Hnn, Hm0. simpl shr_m in Hm0.
  assert (H52 : 2 ^ 52 <= shr_m mrs < 2 ^ 53).
  { rewrite Hm0.
    assert (Z.pos (digits2_pos M) = 53 + Z.pos p) as Hdig by lia.
    rewrite Hdig in HM.
    replace (53 + Z.pos p - 1) with (52 + Z.pos p) in HM by lia.
    rewrite !Z.pow_add_r in HM by lia.
    assert (0 < 2 ^ Z.pos p) by (apply Z.pow_pos_nonneg; lia).
    split.
    - apply Z.div_le_lower_bound; lia.
    - apply Z.div_lt_upper_bound; lia. }
  pose proof (round_nearest_even_bounds (shr_m mrs) (loc_of_shr_record mrs)) as Hr.
  set (m1 := round_nearest_even _ _) in *.
  replace (e + Z.pos p) with (-53) by lia.
  destruct m1 as [|q|q] eqn:Hq; [lia| |lia].
  pose proof (digits2_pos_bounds q) as Hdq.
  assert (Hdq' : Z.pos (digits2_pos q) = 53 \/ Z.pos (digits2_pos q) = 54).
  { destruct (Z.lt_ge_cases (Z.pos (digits2_pos q)) 53) as [Hlt|Hge].
    - exfalso. assert (2 ^ Z.pos (digits2_pos q) <= 2 ^ 52) by (apply Z.pow_le_mono_r; lia). lia.
    - destruct (Z.lt_ge_cases 54 (Z.pos (digits2_pos q))) as [Hgt|Hle]; [|lia].
      exfalso. assert (2 ^ 54 <= 2 ^ (Z.pos (digits2_pos q) - 1)) by (apply Z.pow_le_mono_r; lia).
      change (2^54) with (2 * 2^53) in *. lia. }
  unfold shr_fexp. simpl Zdigits2.
  destruct Hdq' as [-> | ->].
  - change (fexp prec emax (53 + -53) - -53) with 0. simpl.
    eexists _, _. split; [reflexivity|lia].
  - change (fexp prec emax (54 + -53) - -53) with 1.
    cbv [shr SpecFloat.iter_pos].
    assert (Hs : shr_m (shr_1 (shr_record_of_loc (Z.pos q) loc_Exact)) = Z.pos q / 2)
      by (apply shr_1_m; simpl; lia).
    assert (0 < Z.pos q / 2) by (apply Z.div_str_pos; lia).
    destruct (shr_m (shr_1 _)) as [|q'|q']; [lia| |lia].
    simpl. eexists _, _. split; [reflexivity|lia].
Qed.

Lemma compare_cont_Eq_lt (m n : positive) :
  PosDef.Pos.compare_cont Eq m n = Lt -> Z.pos m < Z.pos n.
Proof. intros H. exact H. Qed.

Lemma pow2_52 : 2 ^ 52 = 4503599627370496.
Proof. reflexivity. Qed.

Lemma digits2_pos_unique (m : positive) (k : Z) :
  2 ^ (k - 1) <= Z.pos m < 2 ^ k -> Z.pos (digits2_pos m) = k.
Proof.
  intros Hk. pose proof (digits2_pos_bounds m) as Hm.
  destruct (Z.lt_trichotomy (Z.pos (digits2_pos m)) k) as [Hlt|[Heq|Hgt]]; [|done|].
  - assert (2 ^ Z.pos (digits2_pos m) <= 2 ^ (k - 1)) by (apply Z.pow_le_mono_r; lia). lia.
  - assert (0 <= k).
    { destruct (Z.lt_ge_cases k 0) as [Hneg|]; [|done].
      rewrite (Z.pow_neg_r 2 k) in Hk by done. lia. }
    assert (2 ^ k <= 2 ^ (Z.pos (digits2_pos m) - 1)) by (apply Z.pow_le_mono_r; lia). lia.
Qed.

(** A threshold strictly between 0 and 0.5 is a positive finite number
    below [2^53 * 2^-54]. *)
Lemma threshold_open_interval (t : float) :
  (0 <? t)%float = true -> (t <? 0.5)%float = true ->
  exists m e, Prim2SF t = S754_finite false m e /\ e <= -54 /\ Z.pos m < 2 ^ 53.
Proof.
  rewrite !FloatAxioms.ltb_spec. intros H0 H1.
  pose proof (Prim2SF_valid t) as Hv.
  replace (Prim2SF 0) with (S754_zero false) in H0 by reflexivity.
  replace (Prim2SF 0.5) with (S754_finite false 4503599627370496 (-53)) in H1 by reflexivity.
  destruct (Prim2SF t) as [s|s| |s m e]; try discriminate.
  - destruct s; discriminate.
  - destruct s; [discriminate|].
    exists m, e. split; [done|].
    unfold valid_binary, bounded, canonical_mantissa in Hv.
    apply andb_prop in Hv as [Hc _]. apply Z.eqb_eq in Hc.
    unfold fexp in Hc. change (SpecFloat.emin prec emax) with (-1074) in Hc.
    change prec with 53 in Hc.
    pose proof (digits2_pos_bounds m) as Hm.
    assert (Hd : Z.pos (digits2_pos m) <= 53) by lia.
    assert (Z.pos m < 2 ^ 53).
    { assert (2 ^ Z.pos (digits2_pos m) <= 2 ^ 53) by (apply Z.pow_le_mono_r; lia). lia. }
    split; [|done].
    unfold SFltb, SFcompare in H1.
    destruct (Z.compare_spec e (-53)) as [Heq|Hlt|Hgt]; [|lia|discriminate].
    exfalso. subst e.
    assert (Z.pos (digits2_pos m) = 53) as Hd53 by lia.
    rewrite Hd53 in Hm. change (2 ^ (53 - 1)) with 4503599627370496 in Hm.
    destruct (PosDef.Pos.compare_cont Eq m 4503599627370496) eqn:Hcmp; try discriminate.
    apply compare_cont_Eq_lt in Hcmp. lia.
Qed.

(** For such a threshold, [1 - t] rounds to a positive finite number of
    exponent at least -53, that is, to a number that is at least 0.5. *)
Lemma one_minus_threshold (t : float) :
  (0 <? t)%float = true -> (t <? 0.5)%float = true ->
  exists m e, Prim2SF (1 - t) = S754_finite false m e /\ -53 <= e.
Proof.
  intros H0 H1.
  destruct (threshold_open_interval t H0 H1) as (m & e & Ht & He & Hm).
  rewrite FloatAxioms.sub_spec, Ht.
  replace (Prim2SF 1) with (S754_finite false 4503599627370496 (-52)) by reflexivity.
  unfold SF64sub, SFsub.
  rewrite Z.min_r by lia.
  unfold shl_align. rewrite Z.sub_diag.
  destruct (e - -52) as [|d|d] eqn:Hd; [lia|lia|].
  cbv [fst cond_Zopp].
  fold (shift_pos d 4503599627370496).
  assert (HM : Z.pos (shift_pos d 4503599627370496) = 2 ^ (- e)).
  { rewrite shift_pos_correct. change (Zpower_pos 2 d) with (2 ^ Z.pos d).
    rewrite <- pow2_52, <- Z.pow_add_r by lia. f_equal. lia. }
  assert (Hhalf : 2 ^ 53 <= 2 ^ (- e - 1)) by (apply Z.pow_le_mono_r; lia).
  assert (Hdbl : 2 ^ (- e) = 2 * 2 ^ (- e - 1)).
  { rewrite <- Z.pow_succ_r by lia. f_equal. lia. }
  destruct (Z.pos (shift_pos d 4503599627370496) - Z.pos m) as [|M|M] eqn:HMd; [lia| |lia].
  unfold binary_normalize, binary_round.
  assert (Hdig : Z.pos (digits2_pos M) = - e) by (apply digits2_pos_unique; lia).
  rewrite Hdig. replace (- e + e) with 0 by lia.
  change (fexp prec emax 0) with (-53).
  unfold shl_align.
  destruct (-53 - e) as [|p|p] eqn:Hp; [lia| |lia].
  apply binary_round_aux_half_one; lia.
Qed.

End Binary64.

Section Threshold.

Local Open Scope float_scope.

Variable t : float.
Hypothesis t_pos : (0 <? t) = true.
Hypothesis t_lt_half : (t <? 0.5) = true.

Lemma threshold_exp_lt : SF_exp_lt (-53) (Prim2SF t).
Proof.
  destruct (threshold_open_interval t t_pos t_lt_half) as (m & e & -> & He & _).
  simpl. lia.
Qed.

Lemma one_minus_threshold_exp_ge : SF_exp_ge (-53) (Prim2SF (1 - t)).
Proof.
  destruct (one_minus_threshold t t_pos t_lt_half) as (m & e & -> & He). done.
Qed.

(** The two outer regions of the rule cannot both hold. *)
Lemma above_upper_not_below_lower (r : float) :
  (1 - t <? r) = true -> (r <? t) = false.
Proof.
  rewrite !FloatAxioms.ltb_spec. intros H.
  apply (SF_exp_lt_not_ltb (-53)); [|apply threshold_exp_lt].
  eapply SF_exp_ge_ltb; [apply one_minus_threshold_exp_ge|done].
Qed.

(** A ratio equal to the threshold is in neither outer region. *)
Lemma at_lower_bound (r : float) :
  (r =? t) = true -> (r <? t) = false /\ (1 - t <? r) = false.
Proof.
  rewrite FloatAxioms.eqb_spec, !FloatAxioms.ltb_spec. intros H.
  pose proof threshold_exp_lt as Ht.
  destruct (Prim2SF t) as [| | |[] m e] eqn:E; try done.
  apply SFeqb_finite_pos in H. rewrite H. split.
  - apply SFltb_irrefl.
  - apply (SF_exp_lt_not_ltb (-53)); [apply one_minus_threshold_exp_ge|done].
Qed.

(** A ratio equal to [1 - t] is in neither outer region. *)
Lemma at_upper_bound (r : float) :
  (r =? 1 - t) = true -> (r <? t) = false /\ (1 - t <? r) = false.
Proof.
  rewrite FloatAxioms.eqb_spec, !FloatAxioms.ltb_spec. intros H.
  destruct (one_minus_threshold t t_pos t_lt_half) as (m & e & E & He).
  rewrite E in H |- *. apply SFeqb_finite_pos in H. rewrite H. split.
  - apply (SF_exp_lt_not_ltb (-53)); [done|apply threshold_exp_lt].
  - apply SFltb_irrefl.
Qed.

End Threshold.

(** * The consensus rule *)

Example scenario_A :
  infer_queen_gt_from_list ["0/0"; "0/0"; "0/1"; "0/0"] 0.125 2 false = Ok "0/1".
Proof. reflexivity. Qed.

Example scenario_B :
  infer_queen_gt_from_list ["0"; "0"; "0"; "1"] 0.125 2 true = Ok "0/1".
Proof. reflexivity. Qed.

Example scenario_C :
  infer_queen_gt_from_list ["./."; "./."] 0.125 2 false = Ok "./.".
Proof. reflexivity. Qed.

Example scenario_D :
  infer_queen_gt_from_list ["1/1"; "1/1"; "1/1"; "0/0"] 0.125 2 false = Ok "0/1".
Proof. reflexivity. Qed.

Example scenario_E :
  infer_queen_gt_from_list ["1/1"; "1/1"; "1/1"; "1/1"; "1/1"; "1/1"] 0.125 2 false = Ok "1/1".
Proof. reflexivity. Qed.

Lemma sum_list_ones {A : Type} (l : list A) : sum_list ((fun _ => 1) <$> l) = length l.
Proof. induction l as [|x l IH]; simpl; [done|f_equal; exact IH]. Qed.

Lemma alt_count_length (haploid : bool) (valid : list string) :
  alt_count haploid valid =
  length (filter (fun gt => gt ≠ (if haploid then "0" else "0/0")) valid).
Proof. unfold alt_count. destruct haploid; apply sum_list_ones. Qed.

Lemma alt_count_le_length (haploid : bool) (valid : list string) :
  alt_count haploid valid <= length valid.
Proof. rewrite alt_count_length. apply length_filter. Qed.

(** Below the minimum the call is missing; otherwise the ratio exists and
    the three-way rule decides. *)
Lemma infer_unfold (drone_gts : list string) (threshold : float) (min_drones : Z)
    (haploid : bool) :
  let valid := valid_gts haploid drone_gts in
  infer_queen_gt_from_list drone_gts threshold min_drones haploid =
  if (Z.of_nat (length valid) <? min_drones)%Z then Ok "./."
  else match length valid with
       | O => Raise ZeroDivisionError
       | S _ =>
           let ratio := (Py.float_of_len (alt_count haploid valid)
                         / Py.float_of_len (length valid))%float in
           if (ratio <? threshold)%float then Ok "0/0"
           else if (1 - threshold <? ratio)%float then Ok "1/1"
           else Ok "0/1"
       end.
Proof.
  intros valid. unfold infer_queen_gt_from_list. fold valid.
  destruct (Z.of_nat (length valid) <? min_drones)%Z; [done|].
  unfold Py.truediv. by destruct (length valid).
Qed.

(** C10: with a minimum of at least one valid drone the inference never
    raises (the division is only reached with a non-zero total), and its
    result is one of the four diploid strings, in haploid mode too. *)
Theorem infer_total_diploid_form (drone_gts : list string) (threshold : float)
    (min_drones : Z) (haploid : bool) :
  (1 <= min_drones)%Z ->
  exists gt, infer_queen_gt_from_list drone_gts threshold min_drones haploid = Ok gt
             /\ gt ∈ ["./."; "0/0"; "0/1"; "1/1"].
Proof.
  intros HM. rewrite infer_unfold. cbv zeta.
  destruct (Z.ltb_spec (Z.of_nat (length (valid_gts haploid drone_gts))) min_drones) as [Hlt|Hge].
  - exists "./.". split; [done|set_solver].
  - destruct (length (valid_gts haploid drone_gts)) as [|n]; [lia|].
    destruct (_ <? threshold)%float; [exists "0/0"; split; [done|set_solver]|].
    destruct (1 - threshold <? _)%float; [exists "1/1"|exists "0/1"]; (split; [done|set_solver]).
Qed.

Lemma infer_total_diploid_form_witness :
  (1 <= 2)%Z /\
  exists gt, infer_queen_gt_from_list ["0"; "."; "1"; "1"] 0.125 2 true = Ok gt
             /\ gt ∈ ["./."; "0/0"; "0/1"; "1/1"].
Proof. split; [lia|]. apply infer_total_diploid_form. lia. Defined.

(** C2: for a minimum of at least one, the missing call is returned
    exactly when fewer than [min_drones] calls are valid; one below the
    minimum gives the missing call, and from the minimum on (so at
    [total = min_drones]) the threshold rule decides. *)
Theorem missing_iff_below_minimum (drone_gts : list string) (threshold : float)
    (min_drones : Z) (haploid : bool) :
  (1 <= min_drones)%Z ->
  let valid := valid_gts haploid drone_gts in
  let total := Z.of_nat (length valid) in
  let ratio := (Py.float_of_len (alt_count haploid valid)
                / Py.float_of_len (length valid))%float in
  (infer_queen_gt_from_list drone_gts threshold min_drones haploid = Ok "./."
   <-> (total < min_drones)%Z)
  /\ (total = (min_drones - 1)%Z ->
      infer_queen_gt_from_list drone_gts threshold min_drones haploid = Ok "./.")
  /\ ((min_drones <= total)%Z ->
      infer_queen_gt_from_list drone_gts threshold min_drones haploid =
      Ok (if (ratio <? threshold)%float then "0/0"
          else if (1 - threshold <? ratio)%float then "1/1" else "0/1")).
Proof.
  intros HM valid total ratio. rewrite infer_unfold. cbv zeta.
  fold valid. fold total. fold ratio.
  destruct (Z.ltb_spec total min_drones) as [Hlt|Hge].
  - split; [done|]. split; [done|lia].
  - assert (Hpos : length valid ≠ 0) by (unfold total in Hge; lia).
    destruct (length valid) as [|n] eqn:Hn; [done|].
    split; [|split; [lia|]].
    + split; [|lia]. intros H.
      destruct (ratio <? threshold)%float; [discriminate|].
      destruct (1 - threshold <? ratio)%float; discriminate.
    + intros _. destruct (ratio <? threshold)%float; [done|].
      by destruct (1 - threshold <? ratio)%float.
Qed.

Lemma missing_iff_below_minimum_witness :
  (1 <= 2)%Z /\
  (infer_queen_gt_from_list ["0/0"; "./."; ""] 0.125 2 false = Ok "./.") /\
  (infer_queen_gt_from_list ["0/0"; "./."; "0/1"] 0.125 2 false = Ok "0/1").
Proof.
  split; [lia|].
  pose proof (missing_iff_below_minimum ["0/0"; "./."; ""] 0.125 2 false ltac:(lia)) as (_ & H1 & _).
  pose proof (missing_iff_below_minimum ["0/0"; "./."; "0/1"] 0.125 2 false ltac:(lia)) as (_ & _ & H2).
  split; [apply H1; reflexivity|apply H2; simpl; lia].
Defined.

(** C1: with enough valid calls (and at least one, so that the ratio
    exists) and a threshold strictly between 0 and 0.5, the call is [0/0]
    when the ratio is below the threshold, [1/1] when it is above one minus
    the threshold, and [0/1] otherwise; a ratio equal to either bound gives
    [0/1].  The ratio and the bounds are the binary64 values that the code
    computes. *)
Theorem threshold_decision_rule (drone_gts : list string) (threshold : float)
    (min_drones : Z) (haploid : bool) :
  let valid := valid_gts haploid drone_gts in
  let ratio := (Py.float_of_len (alt_count haploid valid)
                / Py.float_of_len (length valid))%float in
  (min_drones <= Z.of_nat (length valid))%Z ->
  0 < length valid ->
  (0 <? threshold)%float = true ->
  (threshold <? 0.5)%float = true ->
  ((ratio <? threshold)%float = true ->
   infer_queen_gt_from_list drone_gts threshold min_drones haploid = Ok "0/0")
  /\ ((1 - threshold <? ratio)%float = true ->
      infer_queen_gt_from_list drone_gts threshold min_drones haploid = Ok "1/1")
  /\ ((ratio <? threshold)%float = false ->
      (1 - threshold <? ratio)%float = false ->
      infer_queen_gt_from_list drone_gts threshold min_drones haploid = Ok "0/1")
  /\ ((ratio =? threshold)%float = true \/ (ratio =? 1 - threshold)%float = true ->
      infer_queen_gt_from_list drone_gts threshold min_drones haploid = Ok "0/1").
Proof.
  intros valid ratio HM Hpos Ht0 Ht1.
  assert (Hrule : infer_queen_gt_from_list drone_gts threshold min_drones haploid =
                  if (ratio <? threshold)%float then Ok "0/0"
                  else if (1 - threshold <? ratio)%float then Ok "1/1" else Ok "0/1").
  { rewrite infer_unfold. cbv zeta. fold valid.
    destruct (Z.ltb_spec (Z.of_nat (length valid)) min_drones) as [Hlt|_]; [lia|].
    destruct (length valid) as [|n] eqn:Hn; [lia|]. subst ratio. try rewrite Hn. done. }
  rewrite Hrule. split; [|split; [|split]].
  - by intros ->.
  - intros Hup. by rewrite (above_upper_not_below_lower threshold Ht0 Ht1 ratio Hup), Hup.
  - by intros -> ->.
  - intros [Heq|Heq].
    + by destruct (at_lower_bound threshold Ht0 Ht1 ratio Heq) as [-> ->].
    + by destruct (at_upper_bound threshold Ht0 Ht1 ratio Heq) as [-> ->].
Qed.

Lemma threshold_decision_rule_witness :
  infer_queen_gt_from_list ["0/0"; "0/0"; "0/1"; "0/0"] 0.25 2 false = Ok "0/1"
  /\ infer_queen_gt_from_list ["1/1"; "0/0"; "0/1"; "1/1"] 0.25 2 false = Ok "0/1"
  /\ infer_queen_gt_from_list ["0"; "0"; "0"; "0"; "0"; "0"; "0"; "0"; "1"] 0.125 2 true = Ok "0/0"
  /\ infer_queen_gt_from_list ["1"; "1"; "1"; "1"; "1"; "1"; "1"; "1"; "0"] 0.125 2 true = Ok "1/1".
Proof.
  split; [|split; [|split]].
  - apply (threshold_decision_rule ["0/0"; "0/0"; "0/1"; "0/0"] 0.25 2 false);
      [simpl; lia|simpl; lia|reflexivity|reflexivity|left; reflexivity].
  - apply (threshold_decision_rule ["1/1"; "0/0"; "0/1"; "1/1"] 0.25 2 false);
      [simpl; lia|simpl; lia|reflexivity|reflexivity|right; reflexivity].
  - apply (threshold_decision_rule ["0"; "0"; "0"; "0"; "0"; "0"; "0"; "0"; "1"] 0.125 2 true);
      [simpl; lia|simpl; lia|reflexivity|reflexivity|reflexivity].
  - apply (threshold_decision_rule ["1"; "1"; "1"; "1"; "1"; "1"; "1"; "1"; "0"] 0.125 2 true);
      [simpl; lia|simpl; lia|reflexivity|reflexivity|reflexivity].
Defined.

(** C4: [alt_count] is the number of valid calls that are not literally
    the reference string of the mode, ["0"] in haploid mode and ["0/0"] in
    diploid mode; every other string counts, whatever its alleles. *)
Theorem alt_count_literal_comparison :
  alt_count true [] = 0 /\ alt_count false [] = 0
  /\ (forall gt valid,
        alt_count true (gt :: valid) =
        (if decide (gt = "0") then 0 else 1) + alt_count true valid)
  /\ (forall gt valid,
        alt_count false (gt :: valid) =
        (if decide (gt = "0/0") then 0 else 1) + alt_count false valid)
  /\ alt_count false ["0/0"; "0/1"; "1/2"; "0/2"; "2/2"; "1/0"; "0|0"; "0"] = 7
  /\ alt_count true ["0"; "1"; "2"; "0/0"] = 3.
Proof.
  split; [done|]. split; [done|].
  split; [|split; [|done]].
  - intros gt valid. rewrite !alt_count_length, filter_cons.
    destruct (decide (gt = "0")) as [->|Hne].
    + rewrite decide_False by (intros H; by apply H). done.
    + by rewrite decide_True.
  - intros gt valid. rewrite !alt_count_length, filter_cons.
    destruct (decide (gt = "0/0")) as [->|Hne].
    + rewrite decide_False by (intros H; by apply H). done.
    + by rewrite decide_True.
Qed.

(** A minimum below one lets the division be reached with no valid call. *)
Example zero_minimum_divides_by_zero :
  infer_queen_gt_from_list ["./."; ""] 0.125 0 false = Raise ZeroDivisionError.
Proof. reflexivity. Qed.

(** The older script differs on both points: it looks for the characters
    [1] and [2] in a call, and it wants more than three valid calls. *)
Example legacy_counts_by_substring :
  Legacy.infer_row ["0/3"; "0/3"; "0/3"; "0/3"] 0.125 = Ok "0/0"
  /\ infer_queen_gt_from_list ["0/3"; "0/3"; "0/3"; "0/3"] 0.125 2 false = Ok "1/1".
Proof. split; reflexivity. Qed.

Example legacy_wants_four_calls :
  Legacy.infer_row ["1/1"; "1/1"; "1/1"] 0.125 = Ok "./."
  /\ infer_queen_gt_from_list ["1/1"; "1/1"; "1/1"] 0.125 2 false = Ok "1/1".
Proof. split; reflexivity. Qed.

(** * Missing calls *)

Lemma drone_call_absent (sample_data : gmap string string) (d : string) :
  sample_data !! d = None -> drone_call sample_data d = "./.".
Proof. unfold drone_call. by intros ->. Qed.

Lemma drone_call_dot (sample_data : gmap string string) (d : string) :
  sample_data !! d = Some "." -> drone_call sample_data d = "./.".
Proof. unfold drone_call. by intros ->. Qed.

Lemma drone_call_empty (sample_data : gmap string string) (d : string) :
  sample_data !! d = Some "" -> drone_call sample_data d = "".
Proof. unfold drone_call. by intros ->. Qed.

(** In diploid mode a call [./.] or an empty call is filtered out, and so
    adds nothing to [total] or to [alt_count]. *)
Lemma diploid_missing_excluded (gt : string) (before after : list string) :
  gt ∈ ["./."; ""] ->
  valid_gts false (before ++ gt :: after) = valid_gts false (before ++ after).
Proof.
  intros Hgt. unfold valid_gts. rewrite !filter_app, filter_cons.
  by rewrite decide_False by (intros H; by apply H).
Qed.

(** In haploid mode the filter removes [.] and the empty string, not [./.]. *)
Lemma haploid_dot_excluded (gt : string) (before after : list string) :
  gt ∈ ["."; ""] ->
  valid_gts true (before ++ gt :: after) = valid_gts true (before ++ after).
Proof.
  intros Hgt. unfold valid_gts. rewrite !filter_app, filter_cons.
  by rewrite decide_False by (intros H; by apply H).
Qed.

(** C3: in haploid mode a drone that is absent from the samples, or
    whose field is [.], contributes [./.], which the haploid filter keeps:
    it is counted in [total] and in [alt_count].  With two genotyped
    drones that both carry [0], one drone without a call ([d3]) and one
    absent drone ([d4]), the queen is called [0/1], not [0/0]. *)
Theorem haploid_missing_calls_are_counted :
  drone_call haploid_sample_data "d3" = "./."
  /\ drone_call haploid_sample_data "d4" = "./."
  /\ valid_gts true ["0"; "0"; "./."; "./."] = ["0"; "0"; "./."; "./."]
  /\ alt_count true ["0"; "0"; "./."; "./."] = 2
  /\ infer_queen_gt_from_list ["0"; "0"; "./."; "./."] 0.125 2 true = Ok "0/1"
  /\ infer_queen_gt_from_list ["0"; "0"] 0.125 2 true = Ok "0/0"
  /\ (fun r : task_result => r.1.2)
       <$> get_queen_genotypes haploid_vcf "Q" ["d1"; "d2"; "d3"; "d4"] 0.125 2 true
     = Ok [(site_key, "0/1")].
Proof. repeat split; reflexivity. Qed.

(** * The list file *)

(** In [main], the first token of a line is the key of [queen_map] and
    the second is appended to the list stored under that key. *)
Lemma read_list_line_two_tokens (st : Py.odict (list string) * list string)
    (line t0 t1 : string) (rest : list string) :
  Py.split_ws (Py.strip line) = t0 :: t1 :: rest ->
  read_list_line st line = (Py.upsert t0 (fun o => default [] o ++ [t1]) st.1, st.2).
Proof. unfold read_list_line. by intros ->. Qed.

(** In the older script, the first token goes to [droneID] and the second
    to [queenID]. *)
Lemma legacy_read_list_line_two_tokens (droneID queenID out : list string)
    (line t0 t1 : string) (rest : list string) :
  Py.split_ws (Py.strip line) = t0 :: t1 :: rest ->
  Legacy.read_list_line (droneID, queenID, out) line =
  (droneID ++ [Py.strip t0], queenID ++ [Py.strip t1], out).
Proof. unfold Legacy.read_list_line. by intros ->. Qed.

Lemma get_upsert_eq {V : Type} (k : string) (f : option V -> V) (d : Py.odict V) :
  Py.get k (Py.upsert k f d) = Some (f (Py.get k d)).
Proof.
  induction d as [|[k' v] d IH]; cbn [Py.upsert Py.get].
  - by rewrite decide_True.
  - destruct (decide (k' = k)) as [->|Hne]; cbn [Py.get].
    + by rewrite decide_True.
    + by rewrite decide_False.
Qed.

Lemma get_upsert_ne {V : Type} (k k0 : string) (f : option V -> V) (d : Py.odict V) :
  k0 ≠ k -> Py.get k0 (Py.upsert k f d) = Py.get k0 d.
Proof.
  intros Hne. induction d as [|[k' v] d IH]; cbn [Py.upsert Py.get].
  - by rewrite decide_False by congruence.
  - destruct (decide (k' = k)) as [->|Hne']; cbn [Py.get].
    + by rewrite !decide_False by congruence.
    + destruct (decide (k' = k0)); done.
Qed.

Lemma keys_upsert {V : Type} (k : string) (f : option V -> V) (d : Py.odict V) :
  Py.keys (Py.upsert k f d) = if decide (k ∈ Py.keys d) then Py.keys d else Py.keys d ++ [k].
Proof.
  unfold Py.keys. induction d as [|[k' v] d IH].
  - rewrite decide_False by set_solver. done.
  - cbn [Py.upsert]. rewrite (fmap_cons fst (k', v) d). cbn [fst].
    destruct (decide (k' = k)) as [->|Hne].
    + rewrite decide_True by set_solver. done.
    + rewrite fmap_cons, IH. cbn [fst]. destruct (decide (k ∈ d.*1)) as [Hin|Hnin].
      * rewrite decide_True by set_solver. done.
      * rewrite decide_False by set_solver. done.
Qed.

(** What the loader of [main] does with a line of two tokens or more:
    the first token is taken for the queen and the second for the drone.
    The second token is appended to the list kept under the first; the
    lists of the other queens are untouched; a queen seen for the first
    time is added after the queens already there; nothing is printed. *)
Lemma list_line_first_token_is_queen (st : Py.odict (list string) * list string)
    (line t0 t1 : string) (rest : list string) :
  Py.split_ws (Py.strip line) = t0 :: t1 :: rest ->
  let st' := read_list_line st line in
  Py.get t0 st'.1 = Some (default [] (Py.get t0 st.1) ++ [t1])
  /\ (forall q, q ≠ t0 -> Py.get q st'.1 = Py.get q st.1)
  /\ Py.keys st'.1
     = (if decide (t0 ∈ Py.keys st.1) then Py.keys st.1 else Py.keys st.1 ++ [t0])
  /\ st'.2 = st.2.
Proof.
  intros Htok st'. subst st'. rewrite (read_list_line_two_tokens st line t0 t1 rest Htok).
  cbn [fst snd]. split; [by rewrite get_upsert_eq|]. split; [|split; [apply keys_upsert|done]].
  intros q Hq. by apply get_upsert_ne.
Qed.

Lemma list_line_first_token_is_queen_witness :
  Py.get "qA" (read_list_line ([("qA", ["d1"])], []) ("qA d2" +:+ NLs)).1 = Some ["d1"; "d2"].
Proof.
  by destruct (list_line_first_token_is_queen ([("qA", ["d1"])], []) ("qA d2" +:+ NLs)
                 "qA" "d2" [] eq_refl) as (-> & _).
Defined.

(** On the list [d1 qA], [d2 qA], [d3 qB], written drone first, [main]
    keeps [d1], [d2] and [d3] as three queens, each with a queen name as
    its only drone, and no list for [qA].  The older script groups the
    same lines as the drones of [qA] and of [qB]. *)
Lemma first_token_not_read_as_drone :
  read_list drone_queen_list = ([("d1", ["qA"]); ("d2", ["qA"]); ("d3", ["qB"])], [])
  /\ Py.get "qA" (read_list drone_queen_list).1 = None
  /\ (let '(droneID, queenID, _) := Legacy.read_list drone_queen_list in
      Legacy.family_map droneID queenID) = [("qA", ["d1"; "d2"]); ("qB", ["d3"])].
Proof. repeat split; reflexivity. Qed.

(** C5: a list file written as the specification has it, [drone_id
    queen_id], is read the wrong way round by the pipeline.  On the list
    [d1 qA], [d2 qA], [d3 qB], [d4 qB] and a file whose samples are the four
    drones, [main] takes each drone for a queen whose only drone is [qA] or
    [qB]: it warns four times that a drone is missing, and writes one
    column per drone, with no call in it.  The older script, on the same
    list, gives [qA] the drones [d1], [d2] and [qB] the drones [d3], [d4],
    as the claim says. *)
Theorem spec_format_list_is_read_queen_first :
  (read_list (arg_list spec_format_args)).1
  = [("d1", ["qA"]); ("d2", ["qA"]); ("d3", ["qB"]); ("d4", ["qB"])]
  /\ main_stdout spec_format_args
     = [ "Warning: For queen d1, missing drones in VCF: qA";
         "Warning: For queen d2, missing drones in VCF: qA";
         "Warning: For queen d3, missing drones in VCF: qB";
         "Warning: For queen d4, missing drones in VCF: qB" ]
  /\ main spec_format_args
     = Ok [ "##fileformat=VCFv4.2" +:+ NLs;
            chrom_line ["d1"; "d2"; "d3"; "d4"];
            vcf_line ["10"; "200"; "."; "A"; "T"; "50"; "PASS"; "."; "GT";
                      "./."; "./."; "./."; "./."];
            vcf_line ["2"; "100"; "."; "A"; "T"; "50"; "PASS"; "."; "GT";
                      "./."; "./."; "./."; "./."] ]
  /\ (let '(droneID, queenID, _) := Legacy.read_list (arg_list spec_format_args) in
      Legacy.family_map droneID queenID)
     = [("qA", ["d1"; "d2"]); ("qB", ["d3"; "d4"])].
Proof. repeat split; by vm_compute. Qed.

(** * The merge *)

Lemma foldM_app {A B : Type} (f : A -> B -> result A) (a : A) (l1 l2 : list B) :
  foldM f a (l1 ++ l2) = (a' ← foldM f a l1; foldM f a' l2).
Proof.
  revert a. induction l1 as [|x l1 IH]; intros a; simpl; [done|].
  destruct (f a x) as [a'|e]; simpl; [apply IH|done].
Qed.

Lemma getitem_Some {V : Type} (d : gmap string V) (k : string) (v : V) :
  d !! k = Some v -> Py.getitem d k = Ok v.
Proof. unfold Py.getitem. by intros ->. Qed.

(** Merging one task result whose [info_map] has an entry for each of its
    genotype keys never raises, and leaves under each of these keys the
    annotation columns of that result. *)
Lemma merge_result_overwrites (acc : merged) (r : task_result) :
  (forall k, k ∈ Py.keys r.1.2 -> is_Some (r.2 !! k)) ->
  exists m, merge_result acc r = Ok m
    /\ forall k, m.2 !! k = if decide (k ∈ Py.keys r.1.2) then r.2 !! k else acc.2 !! k.
Proof.
  destruct r as [[queen_name queen_gts] info_map]. unfold merge_result. cbn [fst snd].
  revert acc. induction queen_gts as [|[vk gt] gts IH]; intros acc Hcov.
  - exists acc. split; [done|]. intros k. rewrite decide_False; [done|].
    unfold Py.keys. set_solver.
  - destruct (Hcov vk) as [info Hinfo]; [unfold Py.keys; set_solver|].
    cbn [foldM]. rewrite (getitem_Some _ _ _ Hinfo). cbn [mbind result_bind].
    edestruct (IH (Py.upsert vk (fun o => <[queen_name:=gt]> (default ∅ o)) acc.1,
                   <[vk:=info]> acc.2)) as (m & Hm & Hlook).
    { intros k Hk. apply Hcov. unfold Py.keys in *. set_solver. }
    exists m. split; [exact Hm|]. intros k. rewrite Hlook. unfold Py.keys. cbn [snd].
    destruct (decide (k ∈ gts.*1)) as [Hin|Hnin].
    + rewrite decide_True; [done|set_solver].
    + destruct (decide (k = vk)) as [->|Hne].
      * rewrite decide_True by set_solver. by rewrite lookup_insert_eq.
      * rewrite decide_False by set_solver. by rewrite lookup_insert_ne.
Qed.

(** Every result of [get_queen_genotypes] has an entry in [info_map] for
    each key of [genotypes]. *)
Lemma process_lines_cover (sample_names drones : list string) (threshold : float)
    (min_drones : Z) (haploid : bool) (f : list string)
    (st st' : Py.odict string * gmap string (list string)) :
  (forall k, k ∈ Py.keys st.1 -> is_Some (st.2 !! k)) ->
  foldM (process_line sample_names drones threshold min_drones haploid) st f = Ok st' ->
  forall k, k ∈ Py.keys st'.1 -> is_Some (st'.2 !! k).
Proof.
  revert st. induction f as [|line f IH]; intros st Hcov; simpl.
  - by intros [= <-].
  - destruct (process_line _ _ _ _ _ st line) as [st1|e] eqn:Hline; simpl; [|done].
    apply IH. unfold process_line in Hline.
    destruct (Py.startswith "#" line); [by injection Hline as <-|].
    destruct (infer_queen_gt_from_list _ _ _ _) as [queen_gt|e]; simpl in Hline; [|done].
    injection Hline as <-. simpl. intros k Hk.
    set (vk := Py.join TABs _) in *.
    destruct (decide (k = vk)) as [->|Hne]; [rewrite lookup_insert_eq; eauto|].
    rewrite lookup_insert_ne by done. apply Hcov.
    clear -Hk Hne. unfold Py.keys, Py.setitem in *.
    induction st.1 as [|[k' v'] d IHd]; simpl in *; [set_solver|].
    destruct (decide (k' = vk)); simpl in *; set_solver.
Qed.

Lemma get_queen_genotypes_cover (input_vcf : list string) (queen_name : string)
    (drones : list string) (threshold : float) (min_drones : Z) (haploid : bool)
    (r : task_result) :
  get_queen_genotypes input_vcf queen_name drones threshold min_drones haploid = Ok r ->
  forall k, k ∈ Py.keys r.1.2 -> is_Some (r.2 !! k).
Proof.
  unfold get_queen_genotypes.
  destruct (find_chrom_line input_vcf) as [[[|c h]|] rest]; try done.
  destruct (foldM _ _ rest) as [st|e] eqn:Hst; simpl; [|done].
  intros [= <-]. simpl. eapply process_lines_cover; [|exact Hst].
  simpl. set_solver.
Qed.

(** C6, as the code has it: when two task results both hold a site, with
    whatever annotation columns, merging them does not raise, and the
    annotation columns kept for the site are those of the result merged
    last. *)
Theorem merge_keeps_last_annotations (acc : merged) (r1 r2 : task_result) (k : string) :
  (forall k', k' ∈ Py.keys r1.1.2 -> is_Some (r1.2 !! k')) ->
  (forall k', k' ∈ Py.keys r2.1.2 -> is_Some (r2.2 !! k')) ->
  k ∈ Py.keys r1.1.2 -> k ∈ Py.keys r2.1.2 ->
  exists m, foldM collect acc [Ok r1; Ok r2] = Ok m /\ m.2 !! k = r2.2 !! k.
Proof.
  intros H1 H2 Hk1 Hk2. simpl.
  destruct (merge_result_overwrites acc r1 H1) as (m1 & -> & _). simpl.
  destruct (merge_result_overwrites m1 r2 H2) as (m2 & -> & Hlook). simpl.
  exists m2. split; [done|]. rewrite Hlook. by rewrite decide_True.
Qed.

Lemma merge_keeps_last_annotations_witness :
  exists m, foldM collect ([], ∅) [Ok result_qA; Ok result_qB] = Ok m
            /\ m.2 !! site_key = result_qB.2 !! site_key.
Proof.
  apply (merge_keeps_last_annotations ([], ∅) result_qA result_qB site_key).
  - intros k' Hk. apply list_elem_of_singleton in Hk as ->. by eexists.
  - intros k' Hk. apply list_elem_of_singleton in Hk as ->. by eexists.
  - by apply list_elem_of_singleton.
  - by apply list_elem_of_singleton.
Defined.

(** C6 as stated fails: the two results below disagree on the quality,
    filter, info and format columns of the same site, and the merge
    returns normally with the columns of the second. *)
Lemma merge_without_consistency_check :
  result_qA.2 !! site_key ≠ result_qB.2 !! site_key
  /\ exists m, foldM collect ([], ∅) [Ok result_qA; Ok result_qB] = Ok m
       /\ m.2 !! site_key
          = Some ["1"; "100"; "."; "A"; "T"; "99"; "q10"; "DP=7"; "GT:DP"].
Proof.
  split; [by vm_compute|]. eexists. split; [reflexivity|]. by vm_compute.
Qed.

(** * A file without a [#CHROM] line *)








(** * The order of the output rows *)

Lemma string_lt_irrefl (s : string) : ~ String_as_OT.lt s s.
Proof. intros H. by apply String_as_OT.lt_not_eq in H. Qed.

Lemma string_ltb_false (s1 s2 : string) :
  s1 ≠ s2 -> String.ltb s1 s2 = false <-> String_as_OT.lt s2 s1.
Proof.
  intros Hne. unfold String.ltb.
  rewrite <- String_as_OT.cmp_lt. unfold String_as_OT.cmp.
  rewrite (String.compare_antisym s2 s1).
  destruct (String.compare s1 s2) eqn:Hc; simpl; [|done..].
  by apply String.compare_eq_iff in Hc.
Qed.

(** [key_le], which is what the sort preserves, is the order by chromosome,
    then position. *)
Lemma key_le_iff (a b : string * Z) : key_le a b <-> chrom_pos_le a b.
Proof.
  unfold key_le, key_lt, chrom_pos_le.
  destruct (String.eqb_spec b.1 a.1) as [Heq|Hne].
  - rewrite Z.ltb_ge. split.
    + intros H. by right.
    + intros [Hlt|[_ H]]; [|done]. rewrite Heq in Hlt. by apply string_lt_irrefl in Hlt.
  - rewrite string_ltb_false by done. split.
    + by left.
    + intros [H|[Heq _]]; [done|]. by rewrite Heq in Hne.
Qed.

Lemma chrom_pos_le_trans (a b c : string * Z) :
  chrom_pos_le a b -> chrom_pos_le b c -> chrom_pos_le a c.
Proof.
  unfold chrom_pos_le. intros [H1|[E1 H1]] [H2|[E2 H2]].
  - left. eapply String_as_OT.lt_trans; eauto.
  - left. by rewrite <- E2.
  - left. by rewrite E1.
  - right. split; [congruence|lia].
Qed.

Lemma chrom_pos_le_total (a b : string * Z) : chrom_pos_le a b \/ chrom_pos_le b a.
Proof.
  unfold chrom_pos_le.
  destruct (String.compare a.1 b.1) eqn:Hc.
  - apply String.compare_eq_iff in Hc.
    destruct (Z.le_ge_cases a.2 b.2); [left|right]; right; split; done.
  - left. left. by apply String_as_OT.cmp_lt.
  - right. left. apply String_as_OT.cmp_lt. unfold String_as_OT.cmp.
    rewrite String.compare_antisym, Hc. done.
Qed.

Lemma key_lt_irrefl (a : string * Z) : key_lt a a = false.
Proof. unfold key_lt. rewrite String.eqb_refl. apply Z.ltb_irrefl. Qed.

Lemma key_lt_le (a b : string * Z) : key_lt a b = true -> chrom_pos_le a b.
Proof.
  intros H. destruct (chrom_pos_le_total a b) as [|Hba]; [done|].
  apply key_le_iff in Hba. unfold key_le in Hba. congruence.
Qed.

Lemma insert_by_key_perm {A : Type} (x : (string * Z) * A) (l : list ((string * Z) * A)) :
  insert_by_key x l ≡ₚ x :: l.
Proof.
  induction l as [|y l IH]; simpl; [done|].
  destruct (key_lt y.1 x.1); [|done]. rewrite IH. apply Permutation_swap.
Qed.

Lemma sort_by_key_perm {A : Type} (l : list ((string * Z) * A)) : sort_by_key l ≡ₚ l.
Proof.
  induction l as [|x l IH]; simpl; [done|].
  by rewrite insert_by_key_perm, IH.
Qed.

Lemma insert_by_key_sorted {A : Type} (x : (string * Z) * A) (l : list ((string * Z) * A)) :
  StronglySorted (fun a b => chrom_pos_le a.1 b.1) l ->
  StronglySorted (fun a b => chrom_pos_le a.1 b.1) (insert_by_key x l).
Proof.
  induction 1 as [|y l Hl IH Hy]; simpl; [repeat constructor|].
  destruct (key_lt y.1 x.1) eqn:Hlt.
  - constructor; [done|]. rewrite insert_by_key_perm. constructor; [|done].
    by apply key_lt_le.
  - assert (chrom_pos_le x.1 y.1) as Hxy by (by apply key_le_iff).
    constructor; [by constructor|]. constructor; [done|].
    eapply Forall_impl; [exact Hy|]. intros z Hz. by eapply chrom_pos_le_trans.
Qed.

Lemma sort_by_key_sorted {A : Type} (l : list ((string * Z) * A)) :
  StronglySorted (fun a b => chrom_pos_le a.1 b.1) (sort_by_key l).
Proof.
  induction l as [|x l IH]; simpl; [constructor|]. by apply insert_by_key_sorted.
Qed.

(** Stability: the elements with a given key keep their order. *)
Lemma insert_by_key_stable {A : Type} (sk : string * Z) (x : (string * Z) * A)
    (l : list ((string * Z) * A)) :
  filter (fun p => p.1 = sk) (insert_by_key x l) = filter (fun p => p.1 = sk) (x :: l).
Proof.
  induction l as [|y l IH]; simpl; [done|].
  destruct (key_lt y.1 x.1) eqn:Hlt; [|done].
  rewrite filter_cons, IH, !filter_cons.
  destruct (decide (y.1 = sk)) as [Hy|Hy]; [|done].
  destruct (decide (x.1 = sk)) as [Hx|Hx]; [|done].
  rewrite Hy, Hx, key_lt_irrefl in Hlt. done.
Qed.

Lemma sort_by_key_stable {A : Type} (sk : string * Z) (l : list ((string * Z) * A)) :
  filter (fun p => p.1 = sk) (sort_by_key l) = filter (fun p => p.1 = sk) l.
Proof.
  induction l as [|x l IH]; simpl; [done|].
  by rewrite insert_by_key_stable, !filter_cons, IH.
Qed.

Lemma traverse_Ok_Forall2 {A B : Type} (f : A -> result B) (l : list A) (ys : list B) :
  traverse f l = Ok ys <-> Forall2 (fun x y => f x = Ok y) l ys.
Proof.
  revert ys. induction l as [|x l IH]; intros ys; simpl.
  - split; [intros [= <-]; constructor|by inversion 1].
  - destruct (f x) as [y|e] eqn:Hx; simpl.
    + destruct (traverse f l) as [ys'|e] eqn:Hl; simpl.
      * split.
        -- intros [= <-]. constructor; [done|by apply IH].
        -- inversion 1 as [|? y' ? ys'' Hy Hys]; subst.
           apply IH in Hys. congruence.
      * split; [done|]. inversion 1 as [|? y' ? ys'' Hy Hys]; subst.
        apply IH in Hys. done.
    + split; [done|]. inversion 1; congruence.
Qed.

Lemma write_row_Some (queen_names : list string)
    (all_genotypes : Py.odict (gmap string string))
    (info_map : gmap string (list string)) (k : string) (info_cols : list string) :
  info_map !! k = Some info_cols ->
  exists row, write_row queen_names all_genotypes info_map k = Ok row.
Proof. intros H. unfold write_row. rewrite (getitem_Some _ _ _ H). by eexists. Qed.

(** What [sorted] returns when every key can be computed. *)
Lemma sorted_spec (f : string -> result (string * Z)) (l : list string) :
  Forall (fun k => exists sk, f k = Ok sk) l ->
  exists keyed : list ((string * Z) * string),
    sorted f l = Ok keyed.*2
    /\ keyed.*2 ≡ₚ l
    /\ Forall (fun p => f p.2 = Ok p.1) keyed
    /\ StronglySorted chrom_pos_le keyed.*1.
Proof.
  intros Hl.
  assert (exists keyed0 : list ((string * Z) * string),
             traverse (fun k => sk ← f k; Ok (sk, k)) l = Ok keyed0
             /\ keyed0.*2 = l /\ Forall (fun p => f p.2 = Ok p.1) keyed0)
    as (keyed0 & Htr & H2 & Hf).
  { induction Hl as [|k l [sk Hk] _ (keyed0 & Htr & H2 & Hf)].
    - exists []. by repeat split.
    - exists ((sk, k) :: keyed0). simpl. rewrite Hk. simpl. rewrite Htr. simpl.
      repeat split; [f_equal; exact H2|by constructor]. }
  exists (sort_by_key keyed0).
  unfold sorted. rewrite Htr. simpl. split; [done|].
  pose proof (sort_by_key_perm keyed0) as Hperm.
  split; [by rewrite Hperm, H2|].
  split; [by rewrite Hperm|].
  apply (StronglySorted_fmap fst (fun a b => chrom_pos_le a.1 b.1)); [done|].
  apply sort_by_key_sorted.
Qed.

(** ** Rows and their keys *)

Lemma split_nonempty (sep : ascii) (s : string) : Py.split sep s ≠ [].
Proof.
  destruct s as [|c s]; cbn [Py.split]; [done|].
  destruct (Ascii.eqb c sep); [done|]. by destruct (Py.split sep s).
Qed.

Lemma split_tab_free (s : string) : Forall tab_free (Py.split Py.TAB s).
Proof.
  induction s as [|c s IH]; cbn [Py.split]; [by repeat constructor|].
  destruct (Ascii.eqb c Py.TAB) eqn:Hc; [by constructor|].
  destruct (Py.split Py.TAB s) as [|f fs]; [by repeat constructor; unfold tab_free; cbn; rewrite Hc|].
  apply Forall_cons in IH as [Hf Hfs]. constructor; [|done].
  unfold tab_free in *. cbn [Py.contains]. by rewrite Hc, Hf.
Qed.

Lemma split_tab_free_field (f : string) : tab_free f -> Py.split Py.TAB f = [f].
Proof.
  unfold tab_free. induction f as [|c f IH]; cbn [Py.split Py.contains]; [done|].
  intros H. apply orb_false_elim in H as [Hc Hf]. by rewrite Hc, IH.
Qed.

Lemma split_field_tab (f rest : string) :
  tab_free f -> Py.split Py.TAB (f +:+ TABs +:+ rest) = f :: Py.split Py.TAB rest.
Proof.
  unfold tab_free. induction f as [|c f IH]; cbn [Py.contains].
  - intros _. cbn. done.
  - intros H. apply orb_false_elim in H as [Hc Hf].
    change (String c f +:+ TABs +:+ rest) with (String c (f +:+ TABs +:+ rest)).
    cbn [Py.split]. rewrite Hc. by rewrite IH.
Qed.

(** Splitting what was joined gives the fields back. *)
Lemma split_join (fs : list string) :
  fs ≠ [] -> Forall tab_free fs -> Py.split Py.TAB (Py.join TABs fs) = fs.
Proof.
  intros Hne Hfs. induction Hfs as [|f fs Hf Hfs IH]; [done|].
  destruct fs as [|g fs].
  - cbn. by apply split_tab_free_field.
  - unfold Py.join in *.
    change (String.concat TABs (f :: g :: fs))
      with (f +:+ TABs +:+ String.concat TABs (g :: fs)).
    rewrite split_field_tab by done. by rewrite IH.
Qed.

Lemma getitem_Ok {V : Type} (d : gmap string V) (k : string) (v : V) :
  Py.getitem d k = Ok v -> d !! k = Some v.
Proof. unfold Py.getitem. destruct (d !! k); [by intros [= ->]|done]. Qed.

Lemma info_ok_insert (info_map : gmap string (list string)) (parts : list string) :
  info_ok info_map -> Forall tab_free parts ->
  info_ok (<[Py.join TABs (take 5 parts) := take 9 parts]> info_map).
Proof.
  intros Hok Hparts k info Hk.
  destruct (decide (k = Py.join TABs (take 5 parts))) as [->|Hne].
  - rewrite lookup_insert_eq in Hk. injection Hk as <-.
    rewrite take_take. split; [done|]. by apply Forall_take.
  - rewrite lookup_insert_ne in Hk by done. by apply Hok.
Qed.

Lemma process_lines_info_ok (sample_names drones : list string) (threshold : float)
    (min_drones : Z) (haploid : bool) (f : list string)
    (st st' : Py.odict string * gmap string (list string)) :
  info_ok st.2 ->
  foldM (process_line sample_names drones threshold min_drones haploid) st f = Ok st' ->
  info_ok st'.2.
Proof.
  revert st. induction f as [|line f IH]; intros st Hok; cbn [foldM].
  - by intros [= <-].
  - destruct (process_line _ _ _ _ _ st line) as [st1|e] eqn:Hline; cbn; [|done].
    apply IH. unfold process_line in Hline.
    destruct (Py.startswith "#" line); [by injection Hline as <-|].
    destruct (infer_queen_gt_from_list _ _ _ _) as [queen_gt|e]; cbn in Hline; [|done].
    injection Hline as <-. cbn [snd]. apply info_ok_insert; [done|apply split_tab_free].
Qed.

Lemma get_queen_genotypes_info_ok (input_vcf : list string) (queen_name : string)
    (drones : list string) (threshold : float) (min_drones : Z) (haploid : bool)
    (r : task_result) :
  get_queen_genotypes input_vcf queen_name drones threshold min_drones haploid = Ok r ->
  info_ok r.2.
Proof.
  unfold get_queen_genotypes.
  destruct (find_chrom_line input_vcf) as [[[|c h]|] rest]; try done.
  destruct (foldM _ _ rest) as [st|e] eqn:Hst; cbn; [|done].
  intros [= <-]. cbn [snd]. eapply process_lines_info_ok; [|exact Hst].
  intros k info Hk. cbn [snd] in Hk. by rewrite lookup_empty in Hk.
Qed.

Lemma merge_result_info_ok (acc m : merged) (r : task_result) :
  info_ok acc.2 -> info_ok r.2 -> merge_result acc r = Ok m -> info_ok m.2.
Proof.
  destruct r as [[queen_name queen_gts] info_map]. unfold merge_result. cbn [snd].
  intros Hacc Hr. revert acc Hacc.
  induction queen_gts as [|[vk gt] gts IH]; intros acc Hacc; cbn [foldM].
  - by intros [= <-].
  - destruct (Py.getitem info_map vk) as [info|e] eqn:Hget; cbn; [|done].
    apply getitem_Ok in Hget. rename Hget into Hinfo.
    apply IH. cbn [snd]. intros k info' Hk.
    destruct (decide (k = vk)) as [->|Hne].
    + rewrite lookup_insert_eq in Hk. injection Hk as <-. by apply Hr.
    + rewrite lookup_insert_ne in Hk by done. by apply Hacc.
Qed.

Lemma collect_all_info_ok (a : args) (queen_map : Py.odict (list string)) (acc m : merged) :
  info_ok acc.2 -> foldM collect acc (jobs a queen_map) = Ok m -> info_ok m.2.
Proof.
  unfold jobs. revert acc. induction queen_map as [|qd queen_map IH]; intros acc Hacc.
  - by intros [= <-].
  - rewrite fmap_cons. cbn [foldM]. unfold collect at 1.
    destruct (get_queen_genotypes _ _ _ _ _ _) as [r|e] eqn:Hr; cbn; [|done].
    destruct (merge_result acc r) as [acc'|e] eqn:Hm; cbn; [|done].
    apply IH. eapply merge_result_info_ok; [exact Hacc| |exact Hm].
    by eapply get_queen_genotypes_info_ok.
Qed.

(** A row begins with the chromosome and the position that its key was
    sorted by. *)
Lemma write_row_begins_with_key (queen_names : list string)
    (all_genotypes : Py.odict (gmap string string))
    (info_map : gmap string (list string)) (k row : string) (sk : string * Z) :
  info_ok info_map ->
  variant_key_sorter k = Ok sk ->
  write_row queen_names all_genotypes info_map k = Ok row ->
  exists pos rest, row = Py.join TABs (sk.1 :: pos :: rest) +:+ NLs /\ Py.int pos = Ok sk.2.
Proof.
  intros Hok Hsk Hrow. unfold write_row in Hrow.
  destruct (Py.getitem info_map k) as [info|e] eqn:Hinfo; cbn in Hrow; [|done].
  apply getitem_Ok in Hinfo.
  injection Hrow as <-. destruct (Hok _ _ Hinfo) as [Hk Hfree].
  unfold variant_key_sorter in Hsk.
  destruct (Py.split Py.TAB k) as [|chrom [|pos fields]] eqn:Hsplit; try done.
  destruct (Py.int pos) as [p|e] eqn:Hpos; cbn in Hsk; [|done].
  injection Hsk as <-. cbn [fst snd].
  assert (take 5 info = chrom :: pos :: fields) as Htake.
  { destruct (take 5 info) as [|f fs] eqn:Ht.
    - rewrite Hk in Hsplit. cbn in Hsplit. done.
    - rewrite <- Hsplit, Hk. symmetry. apply split_join; [done|].
      rewrite <- Ht. by apply Forall_take. }
  destruct info as [|c0 [|p0 info]]; try done.
  injection Htake as -> -> _. eexists pos, _. split; [|done].
  by rewrite <- !app_comm_cons.
Qed.


(** The rows of the table [three_sites] as they are written. *)
Example three_sites_written :
  write_combined_vcf haploid_vcf ["qA"; "qB"] three_sites three_sites_info
  = Ok [ "##fileformat=VCFv4.2" +:+ NLs;
         vcf_line ["#CHROM"; "POS"; "ID"; "REF"; "ALT"; "QUAL"; "FILTER"; "INFO"; "FORMAT"; "qA"; "qB"];
         vcf_line ["10"; "50"; "."; "A"; "T"; "50"; "PASS"; "."; "GT"; "0/0"; "./."];
         vcf_line ["10"; "200"; "."; "A"; "T"; "50"; "PASS"; "."; "GT"; "0/0"; "1/1"];
         vcf_line ["2"; "100"; "."; "A"; "T"; "50"; "PASS"; "."; "GT"; "0/1"; "./."] ].
Proof. reflexivity. Qed.

(** When [main] ends normally, what it has written is the header followed
    by rows that begin with a chromosome and a position, sorted by
    chromosome as a string, then by position as an integer. *)
Lemma main_rows_sorted (a : args) (lines : list string) :
  main a = Ok lines ->
  exists (rows : list string) (sort_keys : list (string * Z)),
    lines = write_headers (arg_vcf a) (Py.keys (read_list (arg_list a)).1) ++ rows
    /\ Forall2 (fun row sk =>
                  exists pos rest,
                    row = Py.join TABs (sk.1 :: pos :: rest) +:+ NLs /\ Py.int pos = Ok sk.2)
               rows sort_keys
    /\ StronglySorted chrom_pos_le sort_keys.
Proof.
  unfold main. destruct (arg_threads a <=? 0)%Z; [done|].
  unfold finish.
  destruct (foldM collect _ _) as [m|e] eqn:Hm; cbn; [|done].
  assert (info_ok m.2) as Hok.
  { eapply collect_all_info_ok; [|exact Hm].
    intros k info Hk. cbn [snd] in Hk. by rewrite lookup_empty in Hk. }
  unfold write_combined_vcf, sorted.
  destruct (traverse _ (Py.keys m.1)) as [keyed|e] eqn:Hkeyed; cbn; [|done].
  destruct (traverse _ (sort_by_key keyed).*2) as [rows|e] eqn:Hrows; cbn; [|done].
  intros [= <-]. exists rows, (sort_by_key keyed).*1.
  split; [done|]. split.
  - apply traverse_Ok_Forall2 in Hrows, Hkeyed.
    assert (Forall (fun p : (string * Z) * string => variant_key_sorter p.2 = Ok p.1)
                   (sort_by_key keyed)) as Hsorted.
    { rewrite sort_by_key_perm. clear -Hkeyed.
      induction Hkeyed as [|k p ks ps Hk _ IH]; constructor; [|done].
      destruct (variant_key_sorter k) as [sk|e] eqn:Hv; cbn in Hk; [|done].
      by injection Hk as <-. }
    clear -Hok Hrows Hsorted. revert rows Hrows.
    induction Hsorted as [|[sk k] l Hk _ IH]; intros rows Hrows.
    + inversion Hrows. constructor.
    + inversion Hrows as [|? row ? rows' Hrow Hrows']; subst.
      constructor; [by eapply write_row_begins_with_key|by apply IH].
  - apply (StronglySorted_fmap fst (fun a b => chrom_pos_le a.1 b.1)); [done|].
    apply sort_by_key_sorted.
Qed.

(** * The pool: every schedule gives the same output *)

Lemma result_bind_Ok {A : Type} (m : result A) : (m ≫= Ok) = m.
Proof. by destruct m. Qed.

Lemma foldM_snoc {A B : Type} (f : A -> B -> result A) (a : A) (l : list B) (x : B) :
  foldM f a (l ++ [x]) = (a' ← foldM f a l; f a' x).
Proof.
  rewrite foldM_app. destruct (foldM f a l) as [a'|e]; simpl; [|done].
  apply result_bind_Ok.
Qed.

Lemma foldM_Raise_prefix {A B : Type} (f : A -> B -> result A) (a : A) (l : list B)
    (n : nat) (e : exn) :
  foldM f a (take n l) = Raise e -> foldM f a l = Raise e.
Proof. intros H. rewrite <- (take_drop n l), foldM_app, H. done. Qed.

Lemma pool_inv_init (js : list (result task_result)) : pool_inv js (pool_init js).
Proof.
  split; [|split; simpl; [done|lia]].
  intros i r. simpl. intros H. apply lookup_replicate in H as [? _]. done.
Qed.

Lemma pool_inv_step (n : nat) (js : list (result task_result)) (s s' : pool) :
  pool_step n js s s' -> pool_inv js s -> pool_inv js s'.
Proof.
  intros Hstep (Hfut & Hacc & Hcur).
  destruct Hstep as [i q run fs c a Hn|i r q run fs c a Hi Hr|r q run fs c m Hr];
    unfold pool_inv; cbn [futures acc cursor] in *.
  - done.
  - split; [|done]. intros j r' Hj.
    apply list_lookup_insert_Some in Hj as [(-> & [= ->] & _)|[_ Hj]]; [done|by apply Hfut].
  - pose proof (Hfut _ _ Hr) as Hjs. split; [done|]. split.
    + rewrite (take_S_r _ _ _ Hjs), foldM_snoc, <- Hacc. done.
    + by apply lookup_lt_Some in Hjs.
Qed.

Lemma pool_inv_reachable (n : nat) (js : list (result task_result)) (s : pool) :
  rtc (pool_step n js) (pool_init js) s -> pool_inv js s.
Proof.
  revert s. apply rtc_ind_r.
  - apply pool_inv_init.
  - intros s1 s2 _ Hstep Hinv. by eapply pool_inv_step.
Qed.

(** When the pool is done, the merge loop has built what merging all
    results in submission order builds. *)
Lemma pool_done_acc (n : nat) (js : list (result task_result)) (s : pool) :
  rtc (pool_step n js) (pool_init js) s -> pool_done js s ->
  acc s = foldM collect ([], ∅) js.
Proof.
  intros Hreach (_ & _ & Hend).
  destruct (pool_inv_reachable n js s Hreach) as (_ & Hacc & _).
  destruct Hend as [Hc|[e He]].
  - by rewrite Hacc, Hc, take_ge.
  - rewrite He. symmetry. eapply foldM_Raise_prefix. by rewrite <- Hacc.
Qed.

(** One schedule that always exists: each job is started and completed in
    turn, then the futures are read. *)
Lemma pool_run_jobs (n : nat) (js : list (result task_result)) (k : nat) :
  0 < n -> k <= length js ->
  rtc (pool_step n js) (pool_init js)
      {| queue := seq k (length js - k); running := [];
         futures := (Some <$> take k js) ++ replicate (length js - k) None;
         cursor := 0; acc := Ok ([], ∅) |}.
Proof.
  intros Hn. induction k as [|k IH]; intros Hk.
  - unfold pool_init. rewrite Nat.sub_0_r. simpl. done.
  - destruct (lookup_lt_is_Some_2 js k) as [r Hr]; [lia|].
    eapply rtc_r; [eapply rtc_r; [apply IH; lia|]|].
    + replace (length js - k) with (S (length js - S k)) by lia.
      simpl seq. apply step_start. simpl. lia.
    + simpl app.
      set (fs := (Some <$> take k js) ++ replicate (S (length js - S k)) None).
      assert (Hfs : <[k := Some r]> fs
                    = (Some <$> take (S k) js) ++ replicate (length js - S k) None).
      { unfold fs. rewrite insert_app_r_alt by (rewrite length_fmap, length_take; lia).
        rewrite length_fmap, length_take, Nat.min_l, Nat.sub_diag by lia. simpl.
        rewrite (take_S_r _ _ _ Hr), fmap_app, <- app_assoc. done. }
      rewrite <- Hfs.
      replace (@nil nat) with (filter (fun j => j ≠ k) [k]) at 2.
      * apply (step_complete n js k r); [set_solver|done].
      * rewrite filter_cons, decide_False by (intros H; by apply H). done.
Qed.

Lemma pool_run_read (n : nat) (js : list (result task_result)) (c : nat) :
  c <= length js ->
  exists c', c' <= length js
    /\ rtc (pool_step n js)
         {| queue := []; running := []; futures := Some <$> js;
            cursor := 0; acc := Ok ([], ∅) |}
         {| queue := []; running := []; futures := Some <$> js;
            cursor := c'; acc := foldM collect ([], ∅) (take c' js) |}
    /\ (c <= c' \/ exists e, foldM collect ([], ∅) (take c' js) = Raise e).
Proof.
  induction c as [|c IH]; intros Hc.
  - exists 0. split; [lia|]. split; [done|]. left. lia.
  - destruct IH as (c' & Hc' & Hrun & Hend); [lia|].
    destruct Hend as [Hle|Hraise];
      [|exists c'; split; [done|]; split; [done|by right]].
    destruct (decide (S c <= c')) as [|Hlt]; [exists c'; split; [done|]; split; [done|by left]|].
    assert (c' = c) as -> by lia.
    destruct (foldM collect ([], ∅) (take c js)) as [m|e] eqn:Hm;
      [|exists c; split; [lia|]; split; [by rewrite Hm|right; by exists e]].
    destruct (lookup_lt_is_Some_2 js c) as [r Hr]; [lia|].
    exists (S c). split; [lia|]. split; [|left; lia].
    eapply rtc_r; [exact Hrun|].
    rewrite (take_S_r _ _ _ Hr), foldM_snoc, Hm. simpl.
    apply step_result. by rewrite list_lookup_fmap, Hr.
Qed.

Lemma pool_run_exists (n : nat) (js : list (result task_result)) :
  0 < n -> exists s, rtc (pool_step n js) (pool_init js) s /\ pool_done js s.
Proof.
  intros Hn.
  pose proof (pool_run_jobs n js (length js) Hn (Nat.le_refl _)) as Hjobs.
  rewrite Nat.sub_diag, take_ge, app_nil_r in Hjobs by done. simpl in Hjobs.
  destruct (pool_run_read n js (length js) (Nat.le_refl _)) as (c' & Hc' & Hread & Hend).
  eexists. split; [etrans; [exact Hjobs|exact Hread]|].
  split; [done|]. split; [done|]. simpl.
  destruct Hend as [?|?]; [left; lia|by right].
Qed.

(** [main], which resolves the futures in submission order, is a possible
    outcome, and the only one. *)
Lemma main_outcome_main (a : args) : main_outcome a (main a).
Proof.
  unfold main_outcome, main.
  destruct (Z.leb_spec (arg_threads a) 0) as [|Hpos]; [done|].
  set (js := jobs a (read_list (arg_list a)).1).
  destruct (pool_run_exists (Z.to_nat (arg_threads a)) js) as (s & Hrun & Hdone); [lia|].
  exists s. split; [done|]. split; [done|].
  by rewrite (pool_done_acc _ _ _ Hrun Hdone).
Qed.

Lemma main_outcome_unique (a : args) (out : result (list string)) :
  main_outcome a out -> out = main a.
Proof.
  unfold main_outcome, main.
  destruct (Z.leb_spec (arg_threads a) 0) as [|Hpos]; [done|].
  intros (s & Hrun & Hdone & ->). by rewrite (pool_done_acc _ _ _ Hrun Hdone).
Qed.

(** Two schedules for two jobs.  With one worker the jobs run one after
    the other and each result is merged as soon as it is there. *)
Lemma one_worker_runs_in_order (j0 j1 : result task_result) (m0 m1 : merged) :
  collect ([], ∅) j0 = Ok m0 -> collect m0 j1 = Ok m1 ->
  rtc (pool_step 1 [j0; j1]) (pool_init [j0; j1])
      {| queue := []; running := []; futures := [Some j0; Some j1];
         cursor := 2; acc := Ok m1 |}.
Proof.
  intros H0 H1. unfold pool_init. simpl.
  eapply rtc_l; [apply step_start; simpl; lia|]. simpl.
  eapply rtc_l; [apply (step_complete 1 _ 0 j0); [set_solver|done]|]. simpl.
  eapply rtc_l; [by apply (step_result 1 _ j0)|]. rewrite H0.
  eapply rtc_l; [apply step_start; simpl; lia|]. simpl.
  eapply rtc_l; [apply (step_complete 1 _ 1 j1); [set_solver|done]|]. simpl.
  eapply rtc_l; [by apply (step_result 1 _ j1)|]. rewrite H1.
  done.
Qed.

(** With several workers both jobs run at once, and the second may
    complete first; the main thread still reads the first future first. *)
Lemma second_job_completes_first (n : nat) (j0 j1 : result task_result) (m0 m1 : merged) :
  2 <= n ->
  collect ([], ∅) j0 = Ok m0 -> collect m0 j1 = Ok m1 ->
  rtc (pool_step n [j0; j1]) (pool_init [j0; j1])
      {| queue := []; running := []; futures := [Some j0; Some j1];
         cursor := 2; acc := Ok m1 |}.
Proof.
  intros Hn H0 H1. unfold pool_init. simpl.
  eapply rtc_l; [apply step_start; simpl; lia|]. simpl.
  eapply rtc_l; [apply step_start; simpl; lia|]. simpl.
  eapply rtc_l; [apply (step_complete n _ 1 j1); [set_solver|done]|]. simpl.
  eapply rtc_l; [apply (step_complete n _ 0 j0); [set_solver|done]|]. simpl.
  eapply rtc_l; [by apply (step_result n _ j0)|]. rewrite H0.
  eapply rtc_l; [by apply (step_result n _ j1)|]. rewrite H1.
  done.
Qed.

Lemma main_threads_irrelevant (a a' : args) :
  arg_vcf a' = arg_vcf a -> arg_list a' = arg_list a ->
  arg_min_drones a' = arg_min_drones a -> arg_het_thres a' = arg_het_thres a ->
  arg_haploid a' = arg_haploid a ->
  (1 <= arg_threads a)%Z -> (1 <= arg_threads a')%Z ->
  main a' = main a.
Proof.
  intros Hvcf Hlist Hmin Hthr Hhap Hn Hn'. unfold main, finish, jobs.
  rewrite Hvcf, Hlist, Hmin, Hthr, Hhap.
  destruct (Z.leb_spec (arg_threads a) 0) as [|_]; [lia|].
  destruct (Z.leb_spec (arg_threads a') 0) as [|_]; [lia|]. done.
Qed.

(** C9: for a fixed variant file, list file and configuration, and any
    two worker counts of at least one, every outcome of the run, whatever
    the order in which the submitted jobs are started and completed, is the
    same: it is the value of [main], in which the results are merged in
    submission order.  When it is a written file, the file is the header
    followed by rows whose queen columns are the keys of [queen_map] in
    insertion order. *)
Theorem output_independent_of_schedule (a a' : args) (out out' : result (list string)) :
  arg_vcf a' = arg_vcf a -> arg_list a' = arg_list a ->
  arg_min_drones a' = arg_min_drones a -> arg_het_thres a' = arg_het_thres a ->
  arg_haploid a' = arg_haploid a ->
  (1 <= arg_threads a)%Z -> (1 <= arg_threads a')%Z ->
  main_outcome a out -> main_outcome a' out' ->
  let queen_names := Py.keys (read_list (arg_list a)).1 in
  out' = out /\ out = main a
  /\ (forall lines, out = Ok lines ->
      exists (m : merged) (variant_keys rows : list string),
        lines = write_headers (arg_vcf a) queen_names ++ rows
        /\ Forall2 (fun k row => write_row queen_names m.1 m.2 k = Ok row)
                   variant_keys rows).
Proof.
  intros Hvcf Hlist Hmin Hthr Hhap Hn Hn' Hout Hout' queen_names.
  apply main_outcome_unique in Hout, Hout'.
  rewrite (main_threads_irrelevant a a') in Hout' by done.
  split; [congruence|]. split; [done|].
  intros lines Hlines. rewrite Hout in Hlines.
  unfold main in Hlines.
  destruct (arg_threads a <=? 0)%Z; [done|].
  unfold finish in Hlines.
  destruct (foldM collect _ _) as [m|e]; simpl in Hlines; [|done].
  unfold write_combined_vcf in Hlines. fold queen_names in Hlines.
  destruct (sorted _ _) as [variant_keys|e]; simpl in Hlines; [|done].
  destruct (traverse _ variant_keys) as [rows|e] eqn:Hrows; simpl in Hlines; [|done].
  injection Hlines as <-. exists m, variant_keys, rows.
  split; [done|]. by apply traverse_Ok_Forall2.
Qed.

Lemma output_independent_of_schedule_witness :
  exists out out',
    main_outcome (two_queens_args 1) out /\ main_outcome (two_queens_args 4) out'
    /\ out' = out
    /\ out = Ok [ "##fileformat=VCFv4.2" +:+ NLs;
                  chrom_line ["qB"; "qA"];
                  vcf_line ["10"; "200"; "."; "A"; "T"; "50"; "PASS"; "."; "GT"; "1/1"; "0/0"];
                  vcf_line ["2"; "100"; "."; "A"; "T"; "50"; "PASS"; "."; "GT"; "./."; "0/1"] ].
Proof.
  assert (main_outcome (two_queens_args 1) (main (two_queens_args 1))) as Hseq.
  { eexists. split; [eapply one_worker_runs_in_order; reflexivity|].
    split; [by repeat split; left|reflexivity]. }
  assert (main_outcome (two_queens_args 4) (main (two_queens_args 1))) as Hpar.
  { eexists. split; [eapply (second_job_completes_first 4); [simpl; lia|reflexivity..]|].
    split; [by repeat split; left|reflexivity]. }
  exists (main (two_queens_args 1)), (main (two_queens_args 1)).
  split; [exact Hseq|]. split; [exact Hpar|].
  destruct (output_independent_of_schedule (two_queens_args 1) (two_queens_args 4)
              (main (two_queens_args 1)) (main (two_queens_args 1)))
    as (H1 & H2 & _); try reflexivity; try (simpl; lia); try assumption.
  split; [exact H1|reflexivity].
Defined.

(** The keys of [queen_map] are the first tokens of the list file, each at
    the place of its first appearance. *)
Lemma read_list_snoc (list_file : list string) (line : string) :
  read_list (list_file ++ [line]) = read_list_line (read_list list_file) line.
Proof. unfold read_list. by rewrite foldl_app. Qed.

Lemma queen_names_insertion_order (list_file : list string) (line : string) :
  let before := Py.keys (read_list list_file).1 in
  Py.keys (read_list (list_file ++ [line])).1 =
  match Py.split_ws (Py.strip line) with
  | queen :: _ :: _ => if decide (queen ∈ before) then before else before ++ [queen]
  | _ => before
  end.
Proof.
  intros before. rewrite read_list_snoc. unfold read_list_line.
  destruct (Py.split_ws (Py.strip line)) as [|queen [|drone rest]]; try done.
  simpl. apply keys_upsert.
Qed.

(** * Further properties *)

Lemma is_ok_Ok {A : Type} (r : result A) : is_ok r = true -> exists a, r = Ok a.
Proof. destruct r as [a|e]; [by exists a|done]. Qed.

(** ** Strings *)

Lemma append_cons (c : ascii) (s t : string) : String c s +:+ t = String c (s +:+ t).
Proof. reflexivity. Qed.

Lemma append_nil_r (s : string) : s +:+ "" = s.
Proof. induction s as [|c s IH]; [done|]. by rewrite append_cons, IH. Qed.

Lemma append_assoc (s t u : string) : (s +:+ t) +:+ u = s +:+ t +:+ u.
Proof. induction s as [|c s IH]; [done|]. by rewrite !append_cons, IH. Qed.

Lemma rev_app_append (s t : string) : String.rev_app s t = String.rev s +:+ t.
Proof.
  unfold String.rev. revert t. induction s as [|c s IH]; intros t; [done|].
  cbn [String.rev_app]. by rewrite (IH (String c t)), (IH (String c "")), append_assoc.
Qed.

Lemma rev_cons (c : ascii) (s : string) :
  String.rev (String c s) = String.rev s +:+ String c "".
Proof. unfold String.rev at 1. cbn [String.rev_app]. apply rev_app_append. Qed.

Lemma rev_append (s t : string) : String.rev (s +:+ t) = String.rev t +:+ String.rev s.
Proof.
  induction s as [|c s IH].
  - by rewrite append_nil_r.
  - by rewrite append_cons, !rev_cons, IH, append_assoc.
Qed.

Lemma rev_involutive (s : string) : String.rev (String.rev s) = s.
Proof.
  induction s as [|c s IH]; [done|]. by rewrite rev_cons, rev_append, IH.
Qed.

Lemma lstrip_snoc (s : string) (c : ascii) :
  Py.isspace c = false ->
  Py.lstrip (s +:+ String c "") = Py.lstrip s +:+ String c "".
Proof.
  intros Hc. induction s as [|c' s IH].
  - change ("" +:+ String c "") with (String c ""). cbn [Py.lstrip]. by rewrite Hc.
  - rewrite append_cons. cbn [Py.lstrip]. by destruct (Py.isspace c').
Qed.

(** [rstrip] leaves a leading character that is not a space where it is. *)
Lemma rstrip_cons (c : ascii) (s : string) :
  Py.isspace c = false -> Py.rstrip (String c s) = String c (Py.rstrip s).
Proof.
  intros Hc. unfold Py.rstrip.
  by rewrite rev_cons, lstrip_snoc, rev_append by done.
Qed.

Lemma strip_cons (c : ascii) (s : string) :
  Py.isspace c = false -> Py.strip (String c s) = String c (Py.rstrip s).
Proof.
  intros Hc. unfold Py.strip. cbn [Py.lstrip]. rewrite Hc. by apply rstrip_cons.
Qed.

(** ** The consensus rule, continued *)

Lemma valid_gts_filter (haploid : bool) (drone_gts : list string) :
  valid_gts haploid drone_gts
  = filter (fun gt => gt ∉ (if haploid then ["."; ""] else ["./."; ""])) drone_gts.
Proof. by destruct haploid. Qed.

(** X1: the order of the drones does not matter. *)
Theorem infer_order_irrelevant (gts1 gts2 : list string) (threshold : float)
    (min_drones : Z) (haploid : bool) :
  gts1 ≡ₚ gts2 ->
  infer_queen_gt_from_list gts1 threshold min_drones haploid
  = infer_queen_gt_from_list gts2 threshold min_drones haploid.
Proof.
  intros Hperm. rewrite !infer_unfold. cbv zeta.
  assert (valid_gts haploid gts1 ≡ₚ valid_gts haploid gts2) as Hv.
  { rewrite !valid_gts_filter. by rewrite Hperm. }
  assert (length (valid_gts haploid gts1) = length (valid_gts haploid gts2)) as ->
    by (by rewrite Hv).
  assert (alt_count haploid (valid_gts haploid gts1)
          = alt_count haploid (valid_gts haploid gts2)) as ->; [|done].
  rewrite !alt_count_length. by rewrite Hv.
Qed.

Lemma infer_order_irrelevant_witness :
  infer_queen_gt_from_list ["0/1"; "0/0"; "./."; "0/0"] 0.125 2 false
  = infer_queen_gt_from_list ["0/0"; "0/0"; "0/1"; "./."] 0.125 2 false.
Proof.
  apply infer_order_irrelevant.
  apply (bool_decide_unpack _). by vm_compute.
Defined.

(** X2: a call that is missing in the mode in use can be added or
    removed anywhere without changing the result. *)
Theorem infer_ignores_missing (before after : list string) (gt : string)
    (threshold : float) (min_drones : Z) (haploid : bool) :
  gt ∈ (if haploid then ["."; ""] else ["./."; ""]) ->
  infer_queen_gt_from_list (before ++ gt :: after) threshold min_drones haploid
  = infer_queen_gt_from_list (before ++ after) threshold min_drones haploid.
Proof.
  intros Hgt. unfold infer_queen_gt_from_list.
  assert (valid_gts haploid (before ++ gt :: after) = valid_gts haploid (before ++ after))
    as ->; [|done].
  destruct haploid; [by apply haploid_dot_excluded|by apply diploid_missing_excluded].
Qed.

Lemma infer_ignores_missing_witness :
  infer_queen_gt_from_list (["0"; "1"] ++ "." :: ["1"]) 0.125 2 true
  = infer_queen_gt_from_list (["0"; "1"] ++ ["1"]) 0.125 2 true.
Proof. apply infer_ignores_missing. set_solver. Defined.

Lemma infer_raises (drone_gts : list string) (threshold : float)
    (min_drones : Z) (haploid : bool) (e : exn) :
  infer_queen_gt_from_list drone_gts threshold min_drones haploid = Raise e
  <-> e = ZeroDivisionError /\ valid_gts haploid drone_gts = [] /\ (min_drones <= 0)%Z.
Proof.
  rewrite infer_unfold. cbv zeta.
  destruct (Z.ltb_spec (Z.of_nat (length (valid_gts haploid drone_gts))) min_drones) as [Hlt|Hge].
  - split; [done|]. intros (_ & Hv & HM). rewrite Hv in Hlt. simpl in Hlt. lia.
  - destruct (valid_gts haploid drone_gts) as [|gt valid] eqn:Hv; simpl length in *.
    + split; [intros [= <-]; repeat split; lia|by intros (-> & _)].
    + split; [|by intros (_ & ? & _)].
      destruct (_ <? threshold)%float; [done|]. by destruct (1 - threshold <? _)%float.
Qed.

(** X3: the only exception is [ZeroDivisionError], and it is raised
    exactly when no call is valid and the minimum is zero or negative. *)
Theorem infer_raises_iff (drone_gts : list string) (threshold : float)
    (min_drones : Z) (haploid : bool) (e : exn) :
  infer_queen_gt_from_list drone_gts threshold min_drones haploid = Raise e
  <-> e = ZeroDivisionError /\ valid_gts haploid drone_gts = [] /\ (min_drones <= 0)%Z.
Proof. apply infer_raises. Qed.

(** ** The per-queen task, continued *)

Lemma prefix_cons_inv (a : ascii) (p s : string) :
  String.prefix (String a p) s = true ->
  exists s', s = String a s' /\ String.prefix p s' = true.
Proof.
  destruct s as [|b s]; cbn [String.prefix]; [done|].
  destruct (ascii_dec a b) as [->|]; [|done]. eauto.
Qed.

Lemma chrom_line_strip (line : string) :
  Py.startswith "#CHROM" line = true ->
  exists s, line = String "#"%char (String "C"%char s)
            /\ Py.strip line = String "#"%char (String "C"%char (Py.rstrip s)).
Proof.
  unfold Py.startswith. intros H.
  apply prefix_cons_inv in H as (s1 & -> & H).
  apply prefix_cons_inv in H as (s2 & -> & _).
  exists s2. split; [done|]. by rewrite strip_cons, rstrip_cons.
Qed.

(** Where the first loop of a task stops. *)
Lemma find_chrom_line_first (pre rest : list string) (line : string) :
  no_chrom_line pre -> Py.startswith "#CHROM" line = true ->
  find_chrom_line (pre ++ line :: rest) = (Some (Py.strip line), rest).
Proof.
  intros Hpre Hline. induction Hpre as [|l pre Hl _ IH]; cbn [app find_chrom_line].
  - by rewrite Hline.
  - by rewrite Hl.
Qed.

Lemma first_chrom_line (vcf : list string) :
  Exists (fun line => Py.startswith "#CHROM" line = true) vcf ->
  exists pre line rest,
    vcf = pre ++ line :: rest /\ no_chrom_line pre /\ Py.startswith "#CHROM" line = true.
Proof.
  induction vcf as [|l vcf IH]; [by inversion 1|]. intros Hex.
  destruct (Py.startswith "#CHROM" l) eqn:Hl.
  - exists [], l, vcf. by repeat split; [constructor|].
  - apply Exists_cons in Hex as [Hex|Hex]; [congruence|].
    destruct (IH Hex) as (pre & line & rest & -> & Hpre & Hline).
    exists (l :: pre), line, rest. repeat split; [by constructor|done].
Qed.

Lemma infer_in_queen_calls (drone_gts : list string) (threshold : float)
    (min_drones : Z) (haploid : bool) :
  (1 <= min_drones)%Z ->
  exists gt, infer_queen_gt_from_list drone_gts threshold min_drones haploid = Ok gt
             /\ gt ∈ queen_calls.
Proof.
  intros HM. rewrite infer_unfold. cbv zeta. unfold queen_calls.
  destruct (Z.ltb_spec (Z.of_nat (length (valid_gts haploid drone_gts))) min_drones) as [Hlt|Hge].
  - exists "./.". split; [done|set_solver].
  - destruct (length (valid_gts haploid drone_gts)) as [|n]; [lia|].
    destruct (_ <? threshold)%float; [exists "0/0"; split; [done|set_solver]|].
    destruct (1 - threshold <? _)%float; [exists "1/1"|exists "0/1"]; (split; [done|set_solver]).
Qed.

Lemma upsert_values {V : Type} (P : V -> Prop) (k : string) (f : option V -> V)
    (d : Py.odict V) :
  (forall o, P (f o)) -> Forall (fun kv => P kv.2) d ->
  Forall (fun kv => P kv.2) (Py.upsert k f d).
Proof.
  intros Hf. induction 1 as [|[k' v] d Hv Hd IH]; cbn [Py.upsert].
  - constructor; [apply Hf|constructor].
  - destruct (decide (k' = k)); constructor; try done. apply Hf.
Qed.

Lemma process_line_Ok (sample_names drones : list string) (threshold : float)
    (min_drones : Z) (haploid : bool) (line : string)
    (st : Py.odict string * gmap string (list string)) :
  (1 <= min_drones)%Z ->
  exists st',
    process_line sample_names drones threshold min_drones haploid st line = Ok st'
    /\ (st' = st
        \/ exists gt, gt ∈ queen_calls
             /\ st' = (Py.setitem (Py.join TABs (take 5 (Py.split Py.TAB (Py.strip line))))
                         gt st.1,
                       <[Py.join TABs (take 5 (Py.split Py.TAB (Py.strip line)))
                         := take 9 (Py.split Py.TAB (Py.strip line))]> st.2)).
Proof.
  intros HM. unfold process_line. destruct (Py.startswith "#" line); [by eauto|].
  cbv zeta.
  destruct (infer_in_queen_calls
              (drone_call (Py.dict_of_pairs (zip sample_names
                 (drop 9 (Py.split Py.TAB (Py.strip line))))) <$> drones)
              threshold min_drones haploid HM) as (gt & -> & Hgt).
  cbn [mbind result_bind]. eexists. split; [done|]. right. by exists gt.
Qed.

Lemma process_lines_calls (sample_names drones : list string) (threshold : float)
    (min_drones : Z) (haploid : bool) (f : list string)
    (st : Py.odict string * gmap string (list string)) :
  (1 <= min_drones)%Z ->
  Forall (fun kv => kv.2 ∈ queen_calls) st.1 ->
  exists st',
    foldM (process_line sample_names drones threshold min_drones haploid) st f = Ok st'
    /\ Forall (fun kv => kv.2 ∈ queen_calls) st'.1.
Proof.
  intros HM. revert st. induction f as [|line f IH]; intros st Hst; cbn [foldM].
  - by exists st.
  - destruct (process_line_Ok sample_names drones threshold min_drones haploid line st HM)
      as (st1 & -> & Hst1).
    cbn [mbind result_bind]. apply IH.
    destruct Hst1 as [->|(gt & Hgt & ->)]; [done|]. cbn [fst].
    by apply (upsert_values (fun v => v ∈ queen_calls)).
Qed.

Lemma get_queen_genotypes_calls (input_vcf : list string) (queen_name : string)
    (drones : list string) (threshold : float) (min_drones : Z) (haploid : bool) :
  Exists (fun line => Py.startswith "#CHROM" line = true) input_vcf ->
  (1 <= min_drones)%Z ->
  exists genotypes info_map,
    get_queen_genotypes input_vcf queen_name drones threshold min_drones haploid
    = Ok (queen_name, genotypes, info_map)
    /\ Forall (fun kv => kv.2 ∈ queen_calls) genotypes.
Proof.
  intros Hex HM.
  destruct (first_chrom_line _ Hex) as (pre & line & rest & -> & Hpre & Hline).
  unfold get_queen_genotypes. rewrite (find_chrom_line_first _ _ _ Hpre Hline).
  destruct (chrom_line_strip _ Hline) as (s & _ & ->).
  edestruct (process_lines_calls) as (st' & -> & Hcalls); [exact HM| |].
  { by apply Forall_nil. }
  cbn [mbind result_bind]. by exists st'.1, st'.2.
Qed.

(** X4: on a file that has a [#CHROM] line, and with a minimum of at
    least one, a task never raises: it returns the queen's name as given
    and, for every site, one of the four queen calls. *)
Theorem task_returns_queen_calls (input_vcf : list string) (queen_name : string)
    (drones : list string) (threshold : float) (min_drones : Z) (haploid : bool) :
  Exists (fun line => Py.startswith "#CHROM" line = true) input_vcf ->
  (1 <= min_drones)%Z ->
  exists genotypes info_map,
    get_queen_genotypes input_vcf queen_name drones threshold min_drones haploid
    = Ok (queen_name, genotypes, info_map)
    /\ Forall (fun kv => kv.2 ∈ queen_calls) genotypes.
Proof. apply get_queen_genotypes_calls. Qed.

Lemma task_returns_queen_calls_witness :
  exists genotypes info_map,
    get_queen_genotypes two_queens_vcf "qA" ["d1"; "d2"] 0.125 2 false
    = Ok ("qA", genotypes, info_map)
    /\ Forall (fun kv => kv.2 ∈ queen_calls) genotypes.
Proof.
  apply task_returns_queen_calls; [|lia].
  apply Exists_cons_tl, Exists_cons_hd. reflexivity.
Defined.

Lemma keys_setitem_NoDup {V : Type} (k : string) (v : V) (d : Py.odict V) :
  NoDup (Py.keys d) -> NoDup (Py.keys (Py.setitem k v d)).
Proof.
  intros Hd. unfold Py.setitem. rewrite keys_upsert.
  destruct (decide (k ∈ Py.keys d)); [done|].
  apply NoDup_app. split; [done|]. split; [|apply NoDup_singleton].
  intros x Hx Hk. apply list_elem_of_singleton in Hk as ->. done.
Qed.

Lemma elem_of_keys_setitem {V : Type} (k k' : string) (v : V) (d : Py.odict V) :
  k' ∈ Py.keys (Py.setitem k v d) <-> k' = k \/ k' ∈ Py.keys d.
Proof.
  unfold Py.setitem. rewrite keys_upsert.
  destruct (decide (k ∈ Py.keys d)); set_solver.
Qed.

Lemma process_lines_keys (sample_names drones : list string) (threshold : float)
    (min_drones : Z) (haploid : bool) (f : list string)
    (st st' : Py.odict string * gmap string (list string)) :
  NoDup (Py.keys st.1) ->
  (forall k, k ∈ Py.keys st.1 <-> is_Some (st.2 !! k)) ->
  foldM (process_line sample_names drones threshold min_drones haploid) st f = Ok st' ->
  NoDup (Py.keys st'.1) /\ (forall k, k ∈ Py.keys st'.1 <-> is_Some (st'.2 !! k)).
Proof.
  revert st. induction f as [|line f IH]; intros st Hnd Hdom; cbn [foldM].
  - by intros [= <-].
  - destruct (process_line _ _ _ _ _ st line) as [st1|e] eqn:Hline;
      cbn [mbind result_bind]; [|done].
    apply IH; unfold process_line in Hline;
      (destruct (Py.startswith "#" line); [by injection Hline as <-|]);
      (destruct (infer_queen_gt_from_list _ _ _ _) as [queen_gt|e];
         cbn [mbind result_bind] in Hline; [|done]);
      injection Hline as <-; cbn [fst snd].
    + by apply keys_setitem_NoDup.
    + intros k. rewrite elem_of_keys_setitem, lookup_insert_is_Some, Hdom.
      split; [intros [->|?]; [by left|]|intros [->|[_ ?]]; [by left|by right]].
      destruct (decide (Py.join TABs (take 5 (Py.split Py.TAB (Py.strip line))) = k));
        [by left|by right].
Qed.

Lemma get_queen_genotypes_keys (input_vcf : list string) (queen_name : string)
    (drones : list string) (threshold : float) (min_drones : Z) (haploid : bool)
    (r : task_result) :
  get_queen_genotypes input_vcf queen_name drones threshold min_drones haploid = Ok r ->
  NoDup (Py.keys r.1.2) /\ (forall k, k ∈ Py.keys r.1.2 <-> is_Some (r.2 !! k)).
Proof.
  unfold get_queen_genotypes.
  destruct (find_chrom_line input_vcf) as [[[|c h]|] rest]; try done.
  destruct (foldM _ _ rest) as [st|e] eqn:Hst; cbn [mbind result_bind]; [|done].
  intros [= <-]. cbn [fst snd]. eapply process_lines_keys; [| |exact Hst].
  - apply NoDup_nil_2.
  - intros k. cbn [fst snd]. rewrite lookup_empty. split; [by intros ?%elem_of_nil|by intros []].
Qed.

(** X5: in the result of a task no site is listed twice, and the sites
    that have a genotype are exactly the sites that have annotation
    columns. *)
Theorem task_sites_match (input_vcf : list string) (queen_name : string)
    (drones : list string) (threshold : float) (min_drones : Z) (haploid : bool)
    (r : task_result) :
  get_queen_genotypes input_vcf queen_name drones threshold min_drones haploid = Ok r ->
  NoDup (Py.keys r.1.2) /\ (forall k, k ∈ Py.keys r.1.2 <-> is_Some (r.2 !! k)).
Proof. apply get_queen_genotypes_keys. Qed.

Lemma task_sites_match_witness :
  exists r,
    get_queen_genotypes two_queens_vcf "qA" ["d1"; "d2"] 0.125 2 false = Ok r
    /\ NoDup (Py.keys r.1.2) /\ (forall k, k ∈ Py.keys r.1.2 <-> is_Some (r.2 !! k)).
Proof.
  destruct (is_ok_Ok (get_queen_genotypes two_queens_vcf "qA" ["d1"; "d2"] 0.125 2 false))
    as [r H]; [by vm_compute|].
  exists r. split; [exact H|]. eapply task_sites_match, H.
Defined.

Lemma process_line_site (sn1 sn2 dr1 dr2 : list string) (t1 t2 : float) (m1 m2 : Z)
    (h1 h2 : bool) (line : string)
    (st1 st2 st1' st2' : Py.odict string * gmap string (list string)) :
  Py.keys st1.1 = Py.keys st2.1 -> st1.2 = st2.2 ->
  process_line sn1 dr1 t1 m1 h1 st1 line = Ok st1' ->
  process_line sn2 dr2 t2 m2 h2 st2 line = Ok st2' ->
  Py.keys st1'.1 = Py.keys st2'.1 /\ st1'.2 = st2'.2.
Proof.
  intros Hk Hi. unfold process_line.
  destruct (Py.startswith "#" line); [by intros [= <-] [= <-]|]. cbv zeta.
  destruct (infer_queen_gt_from_list _ t1 m1 h1) as [g1|e]; cbn [mbind result_bind]; [|done].
  destruct (infer_queen_gt_from_list _ t2 m2 h2) as [g2|e]; cbn [mbind result_bind]; [|done].
  intros [= <-] [= <-]. cbn [fst snd]. unfold Py.setitem.
  by rewrite !keys_upsert, Hk, Hi.
Qed.

Lemma process_lines_site (sn1 sn2 dr1 dr2 : list string) (t1 t2 : float) (m1 m2 : Z)
    (h1 h2 : bool) (f : list string)
    (st1 st2 st1' st2' : Py.odict string * gmap string (list string)) :
  Py.keys st1.1 = Py.keys st2.1 -> st1.2 = st2.2 ->
  foldM (process_line sn1 dr1 t1 m1 h1) st1 f = Ok st1' ->
  foldM (process_line sn2 dr2 t2 m2 h2) st2 f = Ok st2' ->
  Py.keys st1'.1 = Py.keys st2'.1 /\ st1'.2 = st2'.2.
Proof.
  revert st1 st2. induction f as [|line f IH]; intros st1 st2 Hk Hi; cbn [foldM].
  - by intros [= <-] [= <-].
  - destruct (process_line sn1 dr1 t1 m1 h1 st1 line) as [a1|e] eqn:H1;
      cbn [mbind result_bind]; [|done].
    destruct (process_line sn2 dr2 t2 m2 h2 st2 line) as [a2|e] eqn:H2;
      cbn [mbind result_bind]; [|done].
    destruct (process_line_site _ _ _ _ _ _ _ _ _ _ _ _ _ _ _ Hk Hi H1 H2) as [Hk' Hi'].
    by apply IH.
Qed.

Lemma get_queen_genotypes_site (input_vcf : list string)
    (q1 q2 : string) (dr1 dr2 : list string) (t1 t2 : float) (m1 m2 : Z) (h1 h2 : bool)
    (r1 r2 : task_result) :
  get_queen_genotypes input_vcf q1 dr1 t1 m1 h1 = Ok r1 ->
  get_queen_genotypes input_vcf q2 dr2 t2 m2 h2 = Ok r2 ->
  Py.keys r1.1.2 = Py.keys r2.1.2 /\ r1.2 = r2.2.
Proof.
  unfold get_queen_genotypes.
  destruct (find_chrom_line input_vcf) as [[[|c h]|] rest]; try done.
  destruct (foldM (process_line _ dr1 t1 m1 h1) _ rest) as [st1|e] eqn:Hst1;
    cbn [mbind result_bind]; [|done].
  destruct (foldM (process_line _ dr2 t2 m2 h2) _ rest) as [st2|e] eqn:Hst2;
    cbn [mbind result_bind]; [|done].
  intros [= <-] [= <-]. cbn [fst snd].
  by eapply process_lines_site; [| |exact Hst1|exact Hst2].
Qed.

(** X6: which sites a task returns, in which order, and with which
    annotation columns depends on the file only: not on the queen, her
    drones, the threshold, the minimum or the ploidy mode.  So two tasks of
    one run cannot disagree on the annotation columns of a site. *)
Theorem task_sites_depend_on_file_only (input_vcf : list string)
    (q1 q2 : string) (dr1 dr2 : list string) (t1 t2 : float) (m1 m2 : Z) (h1 h2 : bool)
    (r1 r2 : task_result) :
  get_queen_genotypes input_vcf q1 dr1 t1 m1 h1 = Ok r1 ->
  get_queen_genotypes input_vcf q2 dr2 t2 m2 h2 = Ok r2 ->
  Py.keys r1.1.2 = Py.keys r2.1.2 /\ r1.2 = r2.2.
Proof. apply get_queen_genotypes_site. Qed.

Lemma task_sites_depend_on_file_only_witness :
  exists r1 r2,
    get_queen_genotypes two_queens_vcf "qA" ["d1"; "d2"] 0.125 2 false = Ok r1
    /\ get_queen_genotypes two_queens_vcf "qB" ["d3"; "d4"] 0.25 1 true = Ok r2
    /\ Py.keys r1.1.2 = Py.keys r2.1.2 /\ r1.2 = r2.2.
Proof.
  destruct (is_ok_Ok (get_queen_genotypes two_queens_vcf "qA" ["d1"; "d2"] 0.125 2 false))
    as [r1 H1]; [by vm_compute|].
  destruct (is_ok_Ok (get_queen_genotypes two_queens_vcf "qB" ["d3"; "d4"] 0.25 1 true))
    as [r2 H2]; [by vm_compute|].
  exists r1, r2. split; [exact H1|]. split; [exact H2|].
  eapply task_sites_depend_on_file_only; [exact H1|exact H2].
Defined.

(** ** What the readers skip *)

Lemma extract_samples_first (pre rest : list string) (line : string) :
  no_chrom_line pre -> Py.startswith "#CHROM" line = true ->
  extract_samples_from_header (pre ++ line :: rest)
  = drop 9 (Py.split Py.TAB (Py.strip (Py.lstrip_chr "#"%char line))).
Proof.
  intros Hpre Hline.
  induction Hpre as [|l pre Hl _ IH]; cbn [app extract_samples_from_header].
  - by rewrite Hline.
  - by rewrite Hl.
Qed.

Lemma write_headers_first (pre rest queen_names : list string) (line : string) :
  no_chrom_line pre -> Py.startswith "#CHROM" line = true ->
  write_headers (pre ++ line :: rest) queen_names
  = filter (fun l => Py.startswith "##" l = true) pre
    ++ [Py.join TABs (take 9 (Py.split Py.TAB (Py.strip line)) ++ queen_names) +:+ NLs].
Proof.
  intros Hpre Hline.
  induction Hpre as [|l pre Hl _ IH]; cbn [app write_headers].
  - assert (Py.startswith "##" line = false) as ->; [|by rewrite Hline].
    unfold Py.startswith in *.
    apply prefix_cons_inv in Hline as (s1 & -> & H).
    apply prefix_cons_inv in H as (s2 & -> & _). done.
  - rewrite filter_cons. destruct (Py.startswith "##" l) eqn:H2.
    + rewrite decide_True by done. by rewrite IH.
    + rewrite decide_False by done. by rewrite Hl.
Qed.

(** X7: the three readers of the variant file agree on where it starts:
    at the first line that begins with [#CHROM].  Lines before it, data rows
    included, are dropped (the header writer copies those that begin with
    [##]), and the header writer and the sample reader look at nothing
    after it. *)
Theorem readers_start_at_first_chrom_line (pre rest rest' : list string) (line : string)
    (queen_name : string) (drones queen_names : list string) (threshold : float)
    (min_drones : Z) (haploid : bool) :
  no_chrom_line pre -> Py.startswith "#CHROM" line = true ->
  get_queen_genotypes (pre ++ line :: rest) queen_name drones threshold min_drones haploid
  = get_queen_genotypes (line :: rest) queen_name drones threshold min_drones haploid
  /\ extract_samples_from_header (pre ++ line :: rest)
     = extract_samples_from_header [line]
  /\ write_headers (pre ++ line :: rest) queen_names
     = filter (fun l => Py.startswith "##" l = true) pre ++ write_headers [line] queen_names
  /\ write_headers (pre ++ line :: rest) queen_names
     = write_headers (pre ++ line :: rest') queen_names.
Proof.
  intros Hpre Hline. split; [|split; [|split]].
  - unfold get_queen_genotypes.
    rewrite (find_chrom_line_first pre rest line Hpre Hline).
    by rewrite (find_chrom_line_first [] rest line (Forall_nil_2 _) Hline
                : find_chrom_line (line :: rest) = _).
  - rewrite (extract_samples_first pre rest line Hpre Hline).
    by rewrite (extract_samples_first [] [] line (Forall_nil_2 _) Hline
                : extract_samples_from_header [line] = _).
  - rewrite (write_headers_first pre rest queen_names line Hpre Hline).
    by rewrite (write_headers_first [] [] queen_names line (Forall_nil_2 _) Hline
                : write_headers [line] queen_names = _).
  - by rewrite !(write_headers_first pre _ queen_names line Hpre Hline).
Qed.

Lemma readers_start_at_first_chrom_line_witness :
  extract_samples_from_header
    (["##fileformat=VCFv4.2" +:+ NLs; vcf_line ["1"; "7"; "."; "A"; "T"]]
     ++ chrom_line ["d1"; "d2"] :: headerless_vcf)
  = extract_samples_from_header [chrom_line ["d1"; "d2"]].
Proof.
  by destruct (readers_start_at_first_chrom_line
                 ["##fileformat=VCFv4.2" +:+ NLs; vcf_line ["1"; "7"; "."; "A"; "T"]]
                 headerless_vcf [] (chrom_line ["d1"; "d2"]) "qA" [] [] 0.125 2 false)
    as (_ & H & _); [repeat constructor|reflexivity|].
Defined.

Lemma lstrip_chr_hash_C (s : string) :
  Py.lstrip_chr "#"%char (String "#"%char (String "C"%char s)) = String "C"%char s.
Proof. reflexivity. Qed.

Lemma task_sample_names (vcf rest : list string) (header_line : string) :
  find_chrom_line vcf = (Some header_line, rest) ->
  drop 9 (Py.split Py.TAB (Py.lstrip_chr "#"%char header_line))
  = extract_samples_from_header vcf.
Proof.
  induction vcf as [|l vcf IH]; cbn [find_chrom_line extract_samples_from_header]; [done|].
  destruct (Py.startswith "#CHROM" l) eqn:Hl; [|done].
  intros [= <- _]. destruct (chrom_line_strip l Hl) as (s & -> & ->).
  by rewrite !lstrip_chr_hash_C, strip_cons.
Qed.

(** X8: the sample names that [main] checks the drones of the list
    against are the sample names that the tasks look the drones up in. *)
Theorem main_and_tasks_read_same_samples (vcf rest : list string) (header_line : string) :
  find_chrom_line vcf = (Some header_line, rest) ->
  drop 9 (Py.split Py.TAB (Py.lstrip_chr "#"%char header_line))
  = extract_samples_from_header vcf.
Proof. apply task_sample_names. Qed.

Lemma main_and_tasks_read_same_samples_witness :
  drop 9 (Py.split Py.TAB (Py.lstrip_chr "#"%char (Py.strip (chrom_line ["d1"; "d2"]))))
  = extract_samples_from_header [chrom_line ["d1"; "d2"]; "x"].
Proof. by apply (main_and_tasks_read_same_samples _ ["x"]). Defined.

(** ** The list file *)

Lemma read_list_get (list_file : list string) (q : string) :
  Py.get q (read_list list_file).1
  = match drones_listed_for q list_file with [] => None | ds => Some ds end.
Proof.
  induction list_file as [|line l IH] using rev_ind; [done|].
  rewrite read_list_snoc. unfold drones_listed_for in *. rewrite omap_app.
  cbn [omap list_omap]. unfold read_list_line.
  destruct (Py.split_ws (Py.strip line)) as [|t0 [|t1 rest]]; cbn [fst];
    rewrite ?app_nil_r; try done.
  destruct (decide (t0 = q)) as [->|Hne].
  - rewrite get_upsert_eq, IH.
    by destruct (omap _ l).
  - rewrite get_upsert_ne by done. by rewrite app_nil_r.
Qed.

Lemma read_list_keys_NoDup (list_file : list string) :
  NoDup (Py.keys (read_list list_file).1).
Proof.
  induction list_file as [|line l IH] using rev_ind; [constructor|].
  rewrite read_list_snoc. unfold read_list_line.
  destruct (Py.split_ws (Py.strip line)) as [|t0 [|t1 rest]]; cbn [fst]; try done.
  rewrite keys_upsert. destruct (decide (t0 ∈ _)); [done|].
  apply NoDup_app. split; [done|]. split; [|apply NoDup_singleton].
  intros x Hx ->%list_elem_of_singleton. done.
Qed.

Lemma odict_elem_of_get {V : Type} (d : Py.odict V) (k : string) (v : V) :
  NoDup (Py.keys d) -> (k, v) ∈ d <-> Py.get k d = Some v.
Proof.
  induction d as [|[k' v'] d IH]; cbn [Py.get Py.keys fmap list_fmap fst].
  - intros _. split; [by intros ?%elem_of_nil|done].
  - intros [Hk' Hd]%NoDup_cons. rewrite elem_of_cons.
    destruct (decide (k' = k)) as [->|Hne].
    + split.
      * intros [[= ->]|Hin]; [done|]. destruct Hk'.
        apply list_elem_of_fmap. by exists (k, v).
      * intros [= ->]. by left.
    + rewrite <- (IH Hd). split; [|by right]. by intros [[= ? ?]|?].
Qed.

Lemma drones_listed_for_elem (list_file : list string) (q d : string) :
  d ∈ drones_listed_for q list_file
  <-> exists line rest, line ∈ list_file /\ Py.split_ws (Py.strip line) = q :: d :: rest.
Proof.
  unfold drones_listed_for. rewrite list_elem_of_omap. split.
  - intros (line & Hin & H).
    destruct (Py.split_ws (Py.strip line)) as [|t0 [|t1 rest]] eqn:Ht; try done.
    destruct (decide (t0 = q)) as [->|]; [|done]. injection H as ->.
    by exists line, rest.
  - intros (line & rest & Hin & Ht). exists line. split; [done|].
    rewrite Ht. by rewrite decide_True.
Qed.

(** X9: the queen map is the list file regrouped by first token.  Queen
    names are unique, and the drones of a queen are the second tokens of the
    lines whose first token is her name, in file order and with repetitions
    kept; so no queen has an empty drone list. *)
Theorem queen_map_groups_lines_by_first_token (list_file : list string) :
  let queen_map := (read_list list_file).1 in
  NoDup (Py.keys queen_map)
  /\ forall queen drones,
       (queen, drones) ∈ queen_map
       <-> drones = drones_listed_for queen list_file /\ drones ≠ [].
Proof.
  cbv zeta. split; [apply read_list_keys_NoDup|]. intros q ds.
  rewrite (odict_elem_of_get _ _ _ (read_list_keys_NoDup list_file)), read_list_get.
  destruct (drones_listed_for q list_file) as [|d ds']; split.
  - done.
  - by intros [-> ?].
  - by intros [= <-].
  - by intros [-> _].
Qed.

Lemma sum_lengths_upsert (k x : string) (d : Py.odict (list string)) :
  sum_list (length <$> (Py.upsert k (fun o => default [] o ++ [x]) d).*2)
  = S (sum_list (length <$> d.*2)).
Proof.
  induction d as [|[k' v] d IH]; [done|]. cbn [Py.upsert].
  destruct (decide (k' = k)).
  - rewrite !fmap_cons. cbn [snd sum_list sum_list_with default]. rewrite length_app. simpl. lia.
  - rewrite !fmap_cons. cbn [snd sum_list sum_list_with]. rewrite IH. lia.
Qed.

(** X10: no line of the list file is lost: each one either files one
    drone under a queen or prints one message. *)
Theorem every_list_line_is_filed_or_reported (list_file : list string) :
  let '(queen_map, bad) := read_list list_file in
  sum_list (length <$> queen_map.*2) + length bad = length list_file.
Proof.
  induction list_file as [|line l IH] using rev_ind; [done|].
  rewrite read_list_snoc. destruct (read_list l) as [qm bad].
  unfold read_list_line. cbn [fst snd].
  destruct (Py.split_ws (Py.strip line)) as [|t0 [|t1 rest]];
    rewrite ?sum_lengths_upsert, !length_app; simpl; lia.
Qed.

Lemma read_list_bad_nil (list_file : list string) :
  (read_list list_file).2 = [] <-> Forall (fun line => short_line line = false) list_file.
Proof.
  induction list_file as [|line l IH] using rev_ind; [done|].
  rewrite read_list_snoc, Forall_app, Forall_singleton, <- IH.
  unfold read_list_line, short_line.
  destruct (Py.split_ws (Py.strip line)) as [|t0 [|t1 rest]]; cbn [snd].
  - split; [by intros [? ?]%app_eq_nil|by intros [_ ?]].
  - split; [by intros [? ?]%app_eq_nil|by intros [_ ?]].
  - by split; [|intros [? _]].
Qed.

Lemma missing_warnings_nil (queen_map : Py.odict (list string)) (vcf_samples : list string) :
  missing_warnings queen_map vcf_samples = []
  <-> Forall (fun qd : string * list string => Forall (fun d => d ∈ vcf_samples) qd.2) queen_map.
Proof.
  unfold missing_warnings. induction queen_map as [|[q ds] qm IH]; [done|].
  cbn [omap list_omap]. rewrite Forall_cons, <- IH. cbn [snd].
  destruct (filter (fun d => d ∉ vcf_samples) ds) as [|m ms] eqn:Hf.
  - split; [|by intros [_ ?]]. intros H. split; [|done].
    apply Forall_forall. intros d Hd.
    destruct (decide (d ∈ vcf_samples)) as [|Hn]; [done|].
    assert (d ∈ filter (fun d => d ∉ vcf_samples) ds) as Hin
      by by apply list_elem_of_filter.
    rewrite Hf in Hin. by apply elem_of_nil in Hin.
  - split; [done|]. intros [Hall _].
    assert (m ∈ filter (fun d => d ∉ vcf_samples) ds) as [Hn Hin]%list_elem_of_filter
      by (rewrite Hf; left).
    rewrite Forall_forall in Hall. by destruct Hn; apply Hall.
Qed.

(** X11: [main] prints nothing before the pool starts exactly when
    every line of the list file has two tokens and every second token is a
    sample of the [#CHROM] line.  In particular a file whose lines name the
    drone first is reported, unless the queens are samples too. *)
Theorem main_prints_nothing_iff (a : args) :
  main_stdout a = []
  <-> Forall (fun line => short_line line = false) (arg_list a)
      /\ forall line queen drone rest,
           line ∈ arg_list a ->
           Py.split_ws (Py.strip line) = queen :: drone :: rest ->
           drone ∈ extract_samples_from_header (arg_vcf a).
Proof.
  unfold main_stdout.
  pose proof (read_list_bad_nil (arg_list a)) as Hbad.
  pose proof (read_list_get (arg_list a)) as Hget.
  pose proof (read_list_keys_NoDup (arg_list a)) as Hnd.
  destruct (read_list (arg_list a)) as [qm bad]. cbn [fst snd] in *.
  rewrite <- Hbad. split.
  - intros [-> Hw]%app_eq_nil. split; [done|].
    intros line q d rest Hin Ht.
    apply missing_warnings_nil in Hw. rewrite Forall_forall in Hw.
    assert (d ∈ drones_listed_for q (arg_list a)) as Hd
      by (apply drones_listed_for_elem; eauto).
    specialize (Hget q). destruct (drones_listed_for q (arg_list a)) as [|d0 ds] eqn:Hds;
      [by apply elem_of_nil in Hd|].
    apply odict_elem_of_get in Hget; [|done]. apply Hw in Hget.
    cbn [snd] in Hget. rewrite Forall_forall in Hget. by apply Hget.
  - intros [-> Hall]. rewrite app_nil_l. apply missing_warnings_nil.
    apply Forall_forall. intros [q ds] Hin. cbn [snd].
    apply odict_elem_of_get in Hin; [|done]. rewrite Hget in Hin.
    apply Forall_forall. intros d Hd.
    assert (d ∈ drones_listed_for q (arg_list a)) as Hd'
      by (destruct (drones_listed_for q (arg_list a)); [done|by injection Hin as <-]).
    apply drones_listed_for_elem in Hd' as (line & rest & Hl & Ht). eauto.
Qed.

(** ** From the tasks to the merged table *)

Lemma task_name (input_vcf : list string) (queen_name : string) (drones : list string)
    (threshold : float) (min_drones : Z) (haploid : bool) (r : task_result) :
  get_queen_genotypes input_vcf queen_name drones threshold min_drones haploid = Ok r ->
  r.1.1 = queen_name.
Proof.
  unfold get_queen_genotypes.
  destruct (find_chrom_line input_vcf) as [[[|c h]|] rest]; try done.
  destruct (foldM _ _ rest) as [st|e]; cbn [mbind result_bind]; [|done].
  by intros [= <-].
Qed.

Lemma process_line_cases (sample_names drones : list string) (threshold : float)
    (min_drones : Z) (haploid : bool) (line : string)
    (st st' : Py.odict string * gmap string (list string)) :
  process_line sample_names drones threshold min_drones haploid st line = Ok st' ->
  (Py.startswith "#" line = true /\ st' = st)
  \/ (Py.startswith "#" line = false
      /\ exists gt, st' = (Py.setitem (variant_key_of line) gt st.1,
                           <[variant_key_of line := take 9 (Py.split Py.TAB (Py.strip line))]> st.2)).
Proof.
  unfold process_line. destruct (Py.startswith "#" line); [intros [= <-]; by left|].
  cbv zeta. destruct (infer_queen_gt_from_list _ _ _ _) as [gt|e];
    cbn [mbind result_bind]; [|done].
  intros [= <-]. right. split; [done|]. by exists gt.
Qed.

Lemma process_lines_key_set (sample_names drones : list string) (threshold : float)
    (min_drones : Z) (haploid : bool) (f : list string)
    (st st' : Py.odict string * gmap string (list string)) :
  foldM (process_line sample_names drones threshold min_drones haploid) st f = Ok st' ->
  forall k, k ∈ Py.keys st'.1
            <-> k ∈ Py.keys st.1
                \/ exists line, line ∈ f /\ Py.startswith "#" line = false
                                /\ k = variant_key_of line.
Proof.
  revert st. induction f as [|line f IH]; intros st; cbn [foldM].
  - intros [= <-] k. split; [by left|]. intros [?|(l & ?%elem_of_nil & _)]; done.
  - destruct (process_line _ _ _ _ _ st line) as [st1|e] eqn:Hline;
      cbn [mbind result_bind]; [|done].
    intros Hf k. rewrite (IH _ Hf k).
    apply process_line_cases in Hline as [[Hs ->]|(Hs & gt & ->)].
    + split.
      * intros [?|(l & Hl & Hn & ->)]; [by left|]. right. exists l.
        split; [by right|done].
      * intros [?|(l & Hl & Hn & ->)]; [by left|].
        apply elem_of_cons in Hl as [->|Hl]; [congruence|]. right. by exists l.
    + cbn [fst]. rewrite elem_of_keys_setitem. split.
      * intros [[->|?]|(l & Hl & Hn & ->)].
        -- right. exists line. split; [by left|done].
        -- by left.
        -- right. exists l. split; [by right|done].
      * intros [?|(l & Hl & Hn & ->)]; [left; by right|].
        apply elem_of_cons in Hl as [->|Hl]; [left; by left|]. right. by exists l.
Qed.

Lemma task_key_set (pre rest : list string) (line queen_name : string)
    (drones : list string) (threshold : float) (min_drones : Z) (haploid : bool)
    (r : task_result) :
  no_chrom_line pre -> Py.startswith "#CHROM" line = true ->
  get_queen_genotypes (pre ++ line :: rest) queen_name drones threshold min_drones haploid
  = Ok r ->
  forall k, k ∈ Py.keys r.1.2
            <-> exists l, l ∈ rest /\ Py.startswith "#" l = false /\ k = variant_key_of l.
Proof.
  intros Hpre Hline. unfold get_queen_genotypes.
  rewrite (find_chrom_line_first _ _ _ Hpre Hline).
  destruct (chrom_line_strip _ Hline) as (s & _ & ->).
  destruct (foldM _ _ rest) as [st|e] eqn:Hst; cbn [mbind result_bind]; [|done].
  intros [= <-] k. cbn [fst snd]. rewrite (process_lines_key_set _ _ _ _ _ _ _ _ Hst k).
  cbn [fst Py.keys fmap list_fmap]. split; [|by right].
  by intros [?%elem_of_nil|?].
Qed.

Lemma process_lines_raise (sample_names drones : list string) (threshold : float)
    (min_drones : Z) (haploid : bool) (f : list string)
    (st : Py.odict string * gmap string (list string)) (e : exn) :
  foldM (process_line sample_names drones threshold min_drones haploid) st f = Raise e ->
  e = ZeroDivisionError /\ (min_drones <= 0)%Z.
Proof.
  revert st. induction f as [|line f IH]; intros st; cbn [foldM]; [done|].
  destruct (process_line _ _ _ _ _ st line) as [st1|e1] eqn:Hline;
    cbn [mbind result_bind]; [by apply IH|].
  intros [= ->]. unfold process_line in Hline.
  destruct (Py.startswith "#" line); [done|]. cbv zeta in Hline.
  destruct (infer_queen_gt_from_list _ _ _ _) as [gt|e1] eqn:Hinfer;
    cbn [mbind result_bind] in Hline; [done|].
  injection Hline as ->. apply infer_raises in Hinfer as (-> & _ & ?). done.
Qed.

Lemma task_raises (input_vcf : list string) (queen_name : string) (drones : list string)
    (threshold : float) (min_drones : Z) (haploid : bool) (e : exn) :
  get_queen_genotypes input_vcf queen_name drones threshold min_drones haploid = Raise e ->
  (e = ValueError "No #CHROM line found in VCF" /\ no_chrom_line input_vcf)
  \/ (e = ZeroDivisionError /\ (min_drones <= 0)%Z).
Proof.
  unfold get_queen_genotypes.
  destruct (find_chrom_line input_vcf) as [[[|c h]|] rest] eqn:Hfind.
  - intros [= <-]. left. split; [done|]. exfalso.
    revert Hfind. clear. induction input_vcf as [|l vcf IH]; cbn [find_chrom_line]; [done|].
    destruct (Py.startswith "#CHROM" l) eqn:Hl; [|done].
    destruct (chrom_line_strip _ Hl) as (s & _ & ->). done.
  - destruct (foldM _ _ rest) as [st|e'] eqn:Hst; cbn [mbind result_bind]; [done|].
    intros [= ->]. right. by eapply process_lines_raise.
  - intros [= <-]. left. split; [done|].
    revert Hfind. clear. induction input_vcf as [|l vcf IH]; cbn [find_chrom_line].
    + intros _. constructor.
    + destruct (Py.startswith "#CHROM" l) eqn:Hl; [done|]. intros H.
      constructor; [done|by apply IH].
Qed.

Lemma cell_upsert (all_genotypes : Py.odict (gmap string string)) (vk qn gt k q : string) :
  cell (Py.upsert vk (fun o => <[qn := gt]> (default ∅ o)) all_genotypes) k q
  = if decide (k = vk /\ q = qn) then Some gt else cell all_genotypes k q.
Proof.
  unfold cell. destruct (decide (k = vk)) as [->|Hk].
  - rewrite get_upsert_eq. cbn [default]. unfold id.
    destruct (decide (q = qn)) as [->|Hq].
    + rewrite decide_True by done. by rewrite lookup_insert_eq.
    + rewrite decide_False by naive_solver. by rewrite lookup_insert_ne.
  - rewrite get_upsert_ne by done. by rewrite decide_False by naive_solver.
Qed.

Lemma filter_not_in_snoc (l acc : list string) (x : string) :
  x ∉ l ->
  filter (fun k => k ∉ acc ++ [x]) l = filter (fun k => k ∉ acc) l.
Proof.
  intros Hx. induction l as [|y l IH]; [done|].
  apply not_elem_of_cons in Hx as [Hne Hx]. rewrite !filter_cons, (IH Hx).
  destruct (decide (y ∉ acc)) as [Hy|Hy].
  - rewrite decide_True; [done|]. rewrite elem_of_app, list_elem_of_singleton. naive_solver.
  - rewrite decide_False; [done|]. rewrite elem_of_app. naive_solver.
Qed.

Lemma merge_result_table (acc m : merged) (r : task_result) :
  NoDup (Py.keys r.1.2) ->
  merge_result acc r = Ok m ->
  Py.keys m.1 = Py.keys acc.1 ++ filter (fun k => k ∉ Py.keys acc.1) (Py.keys r.1.2)
  /\ forall k q,
       cell m.1 k q
       = if decide (q = r.1.1)
         then match Py.get k r.1.2 with Some g => Some g | None => cell acc.1 k q end
         else cell acc.1 k q.
Proof.
  destruct r as [[queen_name queen_gts] info_map]. unfold merge_result. cbn [fst snd].
  revert acc. induction queen_gts as [|[vk gt] gts IH]; intros acc Hnd; cbn [foldM].
  - intros [= <-]. split; [by rewrite app_nil_r|]. intros k q. by destruct (decide _).
  - destruct (Py.getitem info_map vk) as [info|e]; cbn [mbind result_bind]; [|done].
    cbn [Py.keys fmap list_fmap fst] in Hnd. apply NoDup_cons in Hnd as [Hvk Hnd].
    intros Hm. destruct (IH _ Hnd Hm) as [Hkeys Hcell]. cbn [fst snd] in Hkeys, Hcell.
    split.
    + rewrite Hkeys, keys_upsert. cbn [Py.keys fmap list_fmap fst]. rewrite filter_cons.
      fold (Py.keys acc.1). fold (Py.keys gts).
      destruct (decide (vk ∈ Py.keys acc.1)) as [Hin|Hnin].
      * by rewrite decide_False by naive_solver.
      * rewrite decide_True by done. rewrite <- app_assoc. cbn [app].
        by rewrite filter_not_in_snoc.
    + intros k q. rewrite Hcell, cell_upsert. cbn [Py.get].
      destruct (decide (q = queen_name)) as [->|Hq].
      * destruct (decide (vk = k)) as [->|Hk].
        -- assert (Py.get k gts = None) as ->.
           { clear -Hvk. induction gts as [|[k' v'] gts IH]; [done|].
             cbn [Py.get]. apply not_elem_of_cons in Hvk as [? ?].
             rewrite decide_False by done. by apply IH. }
           by rewrite decide_True.
        -- rewrite decide_False by naive_solver. done.
      * by rewrite decide_False by naive_solver.
Qed.

Lemma merge_result_Ok (acc : merged) (r : task_result) :
  (forall k, k ∈ Py.keys r.1.2 -> is_Some (r.2 !! k)) ->
  (forall k, k ∈ Py.keys acc.1 -> is_Some (acc.2 !! k)) ->
  NoDup (Py.keys r.1.2) ->
  exists m, merge_result acc r = Ok m
            /\ forall k, k ∈ Py.keys m.1 -> is_Some (m.2 !! k).
Proof.
  intros Hr Hacc Hnd. destruct (merge_result_overwrites acc r Hr) as (m & Hm & Hinfo).
  exists m. split; [done|]. intros k Hk. rewrite Hinfo.
  destruct (merge_result_table _ _ _ Hnd Hm) as [Hkeys _]. rewrite Hkeys in Hk.
  destruct (decide (k ∈ Py.keys r.1.2)); [by apply Hr|].
  apply elem_of_app in Hk as [Hk|Hk%list_elem_of_filter]; [by apply Hacc|naive_solver].
Qed.

Lemma jobs_cons (a : args) (q : string) (ds : list string) (qm : Py.odict (list string)) :
  jobs a ((q, ds) :: qm) = task a q ds :: jobs a qm.
Proof. done. Qed.

Lemma collect_Ok (acc m : merged) (future : result task_result) :
  collect acc future = Ok m -> exists r, future = Ok r /\ merge_result acc r = Ok m.
Proof. destruct future as [r|e]; [by exists r|done]. Qed.

Lemma collect_all_table (a : args) (qm : Py.odict (list string)) (acc m : merged) :
  NoDup (Py.keys qm) ->
  foldM collect acc (jobs a qm) = Ok m ->
  (forall q ds, (q, ds) ∈ qm ->
     exists r, task a q ds = Ok r
       /\ forall k, cell m.1 k q
                    = match Py.get k r.1.2 with Some g => Some g | None => cell acc.1 k q end)
  /\ (forall q, q ∉ Py.keys qm -> forall k, cell m.1 k q = cell acc.1 k q).
Proof.
  revert acc. induction qm as [|[q0 ds0] qm IH]; intros acc Hnd.
  - intros [= <-]. split; [by intros q ds ?%elem_of_nil|done].
  - rewrite jobs_cons. cbn [foldM].
    destruct (collect acc (task a q0 ds0)) as [acc1|e] eqn:Hc; cbn [mbind result_bind]; [|done].
    apply collect_Ok in Hc as (r0 & Hr0 & Hm0).
    cbn [Py.keys fmap list_fmap fst] in Hnd. apply NoDup_cons in Hnd as [Hq0 Hnd].
    intros Hm. destruct (IH _ Hnd Hm) as [Hin Hout].
    destruct (merge_result_table _ _ _ (proj1 (get_queen_genotypes_keys _ _ _ _ _ _ _ Hr0)) Hm0)
      as [_ Hcell].
    rewrite (task_name _ _ _ _ _ _ _ Hr0) in Hcell.
    split.
    + intros q ds [[= -> ->]|Hqd]%elem_of_cons.
      * exists r0. split; [done|]. intros k.
        rewrite (Hout q0 Hq0 k), Hcell. by rewrite decide_True.
      * destruct (Hin q ds Hqd) as (r & Hr & Hk). exists r. split; [done|].
        intros k. rewrite Hk, Hcell. rewrite decide_False; [done|].
        intros ->. apply Hq0. apply list_elem_of_fmap. by exists (q0, ds).
    + intros q Hq k. cbn [Py.keys fmap list_fmap fst] in Hq.
      apply not_elem_of_cons in Hq as [Hne Hq].
      rewrite (Hout q Hq k), Hcell. by rewrite decide_False.
Qed.

Lemma filter_not_in_self (l : list string) : filter (fun k => k ∉ l) l = [].
Proof.
  assert (forall l', (forall k, k ∈ l' -> k ∈ l) -> filter (fun k => k ∉ l) l' = []) as H.
  { induction l' as [|x l' IH]; [done|]. intros Hsub. rewrite filter_cons.
    rewrite decide_False by (intros Hx; apply Hx, Hsub; left).
    apply IH. intros k Hk. apply Hsub. by right. }
  by apply H.
Qed.

Lemma filter_not_in_nil (l : list string) : filter (fun k => k ∉ @nil string) l = l.
Proof.
  induction l as [|x l IH]; [done|]. rewrite filter_cons, IH.
  by rewrite decide_True by apply not_elem_of_nil.
Qed.

Lemma merge_result_same_shape (acc m : merged) (r : task_result) :
  NoDup (Py.keys r.1.2) ->
  (forall k, k ∈ Py.keys r.1.2 <-> is_Some (r.2 !! k)) ->
  acc = ([], ∅) \/ (Py.keys acc.1 = Py.keys r.1.2 /\ acc.2 = r.2) ->
  merge_result acc r = Ok m ->
  Py.keys m.1 = Py.keys r.1.2 /\ m.2 = r.2.
Proof.
  intros Hnd Hdom Hacc Hm.
  destruct (merge_result_table _ _ _ Hnd Hm) as [Hkeys _].
  destruct (merge_result_overwrites acc r) as (m' & Hm' & Hinfo); [intros k; apply Hdom|].
  rewrite Hm in Hm'. injection Hm' as <-. split.
  - rewrite Hkeys. destruct Hacc as [->|[-> _]].
    + cbn [fst Py.keys fmap list_fmap app]. apply filter_not_in_nil.
    + by rewrite filter_not_in_self, app_nil_r.
  - apply map_eq. intros k. rewrite Hinfo.
    destruct (decide (k ∈ Py.keys r.1.2)) as [|Hk]; [done|].
    destruct Hacc as [->|[_ ->]]; [|done]. cbn [snd]. rewrite lookup_empty.
    rewrite Hdom in Hk. destruct (r.2 !! k); [|done]. by destruct Hk.
Qed.

Lemma collect_all_same_shape (a : args) (qm : Py.odict (list string)) (acc m : merged)
    (K : list string) (I : gmap string (list string)) :
  (forall q ds r, task a q ds = Ok r -> Py.keys r.1.2 = K /\ r.2 = I) ->
  Py.keys acc.1 = K /\ acc.2 = I ->
  foldM collect acc (jobs a qm) = Ok m ->
  Py.keys m.1 = K /\ m.2 = I.
Proof.
  intros Hall. revert acc. induction qm as [|[q0 ds0] qm IH]; intros acc Hacc.
  - by intros [= <-].
  - rewrite jobs_cons. cbn [foldM].
    destruct (collect acc (task a q0 ds0)) as [acc1|e] eqn:Hc; cbn [mbind result_bind]; [|done].
    apply collect_Ok in Hc as (r0 & Hr0 & Hm0). apply IH.
    destruct (Hall _ _ _ Hr0) as [<- <-].
    destruct (get_queen_genotypes_keys _ _ _ _ _ _ _ Hr0) as [Hnd Hdom].
    eapply merge_result_same_shape; [done|done| |exact Hm0]. by right.
Qed.

Lemma merged_table (a : args) (m : merged) (queen : string)
    (drones : list string) :
  foldM collect ([], ∅) (jobs a (read_list (arg_list a)).1) = Ok m ->
  (queen, drones) ∈ (read_list (arg_list a)).1 ->
  exists r,
    get_queen_genotypes (arg_vcf a) queen drones
      (arg_het_thres a) (arg_min_drones a) (arg_haploid a) = Ok r
    /\ Py.keys m.1 = Py.keys r.1.2
    /\ m.2 = r.2
    /\ forall k, default ∅ (Py.get k m.1) !! queen = Py.get k r.1.2.
Proof.
  intros Hm Hin.
  destruct (collect_all_table a _ _ _ (read_list_keys_NoDup (arg_list a)) Hm) as [Hcells _].
  destruct (Hcells _ _ Hin) as (r & Hr & Hcell). exists r. split; [exact Hr|].
  assert (forall q ds r', task a q ds = Ok r' -> Py.keys r'.1.2 = Py.keys r.1.2 /\ r'.2 = r.2)
    as Hall by (intros q ds r' Hr'; exact (get_queen_genotypes_site _ _ _ _ _ _ _ _ _ _ _ _ _ Hr' Hr)).
  destruct (read_list (arg_list a)).1 as [|[q0 ds0] qm]; [by apply elem_of_nil in Hin|].
  rewrite jobs_cons in Hm. cbn [foldM] in Hm.
  destruct (collect ([], ∅) (task a q0 ds0)) as [acc1|e] eqn:Hc;
    cbn [mbind result_bind] in Hm; [|done].
  apply collect_Ok in Hc as (r0 & Hr0 & Hm0).
  destruct (get_queen_genotypes_keys _ _ _ _ _ _ _ Hr0) as [Hnd Hdom].
  destruct (merge_result_same_shape _ _ _ Hnd Hdom (or_introl eq_refl) Hm0) as [Hk1 Hi1].
  destruct (Hall _ _ _ Hr0) as [HK HI]. rewrite HK in Hk1. rewrite HI in Hi1.
  destruct (collect_all_same_shape a qm acc1 m _ _ Hall (conj Hk1 Hi1) Hm) as [Hkm Him].
  split; [done|]. split; [done|]. intros k. specialize (Hcell k). unfold cell in Hcell.
  rewrite Hcell. cbn [fst Py.get]. by destruct (Py.get k r.1.2).
Qed.

(** X12: the merged table of [main].  When every task has been
    collected, the table lists the sites of the file in the order of a
    task's result, its annotation columns are the task's, and its cell for
    a site and a queen is the call of that queen's own task: every site has
    a call of every queen, and no two tasks ever disagree on a site. *)
Theorem merged_table_is_the_tasks_results (a : args) (m : merged) (queen : string)
    (drones : list string) :
  foldM collect ([], ∅) (jobs a (read_list (arg_list a)).1) = Ok m ->
  (queen, drones) ∈ (read_list (arg_list a)).1 ->
  exists r,
    get_queen_genotypes (arg_vcf a) queen drones
      (arg_het_thres a) (arg_min_drones a) (arg_haploid a) = Ok r
    /\ Py.keys m.1 = Py.keys r.1.2
    /\ m.2 = r.2
    /\ forall k, default ∅ (Py.get k m.1) !! queen = Py.get k r.1.2.
Proof. apply merged_table. Qed.

Lemma merged_table_is_the_tasks_results_witness :
  exists m r,
    foldM collect ([], ∅) (jobs (two_queens_args 1) (read_list (arg_list (two_queens_args 1))).1)
    = Ok m
    /\ get_queen_genotypes two_queens_vcf "qA" ["d1"; "d2"] 0.125 2 false = Ok r
    /\ Py.keys m.1 = Py.keys r.1.2
    /\ m.2 = r.2
    /\ forall k, default ∅ (Py.get k m.1) !! "qA" = Py.get k r.1.2.
Proof.
  destruct (is_ok_Ok (foldM collect ([], ∅)
              (jobs (two_queens_args 1) (read_list (arg_list (two_queens_args 1))).1)))
    as [m Hm]; [by vm_compute|].
  destruct (merged_table_is_the_tasks_results (two_queens_args 1) m "qA" ["d1"; "d2"] Hm)
    as (r & Hr & H).
  - apply (bool_decide_unpack _). by vm_compute.
  - exists m, r. split; [exact Hm|]. split; [exact Hr|exact H].
Defined.

(** ** Sorting and writing *)

Lemma sorter_on_line_key (line : string) :
  variant_key_sorter (variant_key_of line)
  = match Py.split Py.TAB (Py.strip line) with
    | chrom :: pos :: _ => pos' ← Py.int pos; Ok (chrom, pos')
    | _ => Raise (ValueError "not enough values to unpack")
    end.
Proof.
  unfold variant_key_sorter, variant_key_of.
  pose proof (split_nonempty Py.TAB (Py.strip line)) as Hne.
  pose proof (split_tab_free (Py.strip line)) as Htf.
  destruct (Py.split Py.TAB (Py.strip line)) as [|chrom [|pos fields]]; [done| |].
  - by rewrite split_join.
  - rewrite split_join; [done|done|by apply Forall_take].
Qed.

(** X13: the sort key of a data line is its first field and the
    integer value of its second field, whatever the line's other fields are;
    a line with one field only has no sort key. *)
Theorem sort_key_of_data_line (line : string) :
  variant_key_sorter (variant_key_of line)
  = match Py.split Py.TAB (Py.strip line) with
    | chrom :: pos :: _ => pos' ← Py.int pos; Ok (chrom, pos')
    | _ => Raise (ValueError "not enough values to unpack")
    end.
Proof. apply sorter_on_line_key. Qed.

Lemma sortable_line_iff (line : string) :
  sortable_line line <-> is_ok (variant_key_sorter (variant_key_of line)) = true.
Proof.
  rewrite sorter_on_line_key. unfold sortable_line. split.
  - intros (chrom & pos & fields & z & -> & Hz). by rewrite Hz.
  - destruct (Py.split Py.TAB (Py.strip line)) as [|chrom [|pos fields]]; [done..|].
    destruct (Py.int pos) as [z|e] eqn:Hz; [|done]. intros _. by exists chrom, pos, fields, z.
Qed.

Lemma traverse_Raise {A B : Type} (f : A -> result B) (l : list A) (e : exn) :
  traverse f l = Raise e -> exists x, x ∈ l /\ f x = Raise e.
Proof.
  induction l as [|x l IH]; cbn [traverse]; [done|].
  destruct (f x) as [y|e'] eqn:Hx; cbn [mbind result_bind].
  - destruct (traverse f l) as [ys|e'']; cbn [mbind result_bind]; [done|].
    intros [= ->]. destruct IH as (x' & Hin & Hx'); [done|]. exists x'. split; [by right|done].
  - intros [= ->]. exists x. split; [by left|done].
Qed.

Lemma traverse_Ok_exists {A B : Type} (f : A -> result B) (l : list A) :
  Forall (fun x => is_ok (f x) = true) l -> exists ys, traverse f l = Ok ys.
Proof.
  induction 1 as [|x l Hx _ [ys IH]]; [by exists []|]. cbn [traverse].
  destruct (f x) as [y|e]; [|done]. rewrite IH. by exists (y :: ys).
Qed.

Lemma traverse_Ok_all {A B : Type} (f : A -> result B) (l : list A) (ys : list B) :
  traverse f l = Ok ys -> Forall (fun x => is_ok (f x) = true) l.
Proof.
  revert ys. induction l as [|x l IH]; intros ys; cbn [traverse]; [constructor|].
  destruct (f x) as [y|e] eqn:Hx; cbn [mbind result_bind]; [|done].
  destruct (traverse f l) as [ys'|e]; cbn [mbind result_bind]; [|done].
  intros _. constructor; [by rewrite Hx|by eapply IH].
Qed.

Lemma int_raises (s : string) (e : exn) :
  Py.int s = Raise e -> exists msg, e = ValueError msg.
Proof. unfold Py.int, Py.int_value. intros H. repeat case_match; simplify_eq; eauto. Qed.

Lemma sorter_raises (k : string) (e : exn) :
  variant_key_sorter k = Raise e -> exists msg, e = ValueError msg.
Proof.
  unfold variant_key_sorter.
  destruct (Py.split Py.TAB k) as [|chrom [|pos fields]]; [intros [= <-]; eauto..|].
  destruct (Py.int pos) as [z|e'] eqn:Hz; cbn [mbind result_bind]; [done|].
  intros [= ->]. by eapply int_raises.
Qed.

Lemma sorted_Raise (f : string -> result (string * Z)) (l : list string) (e : exn) :
  sorted f l = Raise e -> exists k, k ∈ l /\ f k = Raise e.
Proof.
  unfold sorted.
  destruct (traverse _ l) as [keyed|e'] eqn:Htr; cbn [mbind result_bind]; [done|].
  intros [= ->]. apply traverse_Raise in Htr as (k & Hin & Hk). exists k. split; [done|].
  destruct (f k) as [sk|e']; cbn [mbind result_bind] in Hk; [done|]. by injection Hk as ->.
Qed.

Lemma sorted_Ok (f : string -> result (string * Z)) (l ks : list string) :
  sorted f l = Ok ks -> ks ≡ₚ l /\ Forall (fun k => is_ok (f k) = true) l.
Proof.
  intros Hs.
  assert (Forall (fun k => is_ok (f k) = true) l) as Hall.
  { unfold sorted in Hs.
    destruct (traverse _ l) as [keyed|e'] eqn:Htr; cbn [mbind result_bind] in Hs; [|done].
    apply traverse_Ok_all in Htr. eapply Forall_impl; [exact Htr|].
    intros k. cbv beta. by destruct (f k). }
  split; [|done].
  destruct (sorted_spec f l) as (keyed & Hk & Hperm & _).
  { eapply Forall_impl; [exact Hall|]. intros k. cbv beta. destruct (f k); [eauto|done]. }
  rewrite Hs in Hk. by injection Hk as ->.
Qed.

Lemma write_rows_Ok (queen_names : list string) (m : merged) (ks : list string) :
  covered m -> (forall k, k ∈ ks -> k ∈ Py.keys m.1) ->
  exists rows, traverse (write_row queen_names m.1 m.2) ks = Ok rows.
Proof.
  intros Hcov Hks. apply traverse_Ok_exists, Forall_forall. intros k Hk.
  destruct (Hcov k (Hks k Hk)) as [info Hinfo].
  by destruct (write_row_Some queen_names m.1 m.2 k info Hinfo) as [row ->].
Qed.

Lemma write_combined_vcf_Raise (input_vcf queen_names : list string) (m : merged) (e : exn) :
  covered m ->
  write_combined_vcf input_vcf queen_names m.1 m.2 = Raise e ->
  exists k, k ∈ Py.keys m.1 /\ variant_key_sorter k = Raise e.
Proof.
  intros Hcov. unfold write_combined_vcf.
  destruct (sorted variant_key_sorter (Py.keys m.1)) as [ks|e'] eqn:Hs;
    cbn [mbind result_bind].
  - apply sorted_Ok in Hs as [Hperm _].
    destruct (write_rows_Ok queen_names m ks Hcov) as [rows ->]; [|done].
    intros k Hk. by rewrite <- Hperm.
  - intros [= ->]. by apply sorted_Raise.
Qed.

Lemma write_combined_vcf_Ok (input_vcf queen_names : list string) (m : merged) :
  covered m ->
  is_ok (write_combined_vcf input_vcf queen_names m.1 m.2) = true
  <-> Forall (fun k => is_ok (variant_key_sorter k) = true) (Py.keys m.1).
Proof.
  intros Hcov. unfold write_combined_vcf. split.
  - destruct (sorted variant_key_sorter (Py.keys m.1)) as [ks|e'] eqn:Hs; [|done].
    intros _. by apply sorted_Ok in Hs as [_ ?].
  - intros Hall. destruct (sorted_spec variant_key_sorter (Py.keys m.1)) as (keyed & -> & Hperm & _).
    { eapply Forall_impl; [exact Hall|]. intros k. cbv beta.
      destruct (variant_key_sorter k); [eauto|done]. }
    cbn [mbind result_bind].
    destruct (write_rows_Ok queen_names m keyed.*2 Hcov) as [rows ->]; [|done].
    intros k Hk. by rewrite <- Hperm.
Qed.

(** ** How [main] ends *)

Lemma find_chrom_line_Some (vcf rest : list string) (h : string) :
  find_chrom_line vcf = (Some h, rest) ->
  exists pre line,
    vcf = pre ++ line :: rest /\ no_chrom_line pre /\ Py.startswith "#CHROM" line = true.
Proof.
  induction vcf as [|l vcf IH]; cbn [find_chrom_line]; [done|].
  destruct (Py.startswith "#CHROM" l) eqn:Hl.
  - intros [= _ <-]. exists [], l. by repeat split; [constructor|].
  - intros (pre & line & -> & Hpre & Hline)%IH. exists (l :: pre), line.
    repeat split; [by constructor|done].
Qed.

Lemma task_Ok_chrom_line (input_vcf : list string) (queen_name : string)
    (drones : list string) (threshold : float) (min_drones : Z) (haploid : bool)
    (r : task_result) :
  get_queen_genotypes input_vcf queen_name drones threshold min_drones haploid = Ok r ->
  exists pre line rest,
    input_vcf = pre ++ line :: rest /\ no_chrom_line pre
    /\ Py.startswith "#CHROM" line = true.
Proof.
  unfold get_queen_genotypes.
  destruct (find_chrom_line input_vcf) as [[[|c h]|] rest] eqn:Hfind; try done.
  intros _. apply find_chrom_line_Some in Hfind as (pre & line & ? & ? & ?).
  by exists pre, line, rest.
Qed.

Lemma collect_step (a : args) (acc : merged) (q : string) (ds : list string) :
  covered acc ->
  match task a q ds with
  | Ok r => exists acc1, collect acc (task a q ds) = Ok acc1 /\ covered acc1
              /\ forall k, k ∈ Py.keys acc1.1 -> k ∈ Py.keys acc.1 \/ k ∈ Py.keys r.1.2
  | Raise e => collect acc (task a q ds) = Raise e
  end.
Proof.
  intros Hcov. destruct (task a q ds) as [r|e] eqn:Hr; [|done].
  destruct (get_queen_genotypes_keys _ _ _ _ _ _ _ Hr) as [Hnd _].
  pose proof (get_queen_genotypes_cover _ _ _ _ _ _ _ Hr) as Hcr.
  destruct (merge_result_Ok acc r Hcr Hcov Hnd) as (acc1 & Hm & Hc1).
  exists acc1. split; [done|]. split; [done|].
  destruct (merge_result_table _ _ _ Hnd Hm) as [Hkeys _]. intros k. rewrite Hkeys.
  rewrite elem_of_app, list_elem_of_filter. naive_solver.
Qed.

Lemma collect_all_Ok (a : args) (qm : Py.odict (list string)) (acc : merged) :
  covered acc ->
  (forall q ds, (q, ds) ∈ qm -> is_ok (task a q ds) = true) ->
  exists m, foldM collect acc (jobs a qm) = Ok m /\ covered m
    /\ forall k, k ∈ Py.keys m.1 ->
         k ∈ Py.keys acc.1
         \/ exists q ds r, (q, ds) ∈ qm /\ task a q ds = Ok r /\ k ∈ Py.keys r.1.2.
Proof.
  revert acc. induction qm as [|[q0 ds0] qm IH]; intros acc Hcov Hall.
  - exists acc. split; [done|]. split; [done|]. by left.
  - rewrite jobs_cons. cbn [foldM].
    pose proof (collect_step a acc q0 ds0 Hcov) as Hstep.
    pose proof (Hall q0 ds0 ltac:(by left)) as Hok.
    destruct (task a q0 ds0) as [r0|e] eqn:Hr0; [|done].
    destruct Hstep as (acc1 & -> & Hc1 & Hk1). cbn [mbind result_bind].
    destruct (IH acc1 Hc1) as (m & Hm & Hcm & Hkm).
    { intros q ds Hin. apply Hall. by right. }
    exists m. split; [done|]. split; [done|]. intros k Hk.
    destruct (Hkm k Hk) as [Hk'|(q & ds & r & Hin & Hr & Hkr)].
    + destruct (Hk1 k Hk') as [?|?]; [by left|]. right. exists q0, ds0, r0.
      split; [by left|done].
    + right. exists q, ds, r. split; [by right|done].
Qed.

Lemma collect_all_Raise (a : args) (qm : Py.odict (list string)) (acc : merged) (e : exn) :
  covered acc ->
  foldM collect acc (jobs a qm) = Raise e ->
  exists q ds, (q, ds) ∈ qm /\ task a q ds = Raise e.
Proof.
  revert acc. induction qm as [|[q0 ds0] qm IH]; intros acc Hcov; [done|].
  rewrite jobs_cons. cbn [foldM].
  pose proof (collect_step a acc q0 ds0 Hcov) as Hstep.
  destruct (task a q0 ds0) as [r0|e0] eqn:Hr0.
  - destruct Hstep as (acc1 & -> & Hc1 & _). cbn [mbind result_bind].
    intros (q & ds & Hin & Hr)%IH; [|done]. exists q, ds. split; [by right|done].
  - rewrite Hstep. cbn [mbind result_bind]. intros [= ->]. exists q0, ds0.
    split; [by left|done].
Qed.

Lemma collect_all_Ok_inv (a : args) (qm : Py.odict (list string)) (acc m : merged) :
  foldM collect acc (jobs a qm) = Ok m ->
  forall q ds, (q, ds) ∈ qm -> is_ok (task a q ds) = true.
Proof.
  revert acc. induction qm as [|[q0 ds0] qm IH]; intros acc.
  - by intros _ q ds ?%elem_of_nil.
  - rewrite jobs_cons. cbn [foldM].
    destruct (collect acc (task a q0 ds0)) as [acc1|e] eqn:Hc; cbn [mbind result_bind]; [|done].
    apply collect_Ok in Hc as (r0 & Hr0 & _).
    intros Hm q ds [[= -> ->]|Hin]%elem_of_cons; [by rewrite Hr0|]. by eapply IH.
Qed.

Lemma covered_empty : covered ([], ∅).
Proof. by intros k ?%elem_of_nil. Qed.

Lemma task_key_line (a : args) (q k : string) (ds : list string) (r : task_result) :
  task a q ds = Ok r -> k ∈ Py.keys r.1.2 ->
  exists line, line ∈ arg_vcf a /\ Py.startswith "#" line = false /\ k = variant_key_of line.
Proof.
  intros Hr Hk. unfold task in Hr.
  destruct (task_Ok_chrom_line _ _ _ _ _ _ _ Hr) as (pre & line & rest & Hvcf & Hpre & Hline).
  rewrite Hvcf in Hr |- *.
  apply (task_key_set _ _ _ _ _ _ _ _ _ Hpre Hline Hr) in Hk as (l & Hl & Hn & ->).
  exists l. split; [|done]. rewrite elem_of_app. right. by right.
Qed.

Lemma main_raises (a : args) (e : exn) :
  main a = Raise e ->
  (e = ValueError "max_workers must be greater than 0" /\ (arg_threads a <= 0)%Z)
  \/ (e = ValueError "No #CHROM line found in VCF" /\ no_chrom_line (arg_vcf a))
  \/ (e = ZeroDivisionError /\ (arg_min_drones a <= 0)%Z)
  \/ (exists line msg,
        line ∈ arg_vcf a /\ Py.startswith "#" line = false
        /\ variant_key_sorter (variant_key_of line) = Raise e /\ e = ValueError msg).
Proof.
  unfold main. destruct (Z.leb_spec (arg_threads a) 0) as [Hth|Hth].
  { intros [= <-]. by left. }
  unfold finish.
  destruct (foldM collect _ _) as [m|e'] eqn:Hm; cbn [mbind result_bind].
  - intros Hw. right. right. right.
    destruct (collect_all_Ok a (read_list (arg_list a)).1 ([], ∅) covered_empty)
      as (m' & Hm' & Hcov & Hkeys).
    { by eapply collect_all_Ok_inv. }
    rewrite Hm in Hm'. injection Hm' as <-.
    apply write_combined_vcf_Raise in Hw as (k & Hk & Hs); [|done].
    destruct (Hkeys k Hk) as [?%elem_of_nil|(q & ds & r & _ & Hr & Hkr)]; [done|].
    destruct (task_key_line _ _ _ _ _ Hr Hkr) as (line & Hl & Hn & ->).
    destruct (sorter_raises _ _ Hs) as [msg ->]. by exists line, msg.
  - intros [= ->].
    apply collect_all_Raise in Hm as (q & ds & _ & Hr); [|apply covered_empty].
    apply task_raises in Hr as [[-> ?]|[-> ?]]; [right; by left|right; right; by left].
Qed.


Lemma main_Ok_iff (a : args) :
  (0 < arg_threads a)%Z -> (1 <= arg_min_drones a)%Z ->
  (read_list (arg_list a)).1 ≠ [] ->
  (exists lines, main a = Ok lines)
  <-> exists pre line rest,
        arg_vcf a = pre ++ line :: rest /\ no_chrom_line pre
        /\ Py.startswith "#CHROM" line = true
        /\ Forall (fun l => Py.startswith "#" l = false -> sortable_line l) rest.
Proof.
  intros Hth Hmin Hqm. unfold main.
  destruct (Z.leb_spec (arg_threads a) 0) as [?|_]; [lia|]. unfold finish. split.
  - intros [lines Hmain].
    destruct (foldM collect _ _) as [m|e] eqn:Hm; cbn [mbind result_bind] in Hmain; [|done].
    destruct (read_list (arg_list a)).1 as [|[q0 ds0] qm] eqn:Hread; [done|].
    assert ((q0, ds0) ∈ (read_list (arg_list a)).1) as Hin by (rewrite Hread; left).
    rewrite <- Hread in Hm.
    destruct (merged_table a m q0 ds0 Hm Hin) as (r0 & Hr0 & Hkeys & _).
    destruct (task_Ok_chrom_line _ _ _ _ _ _ _ Hr0) as (pre & line & rest & Hvcf & Hpre & Hline).
    exists pre, line, rest. repeat split; try done.
    apply Forall_forall. intros l Hl Hn. apply sortable_line_iff.
    assert (is_ok (write_combined_vcf (arg_vcf a) (Py.keys ((q0, ds0) :: qm)) m.1 m.2) = true)
      as Hw by by rewrite Hmain.
    apply write_combined_vcf_Ok in Hw.
    + rewrite Forall_forall in Hw. apply Hw. rewrite Hkeys.
      rewrite Hvcf in Hr0. apply (task_key_set _ _ _ _ _ _ _ _ _ Hpre Hline Hr0).
      by exists l.
    + destruct (collect_all_Ok a (read_list (arg_list a)).1 ([], ∅) covered_empty)
        as (m' & Hm' & Hcov & _); [by eapply collect_all_Ok_inv|].
      rewrite Hm in Hm'. by injection Hm' as <-.
  - intros (pre & line & rest & Hvcf & Hpre & Hline & Hrest).
    destruct (collect_all_Ok a (read_list (arg_list a)).1 ([], ∅) covered_empty)
      as (m & -> & Hcov & Hkeys).
    { intros q ds _. unfold task.
      destruct (get_queen_genotypes_calls (arg_vcf a) q ds (arg_het_thres a)
                  (arg_min_drones a) (arg_haploid a)) as (g & i & -> & _); [|done|done].
      rewrite Hvcf. apply Exists_app. right. by left. }
    cbn [mbind result_bind]. apply is_ok_Ok. apply write_combined_vcf_Ok; [done|].
    apply Forall_forall. intros k Hk.
    destruct (Hkeys k Hk) as [?%elem_of_nil|(q & ds & r & _ & Hr & Hkr)]; [done|].
    unfold task in Hr. rewrite Hvcf in Hr.
    apply (task_key_set _ _ _ _ _ _ _ _ _ Hpre Hline Hr) in Hkr as (l & Hl & Hn & ->).
    apply sortable_line_iff. rewrite Forall_forall in Hrest. by apply Hrest.
Qed.


(** ** Header lines *)

(** X16: [extract_vital_header_lines] returns the lines in front of
    the first [#CHROM] line that begin with one of its five prefixes, in
    file order, and then that [#CHROM] line as it is in the file; nothing
    behind that line is read.  The prefixes are compared as written, so a
    [##contig] line is not kept. *)
Theorem vital_header_lines_stop_at_chrom (pre rest : list string) (line : string) :
  no_chrom_line pre -> Py.startswith "#CHROM" line = true ->
  extract_vital_header_lines (pre ++ line :: rest)
  = filter (fun l => vital_header l = true) pre ++ [line].
Proof.
  intros Hpre Hline.
  assert (vital_header line = false) as Hv.
  { unfold vital_header, Py.startswith in *.
    apply prefix_cons_inv in Hline as (s1 & -> & H).
    apply prefix_cons_inv in H as (s2 & -> & _). done. }
  induction Hpre as [|l pre Hl _ IH]; cbn [app extract_vital_header_lines].
  - fold (vital_header line). by rewrite Hv, Hline.
  - fold (vital_header l). rewrite Hl, IH, filter_cons.
    destruct (vital_header l); [by rewrite decide_True|by rewrite decide_False].
Qed.

Lemma vital_header_lines_stop_at_chrom_witness :
  extract_vital_header_lines
    (["##fileformat=VCFv4.2" +:+ NLs; "##INFO=<ID=DP>" +:+ NLs; "##contig=<ID=1>" +:+ NLs]
     ++ chrom_line ["d1"] :: ["##FILTER=<ID=q10>" +:+ NLs])
  = filter (fun l => vital_header l = true)
      ["##fileformat=VCFv4.2" +:+ NLs; "##INFO=<ID=DP>" +:+ NLs; "##contig=<ID=1>" +:+ NLs]
    ++ [chrom_line ["d1"]].
Proof.
  apply vital_header_lines_stop_at_chrom; [repeat constructor|reflexivity].
Defined.

(** ** File names *)

(** X17: the uncompressed output of the pipeline is named as intended.
    [rstrip('.gz')] strips characters, not a suffix, and stops here at the
    [f] of [.vcf], whatever the output directory is called. *)
Theorem temp_vcf_is_path_without_gz (dir : string) :
  temp_vcf (dir +:+ "all_queens.vcf.gz") = dir +:+ "all_queens.vcf".
Proof.
  unfold temp_vcf, PyStr.rstrip_chars. rewrite rev_append.
  change (PyStr.lstrip_chars ".gz" (String.rev "all_queens.vcf.gz" +:+ String.rev dir))
    with (String.rev "all_queens.vcf" +:+ String.rev dir).
  by rewrite <- rev_append, rev_involutive.
Qed.

Lemma replace_dot_free (old' new stem t : string) :
  Py.contains "."%char stem = false ->
  PyStr.replace_from (String "."%char old') new 0 (stem +:+ t)
  = stem +:+ PyStr.replace_from (String "."%char old') new 0 t.
Proof.
  induction stem as [|c stem IH]; [done|]. cbn [Py.contains].
  intros [Hc Hs]%orb_false_elim. rewrite !append_cons. cbn [PyStr.replace_from String.prefix].
  destruct (ascii_dec "." c) as [<-|_]; [done|]. by rewrite IH.
Qed.

(** X18: the output name of the older script.  For an input named
    [stem.vcf] it is [stem_queens.vcf]; for [stem.vcf.gz] both replacements
    apply, one after the other, and it is [stem_queensGT_inferred.vcf]; and
    a name without [.vcf] is left as it is, so that the output is written
    over the input. *)
Theorem legacy_output_name (stem : string) :
  Py.contains "."%char stem = false ->
  output_vcf (stem +:+ ".vcf") = stem +:+ "_queens.vcf"
  /\ output_vcf (stem +:+ ".vcf.gz") = stem +:+ "_queensGT_inferred.vcf"
  /\ output_vcf stem = stem.
Proof.
  intros Hs. unfold output_vcf, PyStr.replace. split; [|split].
  - rewrite (replace_dot_free _ _ _ _ Hs).
    change (PyStr.replace_from ".vcf" "_queens.vcf" 0 ".vcf") with "_queens.vcf".
    by rewrite (replace_dot_free _ _ _ _ Hs).
  - rewrite (replace_dot_free _ _ _ _ Hs).
    change (PyStr.replace_from ".vcf" "_queens.vcf" 0 ".vcf.gz") with "_queens.vcf.gz".
    by rewrite (replace_dot_free _ _ _ _ Hs).
  - rewrite <- (append_nil_r stem) at 1 2.
    rewrite (replace_dot_free _ _ _ _ Hs). cbn [PyStr.replace_from].
    rewrite (replace_dot_free _ _ _ _ Hs). cbn [PyStr.replace_from].
    by rewrite append_nil_r.
Qed.

Lemma legacy_output_name_witness :
  output_vcf ("drones" +:+ ".vcf") = "drones" +:+ "_queens.vcf"
  /\ output_vcf ("drones" +:+ ".vcf.gz") = "drones" +:+ "_queensGT_inferred.vcf"
  /\ output_vcf "drones" = "drones".
Proof. apply legacy_output_name. reflexivity. Defined.

(** ** The older script *)

(** X19: the row rule of the older script never raises; it returns one
    of the four queen calls, and the missing call exactly when at most three
    calls are valid. *)
Theorem legacy_infer_row_total (drone_gts : list string) (threshold : float) :
  exists gt,
    Legacy.infer_row drone_gts threshold = Ok gt
    /\ gt ∈ queen_calls
    /\ (gt = "./."
        <-> length (filter (fun gt => gt ∉ ["./."; "."; ""]) drone_gts) <= 3).
Proof.
  unfold Legacy.infer_row. cbv zeta.
  destruct (Nat.leb_spec (length (filter (fun gt => gt ∉ ["./."; "."; ""]) drone_gts)) 3)
    as [Hle|Hgt].
  - exists "./.". split; [done|]. split; [unfold queen_calls; set_solver|done].
  - destruct (length (filter (fun gt => gt ∉ ["./."; "."; ""]) drone_gts)) as [|n]; [lia|].
    cbn [Py.truediv mbind result_bind].
    destruct (_ <? threshold)%float;
      [|destruct (1 - threshold <? _)%float];
      eexists; (split; [done|]); (split; [unfold queen_calls; set_solver|]);
      (split; [done|lia]).
Qed.

Lemma filter_ext_elem {A : Type} (P Q : A -> Prop) `{!forall x, Decision (P x)}
    `{!forall x, Decision (Q x)} (l : list A) :
  (forall x, x ∈ l -> P x <-> Q x) -> filter P l = filter Q l.
Proof.
  induction l as [|x l IH]; [done|]. intros Hl. rewrite !filter_cons.
  rewrite IH by (intros y Hy; apply Hl; by right).
  destruct (decide (P x)) as [HP|HP].
  - rewrite decide_True; [done|]. apply Hl; [by left|done].
  - rewrite decide_False; [done|]. intros HQ. apply HP, Hl; [by left|done].
Qed.

(** X20: where the two scripts agree.  On a row whose calls are each
    missing ([./.] or empty), [0/0], or a call that names allele 1 or 2, the
    older script returns what the pipeline returns in diploid mode with a
    minimum of four drones. *)
Theorem legacy_agrees_with_minimum_four (drone_gts : list string) (threshold : float) :
  Forall (fun gt => gt ∈ ["./."; ""; "0/0"]
                    \/ Py.contains "1"%char gt || Py.contains "2"%char gt = true) drone_gts ->
  Legacy.infer_row drone_gts threshold
  = infer_queen_gt_from_list drone_gts threshold 4 false.
Proof.
  intros Hall. rewrite Forall_forall in Hall.
  rewrite infer_unfold. unfold Legacy.infer_row. cbv zeta.
  cbn [valid_gts alt_count].
  assert (filter (fun gt => gt ∉ ["./."; "."; ""]) drone_gts
          = filter (fun gt => gt ∉ ["./."; ""]) drone_gts) as ->.
  { apply filter_ext_elem. intros gt Hgt.
    destruct (Hall gt Hgt) as [Hin|Hc]; [set_solver|].
    assert (gt ≠ ".") by (intros ->; done). set_solver. }
  assert (filter (fun gt => Py.contains "1"%char gt || Py.contains "2"%char gt = true)
            (filter (fun gt => gt ∉ ["./."; ""]) drone_gts)
          = filter (fun gt => gt ≠ "0/0") (filter (fun gt => gt ∉ ["./."; ""]) drone_gts))
    as ->.
  { apply filter_ext_elem. intros gt [Hv Hgt]%list_elem_of_filter.
    destruct (Hall gt Hgt) as [Hin|Hc].
    - assert (gt = "0/0") as -> by set_solver. done.
    - split; [|done]. intros _ ->. done. }
  destruct (length (filter (fun gt => gt ∉ ["./."; ""]) drone_gts)) as [|[|[|[|n]]]] eqn:Hlen;
    try done.
  assert ((Z.of_nat (S (S (S (S n)))) <? 4)%Z = false) as -> by (apply Z.ltb_ge; lia).
  done.
Qed.

Lemma legacy_agrees_with_minimum_four_witness :
  Legacy.infer_row ["0/0"; "1/1"; "./."; "0/1:7"; "2/2"; ""] 0.125
  = infer_queen_gt_from_list ["0/0"; "1/1"; "./."; "0/1:7"; "2/2"; ""] 0.125 4 false.
Proof.
  apply legacy_agrees_with_minimum_four.
  repeat constructor; first [by right | left; set_solver].
Defined.

Lemma contains_append (c : ascii) (s t : string) :
  Py.contains c (s +:+ t) = Py.contains c s || Py.contains c t.
Proof.
  induction s as [|c' s IH]; [done|]. rewrite append_cons. cbn [Py.contains].
  by rewrite IH, orb_assoc.
Qed.

Lemma contains_rev (c : ascii) (s : string) :
  Py.contains c (String.rev s) = Py.contains c s.
Proof.
  induction s as [|c' s IH]; [done|]. rewrite rev_cons, contains_append, IH.
  cbn [Py.contains]. rewrite orb_false_r. apply orb_comm.
Qed.

Lemma space_free_rev (s : string) : space_free s -> space_free (String.rev s).
Proof. intros Hs c Hc. apply Hs. by rewrite <- contains_rev. Qed.

Lemma space_free_cons (c : ascii) (s : string) :
  space_free (String c s) <-> Py.isspace c = false /\ space_free s.
Proof.
  unfold space_free. cbn [Py.contains]. split.
  - intros H. split.
    + apply H. by rewrite Ascii.eqb_refl.
    + intros c' Hc'. apply H. by rewrite Hc', orb_true_r.
  - intros [Hc Hs] c' [Heq|Hc']%orb_true_iff; [|by apply Hs].
    by apply Ascii.eqb_eq in Heq as <-.
Qed.

Lemma lstrip_space_free (s : string) : space_free s -> Py.lstrip s = s.
Proof.
  destruct s as [|c s]; [done|]. intros [Hc _]%space_free_cons.
  cbn [Py.lstrip]. by rewrite Hc.
Qed.

Lemma strip_space_free (s : string) : space_free s -> Py.strip s = s.
Proof.
  intros Hs. unfold Py.strip, Py.rstrip. rewrite (lstrip_space_free s Hs).
  by rewrite (lstrip_space_free _ (space_free_rev _ Hs)), rev_involutive.
Qed.

Lemma split_ws_from_space_free (s : string) (tok : option string) :
  (forall t, tok = Some t -> space_free t) ->
  Forall space_free (Py.split_ws_from tok s).
Proof.
  revert tok. induction s as [|c s IH]; intros tok Htok; cbn [Py.split_ws_from].
  - destruct tok as [t|]; [|constructor].
    constructor; [|constructor]. by apply space_free_rev, Htok.
  - destruct (Py.isspace c) eqn:Hc.
    + destruct tok as [t|].
      * constructor; [by apply space_free_rev, Htok|]. by apply IH.
      * by apply IH.
    + apply IH. intros t [= <-]. apply space_free_cons. split; [done|].
      destruct tok as [t|]; [by apply Htok|]. by intros c' ?.
Qed.

Lemma split_ws_space_free (s : string) : Forall space_free (Py.split_ws s).
Proof. by apply split_ws_from_space_free. Qed.

Lemma legacy_read_list_snoc (list_file : list string) (line : string) :
  Legacy.read_list (list_file ++ [line])
  = Legacy.read_list_line (Legacy.read_list list_file) line.
Proof. unfold Legacy.read_list. by rewrite foldl_app. Qed.

Lemma legacy_family_map_snoc (droneID queenID : list string) (d q : string) :
  length droneID = length queenID ->
  Legacy.family_map (droneID ++ [d]) (queenID ++ [q])
  = Py.upsert q (fun o => default [] o ++ [d]) (Legacy.family_map droneID queenID).
Proof.
  intros Hlen. unfold Legacy.family_map. rewrite zip_with_app by done.
  by rewrite foldl_app.
Qed.

(** X21: the older script reads the list file the other way round.  Its
    two lists have the same length, and its family map gives a queen the
    first tokens of the lines whose second token is her name, in file order;
    the calls to [strip] on the tokens change nothing. *)
Theorem legacy_family_map_groups_by_second_token (list_file : list string) :
  let '(droneID, queenID, _) := Legacy.read_list list_file in
  length droneID = length queenID
  /\ forall queen,
       Py.get queen (Legacy.family_map droneID queenID)
       = match legacy_drones_listed_for queen list_file with
         | [] => None
         | drones => Some drones
         end.
Proof.
  induction list_file as [|line l IH] using rev_ind; [done|].
  rewrite legacy_read_list_snoc. destruct (Legacy.read_list l) as [[droneID queenID] out].
  destruct IH as [Hlen Hget].
  unfold legacy_drones_listed_for in *. unfold Legacy.read_list_line.
  pose proof (split_ws_space_free (Py.strip line)) as Htok.
  destruct (Py.split_ws (Py.strip line)) as [|t0 [|t1 rest]] eqn:Hline.
  - split; [done|]. intros q. rewrite omap_app. cbn [omap list_omap].
    by rewrite Hline, app_nil_r.
  - split; [done|]. intros q. rewrite omap_app. cbn [omap list_omap].
    by rewrite Hline, app_nil_r.
  - apply Forall_cons in Htok as [H0 [H1 _]%Forall_cons].
    rewrite (strip_space_free t0 H0), (strip_space_free t1 H1).
    split; [rewrite !length_app; simpl; lia|]. intros q.
    rewrite legacy_family_map_snoc by done. rewrite omap_app. cbn [omap list_omap].
    rewrite Hline. destruct (decide (t1 = q)) as [->|Hne].
    + rewrite get_upsert_eq, Hget. by destruct (omap _ l).
    + rewrite get_upsert_ne by done. by rewrite app_nil_r.
Qed.

(** ** The rows of the output *)

Lemma infer_Ok_queen_call (drone_gts : list string) (threshold : float)
    (min_drones : Z) (haploid : bool) (gt : string) :
  infer_queen_gt_from_list drone_gts threshold min_drones haploid = Ok gt ->
  gt ∈ queen_calls.
Proof.
  rewrite infer_unfold. cbv zeta. unfold queen_calls.
  destruct (_ <? min_drones)%Z; [intros [= <-]; set_solver|].
  destruct (length _); [done|].
  destruct (_ <? threshold)%float; [intros [= <-]; set_solver|].
  destruct (1 - threshold <? _)%float; intros [= <-]; set_solver.
Qed.

Lemma process_lines_values (sample_names drones : list string) (threshold : float)
    (min_drones : Z) (haploid : bool) (f : list string)
    (st st' : Py.odict string * gmap string (list string)) :
  foldM (process_line sample_names drones threshold min_drones haploid) st f = Ok st' ->
  Forall (fun kv => kv.2 ∈ queen_calls) st.1 ->
  Forall (fun kv => kv.2 ∈ queen_calls) st'.1.
Proof.
  revert st. induction f as [|line f IH]; intros st; cbn [foldM]; [by intros [= <-]|].
  destruct (process_line _ _ _ _ _ st line) as [st1|e] eqn:Hline;
    cbn [mbind result_bind]; [|done].
  intros Hf Hst. apply (IH _ Hf). unfold process_line in Hline.
  destruct (Py.startswith "#" line); [by injection Hline as <-|]. cbv zeta in Hline.
  destruct (infer_queen_gt_from_list _ _ _ _) as [gt|e] eqn:Hgt;
    cbn [mbind result_bind] in Hline; [|done].
  injection Hline as <-. cbn [fst].
  apply (upsert_values (fun v => v ∈ queen_calls)); [|done].
  intros _. by eapply infer_Ok_queen_call.
Qed.

Lemma task_values (input_vcf : list string) (queen_name : string) (drones : list string)
    (threshold : float) (min_drones : Z) (haploid : bool) (r : task_result) :
  get_queen_genotypes input_vcf queen_name drones threshold min_drones haploid = Ok r ->
  Forall (fun kv => kv.2 ∈ queen_calls) r.1.2.
Proof.
  unfold get_queen_genotypes.
  destruct (find_chrom_line input_vcf) as [[[|c h]|] rest]; try done.
  destruct (foldM _ _ rest) as [st|e] eqn:Hst; cbn [mbind result_bind]; [|done].
  intros [= <-]. cbn [fst snd]. by eapply process_lines_values; [exact Hst|].
Qed.

Lemma process_lines_info_lines (sample_names drones : list string) (threshold : float)
    (min_drones : Z) (haploid : bool) (f : list string)
    (st st' : Py.odict string * gmap string (list string)) (k : string)
    (info : list string) :
  foldM (process_line sample_names drones threshold min_drones haploid) st f = Ok st' ->
  st'.2 !! k = Some info ->
  st.2 !! k = Some info
  \/ exists line, line ∈ f /\ Py.startswith "#" line = false /\ k = variant_key_of line
                  /\ info = take 9 (Py.split Py.TAB (Py.strip line)).
Proof.
  revert st. induction f as [|line f IH]; intros st; cbn [foldM].
  - intros [= <-] ?. by left.
  - destruct (process_line _ _ _ _ _ st line) as [st1|e] eqn:Hline;
      cbn [mbind result_bind]; [|done].
    intros Hf Hk. destruct (IH _ Hf Hk) as [Hk1|(l & Hl & Hn & -> & ->)].
    + apply process_line_cases in Hline as [[_ ->]|(Hn & gt & ->)]; [by left|].
      cbn [snd] in Hk1. apply lookup_insert_Some in Hk1 as [[<- <-]|[_ ?]]; [|by left].
      right. exists line. split; [by left|done].
    + right. exists l. split; [by right|done].
Qed.

Lemma task_info_line (a : args) (q k : string) (ds info : list string) (r : task_result) :
  task a q ds = Ok r -> r.2 !! k = Some info ->
  exists line, line ∈ arg_vcf a /\ Py.startswith "#" line = false
               /\ k = variant_key_of line
               /\ info = take 9 (Py.split Py.TAB (Py.strip line)).
Proof.
  unfold task, get_queen_genotypes.
  destruct (find_chrom_line (arg_vcf a)) as [[[|c h]|] rest] eqn:Hfind; try done.
  destruct (foldM _ _ rest) as [st|e] eqn:Hst; cbn [mbind result_bind]; [|done].
  intros [= <-] Hk. cbn [snd] in Hk.
  apply find_chrom_line_Some in Hfind as (pre & line & -> & _ & _).
  destruct (process_lines_info_lines _ _ _ _ _ _ _ _ _ _ Hst Hk)
    as [Hk0|(l & Hl & Hn & -> & ->)]; [cbn [snd] in Hk0; by rewrite lookup_empty in Hk0|].
  exists l. split; [|done]. rewrite elem_of_app. right. by right.
Qed.

Lemma get_elem_of {V : Type} (d : Py.odict V) (k : string) (v : V) :
  Py.get k d = Some v -> (k, v) ∈ d.
Proof.
  induction d as [|[k' v'] d IH]; cbn [Py.get]; [done|].
  destruct (decide (k' = k)) as [->|_]; [intros [= ->]; by left|]. intros ?. right. by apply IH.
Qed.

Lemma get_is_Some {V : Type} (d : Py.odict V) (k : string) :
  k ∈ Py.keys d -> is_Some (Py.get k d).
Proof.
  induction d as [|[k' v'] d IH]; cbn [Py.get Py.keys fmap list_fmap fst].
  - by intros ?%elem_of_nil.
  - destruct (decide (k' = k)) as [->|Hne]; [by eauto|].
    intros [?|?]%elem_of_cons; [congruence|by apply IH].
Qed.

Lemma write_row_Ok (queen_names : list string)
    (all_genotypes : Py.odict (gmap string string))
    (info_map : gmap string (list string)) (k row : string) :
  write_row queen_names all_genotypes info_map k = Ok row ->
  exists info_cols,
    info_map !! k = Some info_cols
    /\ row = Py.join TABs
               (info_cols ++ ((fun q => default "./." (cell all_genotypes k q)) <$> queen_names))
             +:+ NLs.
Proof.
  unfold write_row.
  destruct (Py.getitem info_map k) as [info|e] eqn:Hinfo; cbn [mbind result_bind]; [|done].
  intros [= <-]. exists info. split; [by apply getitem_Ok|done].
Qed.

Lemma main_rows (a : args) (lines : list string) :
  main a = Ok lines ->
  exists rows,
    lines = write_headers (arg_vcf a) (Py.keys (read_list (arg_list a)).1) ++ rows
    /\ Forall (fun row =>
         exists line calls,
           line ∈ arg_vcf a /\ Py.startswith "#" line = false
           /\ row = Py.join TABs (take 9 (Py.split Py.TAB (Py.strip line)) ++ calls) +:+ NLs
           /\ Forall2 (fun (qd : string * list string) call =>
                         exists r, task a qd.1 qd.2 = Ok r
                           /\ Py.get (variant_key_of line) r.1.2 = Some call
                           /\ call ∈ queen_calls)
                      (read_list (arg_list a)).1 calls) rows.
Proof.
  unfold main. destruct (arg_threads a <=? 0)%Z; [done|]. unfold finish.
  destruct (foldM collect _ _) as [m|e] eqn:Hm; cbn [mbind result_bind]; [|done].
  unfold write_combined_vcf.
  destruct (sorted variant_key_sorter (Py.keys m.1)) as [ks|e] eqn:Hs;
    cbn [mbind result_bind]; [|done].
  destruct (traverse _ ks) as [rows|e] eqn:Hrows; cbn [mbind result_bind]; [|done].
  intros [= <-]. exists rows. split; [done|].
  apply sorted_Ok in Hs as [Hperm _]. apply traverse_Ok_Forall2 in Hrows.
  eapply Forall2_Forall_r; [exact Hrows|]. apply Forall_forall.
  intros k Hk row (info & Hinfo & ->)%write_row_Ok. rewrite Hperm in Hk.
  destruct (read_list (arg_list a)).1 as [|[q0 ds0] qm] eqn:Hread.
  { cbn [jobs fmap list_fmap foldM] in Hm. injection Hm as <-. by apply elem_of_nil in Hk. }
  rewrite <- Hread in *.
  assert ((q0, ds0) ∈ (read_list (arg_list a)).1) as Hin0 by (rewrite Hread; left).
  destruct (merged_table a m q0 ds0 Hm Hin0) as (r0 & Hr0 & _ & Hi0 & _).
  rewrite Hi0 in Hinfo.
  destruct (task_info_line a q0 k ds0 info r0 Hr0 Hinfo) as (line & Hl & Hn & -> & ->).
  exists line, ((fun q => default "./." (cell m.1 (variant_key_of line) q))
                  <$> Py.keys (read_list (arg_list a)).1).
  split; [done|]. split; [done|]. split; [done|].
  unfold Py.keys. rewrite <- list_fmap_compose. apply Forall2_fmap_r.
  apply Forall_Forall2_diag, Forall_forall. intros [q ds] Hin. cbn [fst snd compose].
  destruct (merged_table a m q ds Hm Hin) as (r & Hr & Hkeys & _ & Hcell).
  exists r. split; [exact Hr|].
  unfold cell. rewrite Hcell. rewrite Hkeys in Hk.
  destruct (get_is_Some _ _ Hk) as [g Hg]. rewrite Hg. split; [done|]. cbn [default from_option].
  apply get_elem_of in Hg. pose proof (task_values _ _ _ _ _ _ _ Hr) as Hv.
  rewrite Forall_forall in Hv. exact (Hv _ Hg).
Qed.

(** X22: what [main] writes below the header.  Every row is the first
    nine columns of a data line of the input, followed by one call for each
    queen of the list, in the order of the header: the call that her own
    task inferred at the site of that line, which is one of the four queen
    calls.  The default [./.] of line 161 is never used. *)
Theorem main_rows_are_task_calls (a : args) (lines : list string) :
  main a = Ok lines ->
  exists rows,
    lines = write_headers (arg_vcf a) (Py.keys (read_list (arg_list a)).1) ++ rows
    /\ Forall (fun row =>
         exists line calls,
           line ∈ arg_vcf a /\ Py.startswith "#" line = false
           /\ row = Py.join TABs (take 9 (Py.split Py.TAB (Py.strip line)) ++ calls) +:+ NLs
           /\ Forall2 (fun (qd : string * list string) call =>
                         exists r, task a qd.1 qd.2 = Ok r
                           /\ Py.get (variant_key_of line) r.1.2 = Some call
                           /\ call ∈ queen_calls)
                      (read_list (arg_list a)).1 calls) rows.
Proof. apply main_rows. Qed.

Lemma main_rows_are_task_calls_witness :
  exists lines rows,
    main (two_queens_args 1) = Ok lines
    /\ lines = write_headers (arg_vcf (two_queens_args 1))
                 (Py.keys (read_list (arg_list (two_queens_args 1))).1) ++ rows
    /\ Forall (fun row =>
         exists line calls,
           line ∈ arg_vcf (two_queens_args 1) /\ Py.startswith "#" line = false
           /\ row = Py.join TABs (take 9 (Py.split Py.TAB (Py.strip line)) ++ calls) +:+ NLs
           /\ Forall2 (fun (qd : string * list string) call =>
                         exists r, task (two_queens_args 1) qd.1 qd.2 = Ok r
                           /\ Py.get (variant_key_of line) r.1.2 = Some call
                           /\ call ∈ queen_calls)
                      (read_list (arg_list (two_queens_args 1))).1 calls) rows.
Proof.
  destruct (is_ok_Ok (main (two_queens_args 1))) as [lines H]; [by vm_compute|].
  destruct (main_rows_are_task_calls _ _ H) as (rows & Hl & Hrows).
  exists lines, rows. split; [exact H|]. split; [exact Hl|exact Hrows].
Defined.

(** ** The order of sites with equal sort keys *)

Lemma filter_fmap {A B : Type} (f : A -> B) (P : B -> Prop) `{!forall y, Decision (P y)}
    (l : list A) :
  filter P (f <$> l) = f <$> filter (fun x => P (f x)) l.
Proof.
  induction l as [|x l IH]; [done|]. rewrite fmap_cons, !filter_cons, IH.
  by destruct (decide (P (f x))).
Qed.

Lemma traverse_keyed (f : string -> result (string * Z)) (l : list string)
    (keyed : list ((string * Z) * string)) :
  traverse (fun k => sk ← f k; Ok (sk, k)) l = Ok keyed ->
  keyed.*2 = l /\ Forall (fun p => f p.2 = Ok p.1) keyed.
Proof.
  revert keyed. induction l as [|k l IH]; intros keyed; cbn [traverse].
  - by intros [= <-].
  - destruct (f k) as [sk|e] eqn:Hk; cbn [mbind result_bind]; [|done].
    destruct (traverse _ l) as [keyed'|e]; cbn [mbind result_bind]; [|done].
    intros [= <-]. destruct (IH keyed' eq_refl) as [<- Hall].
    split; [done|]. by constructor.
Qed.

(** X23: the sort of the sites is stable.  Sites with the same
    chromosome and position, such as the records of a site that was split
    by allele, are written in the order in which the table lists them,
    which is the order of the input file. *)
Theorem sites_with_equal_keys_keep_their_order (f : string -> result (string * Z))
    (l l' : list string) (sk : string * Z) :
  sorted f l = Ok l' ->
  filter (fun k => f k = Ok sk) l' = filter (fun k => f k = Ok sk) l.
Proof.
  unfold sorted.
  destruct (traverse _ l) as [keyed|e] eqn:Htr; cbn [mbind result_bind]; [|done].
  intros [= <-]. apply traverse_keyed in Htr as [<- Hall].
  rewrite !filter_fmap.
  assert (forall L : list ((string * Z) * string),
            Forall (fun p => f p.2 = Ok p.1) L ->
            filter (fun p => f p.2 = Ok sk) L = filter (fun p => p.1 = sk) L) as Hfilter.
  { intros L HL. apply filter_ext_elem. intros p Hp.
    rewrite Forall_forall in HL. rewrite (HL p Hp). split; [by intros [= ->]|by intros ->]. }
  rewrite (Hfilter keyed Hall), (Hfilter (sort_by_key keyed)).
  - by rewrite sort_by_key_stable.
  - by rewrite sort_by_key_perm.
Qed.

Lemma sites_with_equal_keys_keep_their_order_witness :
  exists l',
    sorted variant_key_sorter
      [Py.join TABs ["2"; "7"; "."; "A"; "T"]; Py.join TABs ["1"; "5"; "."; "A"; "G"];
       Py.join TABs ["2"; "7"; "."; "A"; "C"]] = Ok l'
    /\ filter (fun k => variant_key_sorter k = Ok ("2", 7%Z)) l'
       = filter (fun k => variant_key_sorter k = Ok ("2", 7%Z))
           [Py.join TABs ["2"; "7"; "."; "A"; "T"]; Py.join TABs ["1"; "5"; "."; "A"; "G"];
            Py.join TABs ["2"; "7"; "."; "A"; "C"]].
Proof.
  destruct (is_ok_Ok (sorted variant_key_sorter
      [Py.join TABs ["2"; "7"; "."; "A"; "T"]; Py.join TABs ["1"; "5"; "."; "A"; "G"];
       Py.join TABs ["2"; "7"; "."; "A"; "C"]])) as [l' H]; [by vm_compute|].
  exists l'. split; [exact H|]. exact (sites_with_equal_keys_keep_their_order _ _ _ _ H).
Defined.

(** * Binary64 facts about list lengths *)

Section Binary64Lengths.

Local Open Scope Z_scope.

Lemma fexp_normal (x : Z) : -1020 <= x -> fexp prec emax x = x - 53.
Proof. intros Hx. unfold fexp, emin, prec, emax. lia. Qed.

Lemma shr_fexp_exact_positive (q : positive) (e : Z) :
  -1021 <= e ->
  0 < shr_m (shr_fexp prec emax (Z.pos q) e loc_Exact).1
  /\ e <= (shr_fexp prec emax (Z.pos q) e loc_Exact).2.
Proof.
  intros He. pose proof (digits2_pos_bounds q) as Hq.
  assert (0 < Z.pos (digits2_pos q)) as Hd by lia.
  unfold shr_fexp. simpl Zdigits2. rewrite fexp_normal by lia.
  change (shr_record_of_loc (Z.pos q) loc_Exact)
    with {| shr_m := Z.pos q; shr_r := false; shr_s := false |}.
  unfold shr.
  destruct (Z.pos (digits2_pos q) + e - 53 - e) as [|p|p] eqn:Hp; cbn [fst snd shr_m];
    [lia| |lia].
  destruct (iter_shr_1_m p {| shr_m := Z.pos q; shr_r := false; shr_s := false |})
    as [_ ->]; [simpl; lia|].
  cbn [shr_m]. split; [|lia].
  assert (Z.pos (digits2_pos q) = 53 + Z.pos p) as Hdig by lia.
  rewrite Hdig in Hq.
  replace (53 + Z.pos p - 1) with (52 + Z.pos p) in Hq by lia.
  rewrite !Z.pow_add_r in Hq by lia.
  assert (0 < 2 ^ Z.pos p) by (apply Z.pow_pos_nonneg; lia).
  assert (0 < 2 ^ 52) by (apply Z.pow_pos_nonneg; lia).
  apply Z.div_str_pos. nia.
Qed.

Lemma binary_round_aux_positive (M : positive) (e : Z) :
  -1021 <= e ->
  SF_positive (binary_round_aux prec emax false (Z.pos M) e loc_Exact).
Proof.
  intros He. unfold binary_round_aux.
  destruct (shr_fexp_exact_positive M e He) as [Hm1 He1].
  destruct (shr_fexp prec emax (Z.pos M) e loc_Exact) as [mrs' e'].
  cbn [fst snd] in Hm1, He1.
  pose proof (round_nearest_even_bounds (shr_m mrs') (loc_of_shr_record mrs')) as Hr.
  destruct (round_nearest_even (shr_m mrs') (loc_of_shr_record mrs')) as [|q|q]; [lia| |lia].
  destruct (shr_fexp_exact_positive q e' ltac:(lia)) as [Hm2 _].
  destruct (shr_fexp prec emax (Z.pos q) e' loc_Exact) as [mrs'' e''].
  cbn [fst] in Hm2.
  destruct (shr_m mrs'') as [|m|m]; [lia| |lia].
  by destruct (e'' <=? emax - prec).
Qed.

Lemma float_of_len_positive (n : nat) :
  (0 < n)%nat -> Z.of_nat n < 2 ^ 63 ->
  SF_positive (Prim2SF (Py.float_of_len n)).
Proof.
  intros Hn Hlt. unfold Py.float_of_len.
  rewrite FloatAxioms.of_uint63_spec, Uint63.of_Z_spec.
  change wB with (2 ^ 63). rewrite Z.mod_small by lia.
  destruct (Z.of_nat n) as [|M|M] eqn:HM; [lia| |lia].
  unfold binary_normalize, binary_round, shl_align.
  pose proof (digits2_pos_bounds M) as Hd.
  assert (0 < Z.pos (digits2_pos M)) as Hd' by lia.
  rewrite fexp_normal by lia.
  destruct (Z.pos (digits2_pos M) + 0 - 53 - 0) as [|p|p];
    apply binary_round_aux_positive; lia.
Qed.

Lemma zero_div_positive (y : float) :
  SF_positive (Prim2SF y) -> Prim2SF (0 / y) = S754_zero false.
Proof.
  rewrite FloatAxioms.div_spec. change (Prim2SF 0) with (S754_zero false).
  by destruct (Prim2SF y) as [[|]|[|]| |[|] m e].
Qed.

End Binary64Lengths.

Lemma alt_count_all_reference (haploid : bool) (valid : list string) :
  Forall (fun gt => gt = ref_call haploid) valid -> alt_count haploid valid = 0.
Proof.
  intros Hall. unfold alt_count, ref_call in *.
  destruct haploid.
  - assert (filter (fun gt => gt ≠ "0") valid = []) as ->; [|done].
    induction Hall as [|gt l -> _ IH]; [done|]. by rewrite filter_cons, decide_False by naive_solver.
  - assert (filter (fun gt => gt ≠ "0/0") valid = []) as ->; [|done].
    induction Hall as [|gt l -> _ IH]; [done|]. by rewrite filter_cons, decide_False by naive_solver.
Qed.

(** X24: when every valid call is the reference call, the queen is
    homozygous for the reference allele, for every positive threshold (an
    infinite one included): with at least one valid call and at least the
    minimum, the result is [0/0]. *)
Theorem all_reference_gives_homozygous_reference (drone_gts : list string)
    (threshold : float) (min_drones : Z) (haploid : bool) :
  (0 <? threshold)%float = true ->
  (0 < length (valid_gts haploid drone_gts))%nat ->
  (min_drones <= Z.of_nat (length (valid_gts haploid drone_gts)) < 2 ^ 63)%Z ->
  Forall (fun gt => gt = ref_call haploid) (valid_gts haploid drone_gts) ->
  infer_queen_gt_from_list drone_gts threshold min_drones haploid = Ok "0/0".
Proof.
  intros HT Hpos [Hmin Hmax] Href. rewrite infer_unfold. cbv zeta.
  rewrite (proj2 (Z.ltb_ge _ _) Hmin).
  rewrite (alt_count_all_reference _ _ Href).
  destruct (length (valid_gts haploid drone_gts)) as [|n] eqn:Hlen; [lia|].
  change (Py.float_of_len 0) with 0%float.
  assert ((0 / Py.float_of_len (S n) <? threshold)%float = true) as ->; [|done].
  rewrite FloatAxioms.ltb_spec in HT |- *.
  rewrite zero_div_positive; [exact HT|].
  apply float_of_len_positive; lia.
Qed.

Lemma all_reference_gives_homozygous_reference_witness :
  infer_queen_gt_from_list ["0"; "."; "0"; ""; "0"] 0.125 2 true = Ok "0/0".
Proof.
  apply all_reference_gives_homozygous_reference.
  - reflexivity.
  - simpl. lia.
  - simpl. lia.
  - repeat constructor.
Defined.

(** ** What a task computes at a site *)

Lemma process_lines_preserve (sample_names drones : list string) (threshold : float)
    (min_drones : Z) (haploid : bool) (f : list string) (k : string)
    (st st' : Py.odict string * gmap string (list string)) :
  Forall (fun l => Py.startswith "#" l = false -> variant_key_of l ≠ k) f ->
  foldM (process_line sample_names drones threshold min_drones haploid) st f = Ok st' ->
  Py.get k st'.1 = Py.get k st.1 /\ st'.2 !! k = st.2 !! k.
Proof.
  intros Hf. revert st. induction Hf as [|line f Hline _ IH]; intros st; cbn [foldM].
  - by intros [= <-].
  - destruct (process_line _ _ _ _ _ st line) as [st1|e] eqn:H1;
      cbn [mbind result_bind]; [|done].
    intros [-> ->]%IH.
    apply process_line_cases in H1 as [[_ ->]|(Hn & gt & ->)]; [done|].
    cbn [fst snd]. unfold Py.setitem.
    rewrite get_upsert_ne by (intros ->; by apply Hline).
    by rewrite lookup_insert_ne by (by apply Hline).
Qed.

(** X25: what a task computes.  At the site of a data line that no
    later line repeats, the task's call is the consensus of the calls of the
    queen's drones on that line, where the call of a drone is read from the
    column that the [#CHROM] line names after him; and the annotation
    columns are the first nine fields of that line.  Of several lines with
    the same first five fields, the last one decides. *)
Theorem task_call_is_consensus_of_last_record (pre before after : list string)
    (header line queen_name : string) (drones : list string) (threshold : float)
    (min_drones : Z) (haploid : bool) (r : task_result) :
  no_chrom_line pre -> Py.startswith "#CHROM" header = true ->
  Py.startswith "#" line = false ->
  Forall (fun l => Py.startswith "#" l = false -> variant_key_of l ≠ variant_key_of line)
         after ->
  get_queen_genotypes (pre ++ header :: before ++ line :: after)
    queen_name drones threshold min_drones haploid = Ok r ->
  let parts := Py.split Py.TAB (Py.strip line) in
  let sample_data :=
    Py.dict_of_pairs (zip (extract_samples_from_header [header]) (drop 9 parts)) in
  exists gt,
    infer_queen_gt_from_list (drone_call sample_data <$> drones)
      threshold min_drones haploid = Ok gt
    /\ Py.get (variant_key_of line) r.1.2 = Some gt
    /\ r.2 !! variant_key_of line = Some (take 9 parts).
Proof.
  intros Hpre Hheader Hline Hafter. cbv zeta.
  rewrite <- (task_sample_names [header] [] (Py.strip header))
    by (cbn [find_chrom_line]; by rewrite Hheader).
  unfold get_queen_genotypes. rewrite (find_chrom_line_first _ _ _ Hpre Hheader).
  destruct (chrom_line_strip _ Hheader) as (s & _ & ->).
  rewrite foldM_app.
  destruct (foldM _ _ before) as [st1|e]; cbn [mbind result_bind foldM]; [|done].
  destruct (process_line _ _ _ _ _ st1 line) as [st2|e] eqn:H2;
    cbn [mbind result_bind]; [|done].
  destruct (foldM _ st2 after) as [st3|e] eqn:H3; cbn [mbind result_bind]; [|done].
  intros [= <-]. cbn [fst snd].
  destruct (process_lines_preserve _ _ _ _ _ _ _ _ _ Hafter H3) as [-> ->].
  unfold process_line in H2. rewrite Hline in H2. cbv zeta in H2.
  destruct (infer_queen_gt_from_list _ _ _ _) as [gt|e]; cbn [mbind result_bind] in H2; [|done].
  injection H2 as <-. exists gt. split; [done|]. cbn [fst snd]. unfold Py.setitem.
  fold (variant_key_of line). by rewrite get_upsert_eq, lookup_insert_eq.
Qed.

Lemma task_call_is_consensus_of_last_record_witness :
  exists r gt,
    get_queen_genotypes two_queens_vcf "qA" ["d1"; "d2"] 0.125 2 false = Ok r
    /\ infer_queen_gt_from_list
         (drone_call
            (Py.dict_of_pairs
               (zip (extract_samples_from_header [chrom_line ["d1"; "d2"; "d3"; "d4"]])
                  (drop 9 (Py.split Py.TAB (Py.strip
                     (vcf_line ["10"; "200"; "."; "A"; "T"; "50"; "PASS"; "."; "GT";
                                "0/0"; "0/0"; "1/1"; "1/1"]))))))
            <$> ["d1"; "d2"]) 0.125 2 false = Ok gt
    /\ Py.get (variant_key_of
                 (vcf_line ["10"; "200"; "."; "A"; "T"; "50"; "PASS"; "."; "GT";
                            "0/0"; "0/0"; "1/1"; "1/1"])) r.1.2 = Some gt.
Proof.
  destruct (is_ok_Ok (get_queen_genotypes two_queens_vcf "qA" ["d1"; "d2"] 0.125 2 false))
    as [r Hr]; [by vm_compute|].
  destruct (task_call_is_consensus_of_last_record
              ["##fileformat=VCFv4.2" +:+ NLs]
              [vcf_line ["2"; "100"; "."; "A"; "T"; "50"; "PASS"; "."; "GT";
                         "0/0"; "0/1:3"; "./."; "1/1"]]
              []
              (chrom_line ["d1"; "d2"; "d3"; "d4"])
              (vcf_line ["10"; "200"; "."; "A"; "T"; "50"; "PASS"; "."; "GT";
                         "0/0"; "0/0"; "1/1"; "1/1"])
              "qA" ["d1"; "d2"] 0.125 2%Z false r) as (gt & Hgt & Hget & _).
  - repeat constructor.
  - reflexivity.
  - reflexivity.
  - constructor.
  - exact Hr.
  - exists r, gt. split; [exact Hr|]. split; [exact Hgt|exact Hget].
Defined.

(** ** A list without queens *)




(** ** The shape of the output *)

Lemma length_split_append (s t : string) :
  length (Py.split Py.TAB (s +:+ t)) + 1
  = length (Py.split Py.TAB s) + length (Py.split Py.TAB t).
Proof.
  induction s as [|c s IH]; [change ("" +:+ t) with t; cbn [Py.split length]; lia|].
  rewrite append_cons. cbn [Py.split].
  pose proof (split_nonempty Py.TAB (s +:+ t)) as H1.
  pose proof (split_nonempty Py.TAB s) as H2.
  destruct (Ascii.eqb c Py.TAB); [cbn [length]; lia|].
  destruct (Py.split Py.TAB (s +:+ t)) as [|f fs]; [done|].
  destruct (Py.split Py.TAB s) as [|g gs]; [done|]. cbn [length] in *. lia.
Qed.

Lemma length_split_line (fs : list string) :
  fs ≠ [] -> Forall tab_free fs ->
  length (Py.split Py.TAB (Py.join TABs fs +:+ NLs)) = length fs.
Proof.
  intros Hne Hfs. pose proof (length_split_append (Py.join TABs fs) NLs) as H.
  rewrite (split_join fs Hne Hfs) in H. cbn in H. lia.
Qed.

Lemma space_free_tab_free (s : string) : space_free s -> tab_free s.
Proof.
  intros Hs. unfold tab_free. destruct (Py.contains Py.TAB s) eqn:Hc; [|done].
  by apply Hs in Hc.
Qed.

Lemma queen_names_tab_free (list_file : list string) :
  Forall tab_free (Py.keys (read_list list_file).1).
Proof.
  apply Forall_forall. intros q Hq. apply space_free_tab_free.
  destruct (get_is_Some _ _ Hq) as [ds Hds]. rewrite read_list_get in Hds.
  destruct (drones_listed_for q list_file) as [|d ds'] eqn:Hd; [done|].
  assert (d ∈ drones_listed_for q list_file) as Hin by (rewrite Hd; left).
  apply drones_listed_for_elem in Hin as (line & rest & _ & Htok).
  pose proof (split_ws_space_free (Py.strip line)) as Hsf. rewrite Htok in Hsf.
  by apply Forall_cons in Hsf as [? _].
Qed.

Lemma queen_calls_tab_free (calls : list string) :
  Forall (fun c => c ∈ queen_calls) calls -> Forall tab_free calls.
Proof.
  intros Hcalls. eapply Forall_impl; [exact Hcalls|]. intros c Hc. unfold queen_calls in Hc.
  repeat (apply elem_of_cons in Hc as [->|Hc]; [done|]). by apply elem_of_nil in Hc.
Qed.

Lemma length_split_output_line (parts xs : list string) :
  9 <= length parts -> Forall tab_free parts -> Forall tab_free xs ->
  length (Py.split Py.TAB (Py.join TABs (take 9 parts ++ xs) +:+ NLs)) = 9 + length xs.
Proof.
  intros Hlen Hparts Hxs. rewrite length_split_line.
  - rewrite length_app, length_take. lia.
  - destruct parts; [cbn in Hlen; lia|done].
  - apply Forall_app. split; [by apply Forall_take|done].
Qed.

Lemma write_headers_lines (vcf queen_names : list string) :
  Forall (fun out =>
            Py.startswith "##" out = true
            \/ exists line, line ∈ vcf /\ Py.startswith "#CHROM" line = true
                 /\ out = Py.join TABs (take 9 (Py.split Py.TAB (Py.strip line)) ++ queen_names)
                         +:+ NLs)
         (write_headers vcf queen_names).
Proof.
  induction vcf as [|l vcf IH]; cbn [write_headers]; [constructor|].
  assert (Forall (fun out =>
            Py.startswith "##" out = true
            \/ exists line, line ∈ l :: vcf /\ Py.startswith "#CHROM" line = true
                 /\ out = Py.join TABs (take 9 (Py.split Py.TAB (Py.strip line)) ++ queen_names)
                         +:+ NLs)
         (write_headers vcf queen_names)) as IH'.
  { eapply Forall_impl; [exact IH|]. intros out [?|(line & ? & ? & ?)]; [by left|].
    right. exists line. split; [by right|done]. }
  destruct (Py.startswith "##" l) eqn:H2; [constructor; [by left|done]|].
  destruct (Py.startswith "#CHROM" l) eqn:Hc; [|done].
  constructor; [|constructor]. right. exists l. split; [by left|done].
Qed.

(** X27: the output is rectangular.  When every line of the input that
    is not a [##] line has nine tab-separated fields at least, every line
    that [main] writes is either a [##] line or has nine fields and one
    more for each queen: the header line and the data rows alike. *)
Theorem output_is_rectangular (a : args) (lines : list string) :
  main a = Ok lines ->
  Forall (fun l => Py.startswith "##" l = false ->
                   9 <= length (Py.split Py.TAB (Py.strip l))) (arg_vcf a) ->
  Forall (fun out =>
            Py.startswith "##" out = true
            \/ length (Py.split Py.TAB out)
               = 9 + length (Py.keys (read_list (arg_list a)).1)) lines.
Proof.
  intros Hmain Hnine. rewrite Forall_forall in Hnine.
  destruct (main_rows a lines Hmain) as (rows & -> & Hrows).
  pose proof (queen_names_tab_free (arg_list a)) as Hnames.
  apply Forall_app. split.
  - eapply Forall_impl; [apply write_headers_lines|].
    intros out [?|(line & Hl & Hc & ->)]; [by left|]. right.
    apply length_split_output_line; [|apply split_tab_free|done].
    apply Hnine; [done|]. unfold Py.startswith in *.
    apply prefix_cons_inv in Hc as (s1 & -> & H).
    by apply prefix_cons_inv in H as (s2 & -> & _).
  - eapply Forall_impl; [exact Hrows|].
    intros row (line & calls & Hl & Hn & -> & Hcalls). right.
    assert (length calls = length (Py.keys (read_list (arg_list a)).1)) as <-.
    { unfold Py.keys. rewrite length_fmap. symmetry. by eapply Forall2_length. }
    apply length_split_output_line; [|apply split_tab_free|].
    + apply Hnine; [done|]. unfold Py.startswith in *.
      destruct line as [|c line]; [done|]. cbn [String.prefix] in Hn |- *.
      destruct (ascii_dec "#" c); [by destruct line|done].
    + apply queen_calls_tab_free. eapply Forall2_Forall_r; [exact Hcalls|].
      apply Forall_forall. by intros qd _ call (r & _ & _ & ?).
Qed.

Lemma output_is_rectangular_witness :
  exists lines,
    main (two_queens_args 1) = Ok lines
    /\ Forall (fun out =>
                 Py.startswith "##" out = true
                 \/ length (Py.split Py.TAB out)
                    = 9 + length (Py.keys (read_list (arg_list (two_queens_args 1))).1)) lines.
Proof.
  destruct (is_ok_Ok (main (two_queens_args 1))) as [lines H]; [by vm_compute|].
  exists lines. split; [exact H|].
  apply (output_is_rectangular _ _ H).
  apply (bool_decide_unpack _). by vm_compute.
Defined.

(** X28: the sample columns of the output are the queens in the order
    in which the list file first names them. *)
Theorem queen_columns_in_order_of_first_appearance (list_file : list string) :
  Py.keys (read_list list_file).1 = first_occurrences (omap listed_queen list_file).
Proof.
  induction list_file as [|line l IH] using rev_ind; [done|].
  rewrite read_list_snoc, omap_app. unfold first_occurrences in *. rewrite foldl_app, <- IH.
  unfold read_list_line, listed_queen. cbn [omap list_omap].
  destruct (Py.split_ws (Py.strip line)) as [|t0 [|t1 rest]]; cbn [fst foldl]; [done..|].
  by rewrite keys_upsert.
Qed.

(* ================================================================= *)
(** * Integer literals and the order of the rows *)

(** [int] on some ASCII strings: white space of C's [isspace] is skipped on
    both sides, a sign and single underscores between digits are read, and
    the separator [\x1c], which [strip] removes, is refused. *)
Example int_on_ascii_text :
  Py.int (" 50" +:+ NLs) = Ok 50%Z
  /\ Py.int "0050" = Ok 50%Z
  /\ Py.int "-12" = Ok (-12)%Z
  /\ Py.int "+1_000" = Ok 1000%Z
  /\ Py.int ("5" +:+ String "028" "")
     = Raise (ValueError "invalid literal for int() with base 10")
  /\ Py.strip ("5" +:+ String "028" "") = "5"
  /\ Py.int "1__0" = Raise (ValueError "invalid literal for int() with base 10")
  /\ Py.int "+ 12" = Raise (ValueError "invalid literal for int() with base 10")
  /\ Py.int "5.0" = Raise (ValueError "invalid literal for int() with base 10")
  /\ Py.int "" = Raise (ValueError "invalid literal for int() with base 10").
Proof. repeat split; reflexivity. Qed.

(** The limit on the number of digits counts the digits only, leading
    zeros included. *)
Example int_digit_limit :
  is_ok (Py.int (ones 4300)) = true
  /\ is_ok (Py.int (" -" +:+ ones 4300 +:+ NLs)) = true
  /\ Py.int (ones 4301)
     = Raise (ValueError "Exceeds the limit (4300 digits) for integer string conversion")
  /\ Py.int ("0" +:+ ones 4300)
     = Raise (ValueError "Exceeds the limit (4300 digits) for integer string conversion").
Proof. repeat split; by vm_compute. Qed.

Section Decimal.

Local Open Scope Z_scope.

(** A character that the Standard Library reads as a decimal digit is a
    digit for [int], with the same value. *)
Lemma uint_of_char_digit (a : ascii) (u' u : Decimal.uint) :
  uint_of_char a (Some u') = Some u ->
  exists d,
    0 <= d <= 9
    /\ Py.digit_val a = Some d
    /\ Py.isspace_c a = false
    /\ (forall acc, Pos.of_uint_acc u acc = Pos.of_uint_acc u' (Z.to_pos (10 * Z.pos acc + d)))
    /\ Pos.of_uint u
       = (if decide (d = 0) then Pos.of_uint u' else N.pos (Pos.of_uint_acc u' (Z.to_pos d))).
Proof.
  destruct a as [[|] [|] [|] [|] [|] [|] [|] [|]]; cbn [uint_of_char]; try discriminate;
    intros [= <-];
    [exists 7|exists 3|exists 5|exists 9|exists 1|exists 6|exists 2|exists 4|exists 8|exists 0];
    (split; [lia|]); (split; [reflexivity|]); (split; [reflexivity|]);
    (split; [intros acc; cbn [Pos.of_uint_acc]; f_equal; lia|reflexivity]).
Qed.

Lemma uint_of_string_cons (a : ascii) (s : string) (u : Decimal.uint) :
  NilEmpty.uint_of_string (String a s) = Some u ->
  exists u', NilEmpty.uint_of_string s = Some u' /\ uint_of_char a (Some u') = Some u.
Proof.
  cbn [NilEmpty.uint_of_string].
  destruct (NilEmpty.uint_of_string s) as [u'|]; [by exists u'|done].
Qed.

Lemma int_digits_acc (s : string) (u : Decimal.uint) (acc : positive) :
  NilEmpty.uint_of_string s = Some u ->
  Py.int_digits (Z.pos acc) true s = Some (Z.pos (Pos.of_uint_acc u acc)).
Proof.
  revert u acc. induction s as [|a s IH]; intros u acc.
  - by intros [= <-].
  - intros (u' & Hs & Ha)%uint_of_string_cons.
    apply uint_of_char_digit in Ha as (d & Hd & Hdv & _ & Hacc & _).
    cbn [Py.int_digits]. rewrite Hdv, Hacc.
    replace (10 * Z.pos acc + d) with (Z.pos (Z.to_pos (10 * Z.pos acc + d))) by lia.
    by apply IH.
Qed.

Lemma int_digits_decimal (s : string) (u : Decimal.uint) (after_digit : bool) :
  s ≠ EmptyString ->
  NilEmpty.uint_of_string s = Some u ->
  Py.int_digits 0 after_digit s = Some (Z.of_N (Pos.of_uint u)).
Proof.
  revert u after_digit. induction s as [|a s IH]; intros u after_digit Hne; [done|].
  intros (u' & Hs & Ha)%uint_of_string_cons.
  apply uint_of_char_digit in Ha as (d & Hd & Hdv & _ & _ & Hof).
  cbn [Py.int_digits]. rewrite Hdv, Hof. change (10 * 0 + d) with d.
  destruct (decide (d = 0)) as [->|Hd0].
  - destruct s as [|b s]; [by injection Hs as <-|]. by apply IH.
  - replace d with (Z.pos (Z.to_pos d)) at 1 by lia.
    by rewrite (int_digits_acc s u' _ Hs).
Qed.

End Decimal.

Lemma decimal_no_space (s : string) (u : Decimal.uint) :
  NilEmpty.uint_of_string s = Some u ->
  forall c, Py.contains c s = true -> Py.isspace_c c = false.
Proof.
  revert u. induction s as [|a s IH]; intros u; [done|].
  intros (u' & Hs & Ha)%uint_of_string_cons c.
  apply uint_of_char_digit in Ha as (d & _ & _ & Hsp & _).
  cbn [Py.contains]. intros [Heq|Hc]%orb_true_iff; [|by eapply IH].
  by apply Ascii.eqb_eq in Heq as <-.
Qed.

Lemma lstrip_c_no_space (s : string) :
  (forall c, Py.contains c s = true -> Py.isspace_c c = false) -> Py.lstrip_c s = s.
Proof.
  destruct s as [|a s]; [done|]. intros Hs. cbn [Py.lstrip_c].
  rewrite Hs; [done|]. cbn [Py.contains]. by rewrite Ascii.eqb_refl.
Qed.

Lemma strip_c_no_space (s : string) :
  (forall c, Py.contains c s = true -> Py.isspace_c c = false) -> Py.strip_c s = s.
Proof.
  intros Hs. unfold Py.strip_c. rewrite (lstrip_c_no_space s Hs).
  rewrite lstrip_c_no_space; [apply rev_involutive|].
  intros c Hc. apply Hs. by rewrite <- contains_rev.
Qed.

(** A literal that begins with a digit has no sign. *)
Lemma int_unsigned (a : ascii) (s : string) (d : Z) :
  Py.digit_val a = Some d ->
  match String a s with
  | String "-"%char s' => Py.int_value Z.opp s'
  | String "+"%char s' => Py.int_value id s'
  | s' => Py.int_value id s'
  end = Py.int_value id (String a s).
Proof.
  by destruct a as [[|] [|] [|] [|] [|] [|] [|] [|]].
Qed.

(** On a string of decimal digits, [int] returns the value that the
    Standard Library reads, unless the string is longer than the limit. *)
Lemma int_decimal (s : string) (z : Z) :
  decimal_value s = Some z ->
  Py.int s
  = if (Py.count_digits s <=? Py.max_str_digits)%nat then Ok z
    else Raise (ValueError "Exceeds the limit (4300 digits) for integer string conversion").
Proof.
  unfold decimal_value, NilZero.uint_of_string. destruct s as [|a s]; [done|].
  destruct (NilEmpty.uint_of_string (String a s)) as [u|] eqn:Hu; [|done].
  intros [= <-]. unfold Py.int.
  rewrite (strip_c_no_space _ (decimal_no_space _ _ Hu)).
  destruct (uint_of_string_cons _ _ _ Hu) as (u' & _ & Ha).
  apply uint_of_char_digit in Ha as (d & _ & Hdv & _).
  rewrite (int_unsigned a s d Hdv). unfold Py.int_value.
  assert (String a s ≠ EmptyString) as Hne by done.
  rewrite (int_digits_decimal _ u false Hne Hu). reflexivity.
Qed.

Lemma int_decimal_value (s : string) (z z' : Z) :
  decimal_value s = Some z -> Py.int s = Ok z' -> z' = z.
Proof.
  intros Hz. rewrite (int_decimal s z Hz).
  destruct (_ <=? _)%nat; [by intros [= ->]|done].
Qed.

(** C8: when the key of every merged site can be computed and every
    site has its annotation columns, kept under the key that their first
    five columns make, [write_combined_vcf] writes, after the header, one
    row per site.  Each row begins with the chromosome and the position of
    its site, and the rows come in an order in which these
    [(chromosome, position)] pairs are sorted: chromosomes compared as
    strings, character by character, and positions as integers, a position
    written in decimal digits counting for its decimal value.  So
    chromosome ["10"] comes before chromosome ["2"], and on one chromosome
    position [50] comes before position [200]. *)
Theorem rows_sorted_by_chrom_then_pos (input_vcf queen_names : list string)
    (all_genotypes : Py.odict (gmap string string))
    (info_map : gmap string (list string)) :
  Forall (fun k => exists sk, variant_key_sorter k = Ok sk) (Py.keys all_genotypes) ->
  (forall k, k ∈ Py.keys all_genotypes -> is_Some (info_map !! k)) ->
  info_ok info_map ->
  (exists (variant_keys : list string) (sort_keys : list (string * Z)) (rows : list string),
      write_combined_vcf input_vcf queen_names all_genotypes info_map
      = Ok (write_headers input_vcf queen_names ++ rows)
      /\ variant_keys ≡ₚ Py.keys all_genotypes
      /\ Forall2 (fun k row => write_row queen_names all_genotypes info_map k = Ok row)
                 variant_keys rows
      /\ Forall2 (fun k sk => variant_key_sorter k = Ok sk) variant_keys sort_keys
      /\ Forall2 (fun row sk =>
                    exists pos rest,
                      row = Py.join TABs (sk.1 :: pos :: rest) +:+ NLs
                      /\ Py.int pos = Ok sk.2
                      /\ (forall z, decimal_value pos = Some z -> sk.2 = z))
                 rows sort_keys
      /\ StronglySorted chrom_pos_le sort_keys)
  /\ (forall p q : Z, chrom_pos_le ("10", p) ("2", q) /\ ~ chrom_pos_le ("2", q) ("10", p))
  /\ (forall chrom : string, chrom_pos_le (chrom, 50%Z) (chrom, 200%Z)
                             /\ ~ chrom_pos_le (chrom, 200%Z) (chrom, 50%Z)).
Proof.
  intros Hkeys Hinfo Hok. split; [|split].
  - destruct (sorted_spec variant_key_sorter _ Hkeys) as (keyed & Hsorted & Hperm & Hf & Hss).
    destruct (write_rows_Ok queen_names (all_genotypes, info_map) keyed.*2) as [rows Hrows].
    { exact Hinfo. }
    { intros k Hk. by rewrite <- Hperm. }
    cbn [fst snd] in Hrows.
    exists keyed.*2, keyed.*1, rows.
    unfold write_combined_vcf. rewrite Hsorted. cbn [mbind result_bind].
    rewrite Hrows. cbn [mbind result_bind].
    apply traverse_Ok_Forall2 in Hrows.
    split; [done|]. split; [done|]. split; [done|].
    split; [|split; [|done]].
    + clear -Hf. induction Hf as [|[sk k] l Hk _ IH]; cbn [fmap list_fmap fst snd];
        constructor; done.
    + clear -Hok Hf Hrows. revert rows Hrows.
      induction Hf as [|[sk k] l Hk _ IH]; intros rows Hrows.
      * inversion Hrows. constructor.
      * inversion Hrows as [|? row ? rows' Hrow Hrows']; subst.
        constructor; [|by apply IH].
        destruct (write_row_begins_with_key _ _ _ _ _ _ Hok Hk Hrow) as (pos & rest & -> & Hpos).
        exists pos, rest. split; [done|]. split; [done|].
        intros z Hz. by apply (int_decimal_value pos).
  - intros p q. split.
    + left. by apply String_as_OT.cmp_lt.
    + intros [H|[H _]]; [|done]. apply String_as_OT.cmp_lt in H. done.
  - intros chrom. split.
    + right. cbn [fst snd]. split; [done|lia].
    + intros [H|[_ H]]; cbn [fst snd] in H; [|lia].
      by apply string_lt_irrefl in H.
Qed.

Lemma rows_sorted_by_chrom_then_pos_witness :
  write_combined_vcf haploid_vcf ["qA"; "qB"] three_sites three_sites_info
  = Ok (write_headers haploid_vcf ["qA"; "qB"]
        ++ [ vcf_line ["10"; "50"; "."; "A"; "T"; "50"; "PASS"; "."; "GT"; "0/0"; "./."];
             vcf_line ["10"; "200"; "."; "A"; "T"; "50"; "PASS"; "."; "GT"; "0/0"; "1/1"];
             vcf_line ["2"; "100"; "."; "A"; "T"; "50"; "PASS"; "."; "GT"; "0/1"; "./."] ])
  /\ Py.keys three_sites
     = [ Py.join TABs ["2"; "100"; "."; "A"; "T"]; Py.join TABs ["10"; "200"; "."; "A"; "T"];
         Py.join TABs ["10"; "50"; "."; "A"; "T"] ]
  /\ exists (variant_keys : list string) (sort_keys : list (string * Z)) (rows : list string),
       write_combined_vcf haploid_vcf ["qA"; "qB"] three_sites three_sites_info
       = Ok (write_headers haploid_vcf ["qA"; "qB"] ++ rows)
       /\ variant_keys ≡ₚ Py.keys three_sites
       /\ Forall2 (fun k row => write_row ["qA"; "qB"] three_sites three_sites_info k = Ok row)
                  variant_keys rows
       /\ Forall2 (fun k sk => variant_key_sorter k = Ok sk) variant_keys sort_keys
       /\ Forall2 (fun row sk =>
                     exists pos rest,
                       row = Py.join TABs (sk.1 :: pos :: rest) +:+ NLs
                       /\ Py.int pos = Ok sk.2
                       /\ (forall z, decimal_value pos = Some z -> sk.2 = z))
                  rows sort_keys
       /\ StronglySorted chrom_pos_le sort_keys.
Proof.
  split; [by vm_compute|]. split; [reflexivity|].
  apply (rows_sorted_by_chrom_then_pos haploid_vcf ["qA"; "qB"] three_sites three_sites_info).
  - repeat constructor; eexists; reflexivity.
  - intros k Hk. unfold three_sites, Py.keys in Hk. simpl in Hk.
    repeat (apply elem_of_cons in Hk as [->|Hk]; [by vm_compute; eexists|]).
    by apply elem_of_nil in Hk.
  - unfold info_ok. apply (bool_decide_unpack _). by vm_compute.
Defined.

(* ================================================================= *)
(** * The run with its external tools *)

Lemma with_tools_main (env : tools) (out : string) (a : args) :
  WithTools.main env out a
  = (lines ← main a;
     _ ← subprocess_run_check
           ["bgzip"; "-f"; temp_vcf (path_join out "all_queens.vcf.gz")] (bgzip env lines);
     _ ← subprocess_run_check
           ["tabix"; "-p"; "vcf"; path_join out "all_queens.vcf.gz"] (tabix env lines);
     Ok lines).
Proof.
  unfold WithTools.main, main, finish, WithTools.write_combined_vcf.
  destruct (arg_threads a <=? 0)%Z; [done|].
  by destruct (foldM collect _ _) as [m|e].
Qed.

Lemma subprocess_run_check_Ok (cmd : list string) (o : run_outcome) (u : unit) :
  subprocess_run_check cmd o = Ok u <-> o = Exited 0.
Proof.
  unfold subprocess_run_check. destruct o as [[|p|p]|msg]; split; try done.
  by destruct u.
Qed.

Lemma subprocess_run_check_Raise (cmd : list string) (o : run_outcome) (e : exn) :
  subprocess_run_check cmd o = Raise e ->
  (exists returncode, o = Exited returncode /\ returncode ≠ 0%Z
                      /\ e = CalledProcessError returncode cmd)
  \/ (exists strerror, o = NotStarted strerror /\ e = OSError strerror).
Proof.
  unfold subprocess_run_check. destruct o as [[|p|p]|msg]; [done| | |].
  - intros [= <-]. left. by exists (Z.pos p).
  - intros [= <-]. left. by exists (Z.neg p).
  - intros [= <-]. right. by exists msg.
Qed.

(** X14: how a run can fail, where the input files can be read and the
    output file written.  [main] raises in six cases only: the number of
    threads is not positive; the variant file has no [#CHROM] line; the
    minimum is not positive and a division by zero occurs; a data line of
    the file has no sort key; [bgzip] does not exit with status 0 on the
    file that was written; or [bgzip] does and [tabix] does not.  The last
    two give [CalledProcessError] when the program exits with another
    status and [OSError] when it cannot be started.  The two look-ups
    [info_map[variant_key]] never raise [KeyError]. *)
Theorem main_raises_only (env : tools) (out : string) (a : args) (e : exn) :
  WithTools.main env out a = Raise e ->
  ((e = ValueError "max_workers must be greater than 0" /\ (arg_threads a <= 0)%Z)
   \/ (e = ValueError "No #CHROM line found in VCF" /\ no_chrom_line (arg_vcf a))
   \/ (e = ZeroDivisionError /\ (arg_min_drones a <= 0)%Z)
   \/ (exists line msg,
         line ∈ arg_vcf a /\ Py.startswith "#" line = false
         /\ variant_key_sorter (variant_key_of line) = Raise e /\ e = ValueError msg)
   \/ (exists lines,
         main a = Ok lines
         /\ ((exists returncode,
                bgzip env lines = Exited returncode /\ returncode ≠ 0%Z
                /\ e = CalledProcessError returncode
                         ["bgzip"; "-f"; temp_vcf (path_join out "all_queens.vcf.gz")])
             \/ (exists strerror,
                   bgzip env lines = NotStarted strerror /\ e = OSError strerror)))
   \/ (exists lines,
         main a = Ok lines /\ bgzip env lines = Exited 0
         /\ ((exists returncode,
                tabix env lines = Exited returncode /\ returncode ≠ 0%Z
                /\ e = CalledProcessError returncode
                         ["tabix"; "-p"; "vcf"; path_join out "all_queens.vcf.gz"])
             \/ (exists strerror,
                   tabix env lines = NotStarted strerror /\ e = OSError strerror))))
  /\ (forall key, e ≠ KeyError key).
Proof.
  rewrite with_tools_main. intros Hrun.
  assert ((e = ValueError "max_workers must be greater than 0" /\ (arg_threads a <= 0)%Z)
   \/ (e = ValueError "No #CHROM line found in VCF" /\ no_chrom_line (arg_vcf a))
   \/ (e = ZeroDivisionError /\ (arg_min_drones a <= 0)%Z)
   \/ (exists line msg,
         line ∈ arg_vcf a /\ Py.startswith "#" line = false
         /\ variant_key_sorter (variant_key_of line) = Raise e /\ e = ValueError msg)
   \/ (exists lines,
         main a = Ok lines
         /\ ((exists returncode,
                bgzip env lines = Exited returncode /\ returncode ≠ 0%Z
                /\ e = CalledProcessError returncode
                         ["bgzip"; "-f"; temp_vcf (path_join out "all_queens.vcf.gz")])
             \/ (exists strerror,
                   bgzip env lines = NotStarted strerror /\ e = OSError strerror)))
   \/ (exists lines,
         main a = Ok lines /\ bgzip env lines = Exited 0
         /\ ((exists returncode,
                tabix env lines = Exited returncode /\ returncode ≠ 0%Z
                /\ e = CalledProcessError returncode
                         ["tabix"; "-p"; "vcf"; path_join out "all_queens.vcf.gz"])
             \/ (exists strerror,
                   tabix env lines = NotStarted strerror /\ e = OSError strerror)))) as Hcases.
  { destruct (main a) as [lines|e'] eqn:Hmain; cbn [mbind result_bind] in Hrun.
    - destruct (subprocess_run_check _ (bgzip env lines)) as [[]|e1] eqn:Hb;
        cbn [mbind result_bind] in Hrun.
      + apply subprocess_run_check_Ok in Hb.
        destruct (subprocess_run_check _ (tabix env lines)) as [[]|e2] eqn:Ht;
          cbn [mbind result_bind] in Hrun; [done|].
        injection Hrun as ->. apply subprocess_run_check_Raise in Ht.
        do 5 right. by exists lines.
      + injection Hrun as ->. apply subprocess_run_check_Raise in Hb.
        do 4 right. left. by exists lines.
    - injection Hrun as ->.
      destruct (main_raises a e Hmain) as [?|[?|[?|?]]]; [by left|right; by left| |].
      + right. right. by left.
      + right. right. right. by left. }
  split; [exact Hcases|]. intros key ->.
  destruct Hcases as [[? _]|[[? _]|[[? _]|[(? & ? & _ & _ & _ & ?)|[(? & _ & H)|(? & _ & _ & H)]]]]];
    try done; by destruct H as [(? & _ & _ & ?)|(? & _ & ?)].
Qed.

Lemma main_raises_only_witness :
  exists e,
    WithTools.main tools_without_tabix "out" (two_queens_args 1) = Raise e
    /\ e = OSError "No such file or directory: 'tabix'"
    /\ (forall key, e ≠ KeyError key).
Proof.
  exists (OSError "No such file or directory: 'tabix'").
  assert (WithTools.main tools_without_tabix "out" (two_queens_args 1)
          = Raise (OSError "No such file or directory: 'tabix'")) as H by by vm_compute.
  split; [exact H|]. split; [reflexivity|].
  exact (proj2 (main_raises_only _ _ _ _ H)).
Defined.

(** X15: when a run succeeds, where the input files can be read and
    the output file written.  With a positive number of threads, a minimum
    of one at least, one queen at least in the list and a variant file of
    ASCII text, [main] returns exactly when the variant file has a [#CHROM]
    line, every line after the first such line either begins with [#] or
    has a sort key, and [bgzip] and [tabix] both exit with status 0 on the
    file that was written.  So one blank line after the header makes the
    run fail, after every task has finished. *)
Theorem main_succeeds_iff (env : tools) (out : string) (a : args) :
  (0 < arg_threads a)%Z -> (1 <= arg_min_drones a)%Z ->
  (read_list (arg_list a)).1 ≠ [] ->
  Forall (fun line => isascii line = true) (arg_vcf a) ->
  (exists lines, WithTools.main env out a = Ok lines)
  <-> (exists pre line rest,
         arg_vcf a = pre ++ line :: rest /\ no_chrom_line pre
         /\ Py.startswith "#CHROM" line = true
         /\ Forall (fun l => Py.startswith "#" l = false -> sortable_line l) rest)
      /\ (forall lines, main a = Ok lines ->
            bgzip env lines = Exited 0 /\ tabix env lines = Exited 0).
Proof.
  intros Hth Hmin Hqm _. rewrite with_tools_main, <- (main_Ok_iff a Hth Hmin Hqm). split.
  - intros [lines Hrun].
    destruct (main a) as [lines'|e] eqn:Hmain; cbn [mbind result_bind] in Hrun; [|done].
    destruct (subprocess_run_check _ (bgzip env lines')) as [[]|e1] eqn:Hb;
      cbn [mbind result_bind] in Hrun; [|done].
    destruct (subprocess_run_check _ (tabix env lines')) as [[]|e2] eqn:Ht;
      cbn [mbind result_bind] in Hrun; [|done].
    apply subprocess_run_check_Ok in Hb, Ht.
    split; [by exists lines'|]. by intros ? [= <-].
  - intros [[lines Hmain] Htools]. destruct (Htools lines Hmain) as [Hb Ht].
    exists lines. rewrite Hmain. cbn [mbind result_bind]. by rewrite Hb, Ht.
Qed.

Lemma main_succeeds_iff_witness :
  (exists lines, WithTools.main tools_ok "out" (two_queens_args 1) = Ok lines)
  <-> (exists pre line rest,
         arg_vcf (two_queens_args 1) = pre ++ line :: rest /\ no_chrom_line pre
         /\ Py.startswith "#CHROM" line = true
         /\ Forall (fun l => Py.startswith "#" l = false -> sortable_line l) rest)
      /\ (forall lines, main (two_queens_args 1) = Ok lines ->
            bgzip tools_ok lines = Exited 0 /\ tabix tools_ok lines = Exited 0).
Proof.
  apply main_succeeds_iff; [reflexivity|simpl; lia|by vm_compute|].
  apply (bool_decide_unpack _). by vm_compute.
Defined.
